(** * node-printer-driver: a shallow embedding of the printing adapters

    The development follows the TypeScript sources:
    - [Unix]    embeds [src/unix-printer.ts]  (CUPS [lp] / [lpstat] shell-outs),
    - [Windows] embeds [src/pdf-printer.ts]   (Print Spooler calls through FFI),
    - [Index]   embeds [src/index.ts]         (the cross-platform facade).

    JavaScript values are modelled as follows.  Strings are sequences of
    code units restricted to U+0000..U+00FF ([string]); integral numbers are
    [Z]; an optional property [p?: T] is [option T] ([None] is [undefined]);
    a [Buffer] is a list of bytes.  Exceptions, the file system, the clock
    and the calls that leave the process (child processes, spooler
    functions, the console) are threaded through a state-and-exception
    monad whose state records every external call in order. *)

From Stdlib Require Import ZArith Ascii String List Strings.Byte.
From Stdlib Require Import Numbers.DecimalString.
From stdpp Require Import base option strings list gmap.

Local Open Scope Z_scope.

(** ** JavaScript primitives used by the sources *)

Module Js.

(** [WhiteSpace] and [LineTerminator] code units matched by the regular
    expression class [\s], below U+0100: TAB, LF, VT, FF, CR, SP, NBSP. *)
Definition isWhiteSpace (c : ascii) : bool :=
  match nat_of_ascii c with
  | 9%nat | 10%nat | 11%nat | 12%nat | 13%nat | 32%nat | 160%nat => true
  | _ => false
  end.

(** Code units not matched by [.] in a regular expression without the
    [s] flag, below U+0100: LF and CR. *)
Definition isLineTerminator (c : ascii) : bool :=
  match nat_of_ascii c with
  | 10%nat | 13%nat => true
  | _ => false
  end.

Definition isEmpty (s : string) : bool :=
  match s with EmptyString => true | String _ _ => false end.

(** Truthiness of a string: every string but the empty one. *)
Definition truthy (s : string) : bool := negb (isEmpty s).

(** [s.startsWith(p)] *)
Definition startsWith (s p : string) : bool := String.prefix p s.

(** [s.includes(needle)] *)
Fixpoint includes (s needle : string) : bool :=
  startsWith s needle ||
  match s with
  | EmptyString => false
  | String _ rest => includes rest needle
  end.

(** Longest prefix of [s] whose code units satisfy [p], and the rest. *)
Fixpoint span (p : ascii -> bool) (s : string) : string * string :=
  match s with
  | EmptyString => (EmptyString, EmptyString)
  | String c rest =>
      if p c
      then let '(taken, remaining) := span p rest in (String c taken, remaining)
      else (EmptyString, s)
  end.

(** [s] without its prefix [p], when it has that prefix. *)
Fixpoint dropPrefix (p s : string) : option string :=
  match p, s with
  | EmptyString, _ => Some s
  | String a p', String b s' =>
      if Ascii.eqb a b then dropPrefix p' s' else None
  | String _ _, EmptyString => None
  end.

(** [s.split(sep)] for a separator of one code unit. *)
Fixpoint split (sep : ascii) (s : string) : list string :=
  match s with
  | EmptyString => [EmptyString]
  | String c rest =>
      if Ascii.eqb c sep then EmptyString :: split sep rest
      else match split sep rest with
           | [] => [String c EmptyString]
           | piece :: pieces => String c piece :: pieces
           end
  end.

(** [l.join(sep)] *)
Definition join (sep : string) (l : list string) : string :=
  String.concat sep l.

Fixpoint trimStart (s : string) : string :=
  match s with
  | EmptyString => EmptyString
  | String c rest => if isWhiteSpace c then trimStart rest else s
  end.

Fixpoint trimEnd (s : string) : string :=
  match s with
  | EmptyString => EmptyString
  | String c rest =>
      match trimEnd rest with
      | EmptyString => if isWhiteSpace c then EmptyString
                       else String c EmptyString
      | kept => String c kept
      end
  end.

(** [s.trim()] *)
Definition trim (s : string) : string := trimEnd (trimStart s).

(** [Number.isSafeInteger(n)]: the integers of magnitude below 2^53, each
    of which is a Number of its own. *)
Definition isSafeInteger (n : Z) : bool :=
  (- 2 ^ 53 <? n) && (n <? 2 ^ 53).

(** [n.toString()] and [`${n}`] for a Number that is a safe integer: the
    decimal digits, with a leading minus sign.  Beyond the safe integers
    a Number is not determined by an integer and its text is not the
    digit string (from 10^21 on it is written with an exponent): what is
    proved of the text of a number that comes from the caller assumes
    [isSafeInteger]. *)
Definition Number_toString (n : Z) : string :=
  NilZero.string_of_int (Z.to_int n).

(** [ToInt32]: the wrap-around applied to both operands of [|]. *)
Definition ToInt32 (n : Z) : Z := (n + 2 ^ 31) mod 2 ^ 32 - 2 ^ 31.

(** [a | b] on numbers. *)
Definition bitor (a b : Z) : Z := Z.lor (ToInt32 a) (ToInt32 b).

(** The search loop of [RegExp.prototype.exec] without the sticky flag:
    the pattern is tried at every start index, leftmost first, the end
    of the string included. *)
Fixpoint search {A : Type} (matchAt : string -> option A) (s : string)
  : option A :=
  match matchAt s with
  | Some m => Some m
  | None =>
      match s with
      | EmptyString => None
      | String _ rest => search matchAt rest
      end
  end.

(** [path.posix.normalizeString] on the segments between separators:
    empty and [.] segments are skipped, [..] removes the segment before
    it, and where there is none it is kept only if [allowAboveRoot]. *)
Fixpoint normalizeSegments (allowAboveRoot : bool) (segments : list string)
    (res : list string) : list string :=
  match segments with
  | [] => rev res
  | seg :: more =>
      if String.eqb seg "" || String.eqb seg "." then
        normalizeSegments allowAboveRoot more res
      else if String.eqb seg ".." then
        match res with
        | top :: below =>
            if String.eqb top ".." then
              normalizeSegments allowAboveRoot more
                (if allowAboveRoot then ".." :: res else res)
            else normalizeSegments allowAboveRoot more below
        | [] =>
            normalizeSegments allowAboveRoot more
              (if allowAboveRoot then [".."] else [])
        end
      else normalizeSegments allowAboveRoot more (seg :: res)
  end.

Fixpoint endsWithSlash (s : string) : bool :=
  match s with
  | EmptyString => false
  | String c EmptyString => Ascii.eqb c "/"
  | String _ rest => endsWithSlash rest
  end.

(** [path.posix.normalize(path)] *)
Definition path_normalize (path : string) : string :=
  if isEmpty path then "." else
  let isAbsolute := startsWith path "/" in
  let trailingSeparator := endsWithSlash path in
  let path' :=
    join "/" (normalizeSegments (negb isAbsolute) (split "/" path) []) in
  if isEmpty path' then
    if isAbsolute then "/" else if trailingSeparator then "./" else "."
  else
    let path'' := if trailingSeparator then path' +:+ "/" else path' in
    if isAbsolute then "/" +:+ path'' else path''.

(** [path.posix.join(...args)] *)
Definition path_join (args : list string) : string :=
  match filter (fun arg => truthy arg = true) args with
  | [] => "."
  | parts => path_normalize (join "/" parts)
  end.

(** [!a] for a value that is a string, [null] or [undefined]. *)
Definition falsy (a : option string) : bool :=
  match a with
  | Some s => isEmpty s
  | None => true
  end.

(** [a || b] on strings, the left one optional. *)
Definition orElse (a : option string) (b : string) : string :=
  match a with
  | Some s => if truthy s then s else b
  | None => b
  end.

End Js.

(** ** Exceptions, state and the record of external calls *)

Record JsError := mkError { message : string }.

Inductive Result (A : Type) : Type :=
| Ok (a : A)
| Throw (e : JsError).
Arguments Ok {A} a.
Arguments Throw {A} e.

Definition Buffer := list byte.
Definition Handle := Z.

(** The object literal passed to [StartDocPrinterW]; [pOutputFile] is
    [null] when [None]. *)
Record DocInfo := mkDocInfo {
  pDocName : string;
  pOutputFile : option string;
  pDatatype : string
}.

(** One constructor per call that leaves the process, in the order made. *)
Inductive Event : Type :=
| EvExec (command : string)
| EvWriteFile (path : string) (data : Buffer)
| EvUnlink (path : string)
| EvConsoleLog (text : string)
| EvConsoleWarn (text : string)
| EvOpenPrinter (printerName : string)
| EvClosePrinter (h : Handle)
| EvStartDocPrinter (h : Handle) (level : Z) (docInfo : DocInfo)
| EvEndDocPrinter (h : Handle)
| EvStartPagePrinter (h : Handle)
| EvEndPagePrinter (h : Handle)
| EvWritePrinter (h : Handle) (data : Buffer) (len : Z)
| EvGetLastError.

Inductive Node : Type :=
| RegularFile (content : Buffer)
| Directory.  (* what [isFile()] answers [false] for *)

(** The mutable surroundings of a call: the file system, the clock read by
    [Date.now()] (a whole number of milliseconds, of magnitude at most
    8.64e15) and the external calls made so far. *)
Record World := mkWorld {
  files : gmap string Node;
  now : Z;
  events : list Event
}.

Definition M (S A : Type) : Type := S -> Result A * S.

Definition ret {S A : Type} (a : A) : M S A := fun s => (Ok a, s).

Definition bind {S A B : Type} (m : M S A) (k : A -> M S B) : M S B :=
  fun s =>
    match m s with
    | (Ok a, s') => k a s'
    | (Throw e, s') => (Throw e, s')
    end.

Definition throw {S A : Type} (e : JsError) : M S A := fun s => (Throw e, s).

(** [throw new Error(msg)] *)
Definition throwError {S A : Type} (msg : string) : M S A :=
  throw (mkError msg).

(** [try { body } catch (error) { handler }] *)
Definition tryCatch {S A : Type} (body : M S A) (handler : JsError -> M S A)
  : M S A :=
  fun s =>
    match body s with
    | (Ok a, s') => (Ok a, s')
    | (Throw e, s') => handler e s'
    end.

(** [try { body } finally { cleanup }]: the cleanup always runs; when it
    throws, its exception replaces the outcome of the body. *)
Definition tryFinally {S A : Type} (body : M S A) (cleanup : M S unit)
  : M S A :=
  fun s =>
    match body s with
    | (r, s') =>
        match cleanup s' with
        | (Ok _, s'') => (r, s'')
        | (Throw e, s'') => (Throw e, s'')
        end
    end.

Declare Scope js_scope.
Delimit Scope js_scope with js.
Notation "'let!' x ':=' m 'in' k" := (bind m (fun x => k))
  (at level 10, x name, m at level 100, k at level 200) : js_scope.
Local Open Scope js_scope.

Definition gets {S A : Type} (f : S -> A) : M S A := fun s => (Ok (f s), s).

Definition emit (e : Event) : M World unit :=
  fun w => (Ok tt, mkWorld (files w) (now w) (events w ++ [e])).

(** An external call whose outcome [r] is decided outside the process. *)
Definition external {A : Type} (e : Event) (r : Result A) : M World A :=
  fun w => (r, mkWorld (files w) (now w) (events w ++ [e])).

(** Run a computation on the world inside a method of an object [T]. *)
Definition liftW {T A : Type} (m : M World A) : M (T * World) A :=
  fun s =>
    match m (snd s) with
    | (r, w') => (r, (fst s, w'))
    end.

Definition console_log (text : string) : M World unit :=
  emit (EvConsoleLog text).
Definition console_warn (text : string) : M World unit :=
  emit (EvConsoleWarn text).

(** [fs.existsSync(path)] *)
Definition existsSync (path : string) : M World bool :=
  gets (fun w => match files w !! path with Some _ => true | None => false end).

(** [fs.statSync(path).isFile()] *)
Definition statSync_isFile (path : string) : M World bool :=
  fun w =>
    match files w !! path with
    | Some (RegularFile _) => (Ok true, w)
    | Some Directory => (Ok false, w)
    | None =>
        (Throw (mkError ("ENOENT: no such file or directory, stat '"
                           +:+ path +:+ "'")), w)
    end.

(** [fs.readFileSync(path)] *)
Definition readFileSync (path : string) : M World Buffer :=
  fun w =>
    match files w !! path with
    | Some (RegularFile content) => (Ok content, w)
    | Some Directory =>
        (Throw (mkError "EISDIR: illegal operation on a directory, read"), w)
    | None =>
        (Throw (mkError ("ENOENT: no such file or directory, open '"
                           +:+ path +:+ "'")), w)
    end.

(** ** Option records shared by both platforms *)

Inductive Duplex : Type := simplex | horizontal | vertical.
Inductive Orientation : Type := portrait | landscape.

(** ** [src/unix-printer.ts] *)

Module Unix.

Record ExecOutput := mkExecOutput { stdout : string; stderr : string }.

(** What lies outside the process on a Unix host: the outcome of running
    a command line through [child_process.exec] (resolved with the two
    output streams, or rejected with an error), and the errors, if any,
    with which the operating system refuses to write a path and to
    unlink a path (such as [EACCES], [EPERM] or [EROFS]). *)
Record Host := mkHost {
  execOutcome : string -> Result ExecOutput;
  writeError : string -> option JsError;
  unlinkError : string -> option JsError
}.

Record UnixPrinterInfo := mkUnixPrinterInfo {
  name : string;
  description : option string;
  location : option string;
  status : option string;
  isDefault : option bool
}.

Record UnixPrintOptions := mkUnixPrintOptions {
  printer : option string;
  copies : option Z;
  duplex : option Duplex;
  paperSize : option string;
  orientation : option Orientation;
  color : option bool;
  fitToPage : option bool
}.

(** The default value [{}] of the [options] parameters. *)
Definition noOptions : UnixPrintOptions :=
  mkUnixPrintOptions None None None None None None None.

Record UnixPDFPrinter := mkUnixPDFPrinter {
  printerName : string;
  initialized : bool
}.

Section WithHost.
Context (host : Host).

(** [execAsync(command)] *)
Definition execAsync (command : string) : M World ExecOutput :=
  external (EvExec command) (execOutcome host command).

(** [fs.writeFileSync(path, data)] *)
Definition writeFileSync (path : string) (data : Buffer) : M World unit :=
  fun w =>
    let w' :=
      mkWorld (files w) (now w) (events w ++ [EvWriteFile path data]) in
    match writeError host path with
    | Some e => (Throw e, w')
    | None =>
        match files w !! path with
        | Some Directory =>
            (Throw (mkError
               ("EISDIR: illegal operation on a directory, open '"
                  +:+ path +:+ "'")), w')
        | _ =>
            (Ok tt, mkWorld (<[path := RegularFile data]> (files w))
                      (now w) (events w'))
        end
    end.

(** [fs.unlinkSync(path)] *)
Definition unlinkSync (path : string) : M World unit :=
  fun w =>
    let w' := mkWorld (files w) (now w) (events w ++ [EvUnlink path]) in
    match unlinkError host path with
    | Some e => (Throw e, w')
    | None =>
        match files w !! path with
        | Some (RegularFile _) =>
            (Ok tt, mkWorld (delete path (files w)) (now w) (events w'))
        | Some Directory =>
            (Throw (mkError
               ("EISDIR: illegal operation on a directory, unlink '"
                  +:+ path +:+ "'")), w')
        | None =>
            (Throw (mkError ("ENOENT: no such file or directory, unlink '"
                               +:+ path +:+ "'")), w')
        end
    end.

(** One attempt of [/default destination:\s+(\S+)/] at the start of [s].
    Both quantifiers are greedy and what follows each of them cannot
    start inside its run, so backtracking never finds another match:
    the runs are the longest ones. *)
Definition defaultDestinationAt (s : string) : option string :=
  match Js.dropPrefix "default destination:" s with
  | None => None
  | Some rest =>
      let '(blank, rest1) := Js.span Js.isWhiteSpace rest in
      if Js.isEmpty blank then None else
      let '(dest, _) :=
        Js.span (fun c => negb (Js.isWhiteSpace c)) rest1 in
      if Js.isEmpty dest then None else Some dest
  end.

(** One attempt, at the start of [s], of the pattern of
    [getAvailablePrinters]: the literal [printer], [\s+], a captured
    [\S+], [\s+] and a captured greedy run of any code units but line
    terminators.  The result holds [match[1]] and [match[2]]. *)
Definition printerLineAt (s : string) : option (string * string) :=
  match Js.dropPrefix "printer" s with
  | None => None
  | Some rest =>
      let '(blank1, rest1) := Js.span Js.isWhiteSpace rest in
      if Js.isEmpty blank1 then None else
      let '(name1, rest2) :=
        Js.span (fun c => negb (Js.isWhiteSpace c)) rest1 in
      if Js.isEmpty name1 then None else
      let '(blank2, rest3) := Js.span Js.isWhiteSpace rest2 in
      if Js.isEmpty blank2 then None else
      let '(status1, _) :=
        Js.span (fun c => negb (Js.isLineTerminator c)) rest3 in
      Some (name1, status1)
  end.

(** [UnixPrinterManager.getDefaultPrinter] *)
Definition getDefaultPrinter : M World (option string) :=
  tryCatch
    (let! out := execAsync "lpstat -d 2>/dev/null" in
     ret (Js.search defaultDestinationAt (stdout out)))
    (fun _ => ret None).

(** [name === defaultPrinter] *)
Definition isDefaultName (name1 : string) (defaultPrinter : option string)
  : bool :=
  match defaultPrinter with
  | Some d => String.eqb name1 d
  | None => false
  end.

(** The body of the [for (const line of lines)] loop. *)
Definition pushPrinter (defaultPrinter : option string)
    (printers : list UnixPrinterInfo) (line : string)
  : list UnixPrinterInfo :=
  match Js.search printerLineAt line with
  | Some (name1, status1) =>
      printers ++
        [mkUnixPrinterInfo name1 None None (Some status1)
           (Some (isDefaultName name1 defaultPrinter))]
  | None => printers
  end.

(** [UnixPrinterManager.getAvailablePrinters] *)
Definition getAvailablePrinters : M World (list UnixPrinterInfo) :=
  tryCatch
    (let! out := execAsync "lpstat -p -d 2>/dev/null || lpstat -p" in
     let! defaultPrinter := getDefaultPrinter in
     let lines :=
       filter (fun line => Js.startsWith line "printer" = true)
         (Js.split "010" (stdout out)) in
     ret (fold_left (pushPrinter defaultPrinter) lines []))
    (fun _ => ret []).

(** [UnixPrinterManager.printerExists] *)
Definition printerExists (printerName1 : string) : M World bool :=
  let! printers := getAvailablePrinters in
  ret (existsb (fun p => String.eqb (name p) printerName1) printers).

(** The constructor of [UnixPDFPrinter]. *)
Definition constructor (printerName1 : option string)
  : Result UnixPDFPrinter :=
  let this := mkUnixPDFPrinter (Js.orElse printerName1 "") false in
  match printerName1 with
  | Some n =>
      if Js.truthy n then
        if (String.length (Js.trim n) =? 0)%nat
        then Throw (mkError "Printer name cannot be empty")
        else Ok this
      else Ok this
  | None => Ok this
  end.

Definition getThis : M (UnixPDFPrinter * World) UnixPDFPrinter :=
  gets fst.

(** [this.printerName = value] *)
Definition setPrinterName (value : string)
  : M (UnixPDFPrinter * World) unit :=
  fun s => (Ok tt, (mkUnixPDFPrinter value (initialized (fst s)), snd s)).

(** [this.initialized = value] *)
Definition setInitialized (value : bool)
  : M (UnixPDFPrinter * World) unit :=
  fun s => (Ok tt, (mkUnixPDFPrinter (printerName (fst s)) value, snd s)).

(** [UnixPDFPrinter.initialize] *)
Definition initialize : M (UnixPDFPrinter * World) unit :=
  let! this := getThis in
  if initialized this then ret tt else
  let! _ :=
    if negb (Js.truthy (printerName this)) then
      let! defaultPrinter := liftW getDefaultPrinter in
      if Js.falsy defaultPrinter then
        let! printers := liftW getAvailablePrinters in
        match printers with
        | [] => throwError "No printers found on this system"
        | first :: _ =>
            let! _ := liftW (console_warn
              ("No default printer found, using first available printer: "
                 +:+ name first)) in
            setPrinterName (name first)
        end
      else setPrinterName (Js.orElse defaultPrinter "")
    else
      let! found := liftW (printerExists (printerName this)) in
      if negb found
      then throwError ("Printer not found: " +:+ printerName this)
      else ret tt
  in
  setInitialized true.

(** The argument vector built by [print], one step per [args.push]. *)
Definition lpArgs (printerName1 : string) (options : UnixPrintOptions)
    (pdfPath : string) : list string :=
  let args := [] in
  let args := args ++ ["-d"; printerName1] in
  let args :=
    match copies options with
    | Some n =>
        if negb (n =? 0) && (1 <? n)
        then args ++ ["-n"; Js.Number_toString n] else args
    | None => args
    end in
  let args :=
    match duplex options with
    | Some simplex => args ++ ["-o"; "sides=one-sided"]
    | Some horizontal => args ++ ["-o"; "sides=two-sided-short-edge"]
    | Some vertical => args ++ ["-o"; "sides=two-sided-long-edge"]
    | None => args
    end in
  let args :=
    match paperSize options with
    | Some size =>
        if Js.truthy size then args ++ ["-o"; "media=" +:+ size] else args
    | None => args
    end in
  let args :=
    match orientation options with
    | Some o =>
        args ++ ["-o"; "orientation-requested=" +:+
                         match o with landscape => "4" | portrait => "3" end]
    | None => args
    end in
  let args :=
    match color options with
    | Some c =>
        args ++ ["-o"; "print-color-mode=" +:+
                         (if c then "color" else "monochrome")]
    | None => args
    end in
  let args :=
    match fitToPage options with
    | Some true => args ++ ["-o"; "fit-to-page"]
    | _ => args
    end in
  args ++ [pdfPath].

(** [UnixPDFPrinter.print] *)
Definition print (pdfPath : string) (options : UnixPrintOptions)
  : M (UnixPDFPrinter * World) unit :=
  let! present := liftW (existsSync pdfPath) in
  if negb present then throwError ("PDF file not found: " +:+ pdfPath) else
  let! isFile := liftW (statSync_isFile pdfPath) in
  if negb isFile then throwError ("Path is not a file: " +:+ pdfPath) else
  let! _ := initialize in
  let! this := getThis in
  let printerName1 := Js.orElse (printer options) (printerName this) in
  let args := lpArgs printerName1 options pdfPath in
  let command := "lp " +:+ Js.join " " args in
  tryCatch
    (let! out := liftW (execAsync command) in
     if Js.truthy (stderr out) && negb (Js.includes (stderr out) "request id")
     then throwError ("Print command failed: " +:+ stderr out)
     else
       let! _ := liftW (console_log "Print job submitted successfully") in
       if Js.truthy (stdout out)
       then liftW (console_log (Js.trim (stdout out)))
       else ret tt)
    (fun error => throwError ("Failed to print: " +:+ message error)).

(** The path of the temporary file of [printRaw]. *)
Definition tempFileOf (documentName : string) (timestamp : Z) : string :=
  let tempDir := "/tmp" in
  Js.path_join
    [tempDir;
     documentName +:+ "-" +:+ Js.Number_toString timestamp +:+ ".pdf"].

(** [UnixPDFPrinter.printRaw]; an absent [documentName] takes the
    default value ['Document']. *)
Definition printRaw (data : Buffer) (documentName : option string)
    (options : UnixPrintOptions) : M (UnixPDFPrinter * World) unit :=
  let documentName1 := default "Document" documentName in
  let! timestamp := liftW (gets now) in
  let tempFile := tempFileOf documentName1 timestamp in
  tryFinally
    (let! _ := liftW (writeFileSync tempFile data) in
     print tempFile options)
    (let! present := liftW (existsSync tempFile) in
     if present then liftW (unlinkSync tempFile) else ret tt).

(** [UnixPDFPrinter.getPrinterName] *)
Definition getPrinterName : M (UnixPDFPrinter * World) string :=
  let! this := getThis in ret (printerName this).

(** The object literal returned by [UnixPDFPrinter.getCapabilities]. *)
Record UnixCapabilities := mkUnixCapabilities {
  supportsDuplex : bool;
  supportsColor : bool;
  note : string
}.

(** [UnixPDFPrinter.getCapabilities] *)
Definition getCapabilities : M (UnixPDFPrinter * World) UnixCapabilities :=
  ret (mkUnixCapabilities true true
         "Unix printer capabilities are limited. Actual support depends on printer and CUPS configuration.").

End WithHost.

End Unix.

(** ** [src/pdf-printer.ts] *)

Module Windows.

Record PrintOptions := mkPrintOptions {
  printer : option string;
  copies : option Z;
  duplex : option Duplex;
  paperSize : option Z;
  paperSource : option Z;
  orientation : option Orientation;
  color : option bool;
  quality : option Z;
  collate : option bool
}.

(** The default value [{}] of the [options] parameters. *)
Definition noOptions : PrintOptions :=
  mkPrintOptions None None None None None None None None None.

(** The object built by [createDevMode]; a property never assigned is
    [None]. *)
Record DevMode := mkDevMode {
  dmFields : Z;
  dmCopies : option Z;
  dmDuplex : option Z;
  dmPaperSize : option Z;
  dmDefaultSource : option Z;
  dmOrientation : option Z;
  dmColor : option Z
}.

(** [./windows-print-api] and [./printer-manager] are imported by
    [pdf-printer.ts] but are not among the sources.  What they export is
    taken as a parameter: the [DEVMODE] constants, the outcome of each
    bound spooler function (a returned value or an exception), and the
    static methods of the Windows [PrinterManager].  [StartDocPrinterW]
    returns a job identifier or [undefined]; [WritePrinter] returns its
    result and what it stored in [bytesWritten[0]].  [basename] is
    [path.basename] of the host. *)
Record Host := mkHost {
  PrinterInfo : Type;
  PrinterCapabilities : Type;
  infoName : PrinterInfo -> string;
  DM_ORIENTATION : Z;
  DM_PAPERSIZE : Z;
  DM_COPIES : Z;
  DM_DUPLEX : Z;
  DM_COLOR : Z;
  DM_DEFAULTSOURCE : Z;
  DUPLEX_SIMPLEX : Z;
  DUPLEX_HORIZONTAL : Z;
  DUPLEX_VERTICAL : Z;
  PORTRAIT : Z;
  LANDSCAPE : Z;
  MONOCHROME : Z;
  COLOR_MODE : Z;
  api_StartDocPrinterW : Handle -> Z -> DocInfo -> Result (option Z);
  api_EndDocPrinter : Handle -> Result bool;
  api_StartPagePrinter : Handle -> Result bool;
  api_EndPagePrinter : Handle -> Result bool;
  api_WritePrinter : Handle -> Buffer -> Z -> Result (bool * Z);
  api_GetLastError : Result Z;
  pm_getAvailablePrinters : Result (list PrinterInfo);
  pm_getDefaultPrinter : Result (option string);
  pm_printerExists : string -> Result bool;
  pm_getPrinterCapabilities : string -> Result (option PrinterCapabilities);
  pm_openPrinter : string -> Result Handle;
  pm_closePrinter : Handle -> Result unit;
  basename : string -> string
}.

Record PDFPrinter := mkPDFPrinter { printerName : string }.

Section WithHost.
Context (host : Host).

(** A call into [PrinterManager] that returns or throws. *)
Definition query {A : Type} (r : Result A) : M World A := fun w => (r, w).

Definition openPrinter (printerName1 : string) : M World Handle :=
  external (EvOpenPrinter printerName1) (pm_openPrinter host printerName1).
Definition closePrinter (h : Handle) : M World unit :=
  external (EvClosePrinter h) (pm_closePrinter host h).
Definition StartDocPrinterW (h : Handle) (level : Z) (docInfo : DocInfo)
  : M World (option Z) :=
  external (EvStartDocPrinter h level docInfo)
    (api_StartDocPrinterW host h level docInfo).
Definition EndDocPrinter (h : Handle) : M World bool :=
  external (EvEndDocPrinter h) (api_EndDocPrinter host h).
Definition StartPagePrinter (h : Handle) : M World bool :=
  external (EvStartPagePrinter h) (api_StartPagePrinter host h).
Definition EndPagePrinter (h : Handle) : M World bool :=
  external (EvEndPagePrinter h) (api_EndPagePrinter host h).
Definition WritePrinter (h : Handle) (data : Buffer) (len : Z)
  : M World (bool * Z) :=
  external (EvWritePrinter h data len) (api_WritePrinter host h data len).

(** A statement whose value is discarded. *)
Definition discard {A : Type} (m : M World A) : M World unit :=
  let! _ := m in ret tt.

(** The constructor of the Windows [PDFPrinter]. *)
Definition constructor (printerName1 : option string)
  : M World PDFPrinter :=
  if negb (Js.falsy printerName1) then
    let given := Js.orElse printerName1 "" in
    let! found := query (pm_printerExists host given) in
    if negb found then throwError ("Printer not found: " +:+ given)
    else ret (mkPDFPrinter given)
  else
    let! defaultPrinter := query (pm_getDefaultPrinter host) in
    if Js.falsy defaultPrinter then
      let! printers := query (pm_getAvailablePrinters host) in
      match printers with
      | [] => throwError "No printers found on this system"
      | first :: _ =>
          let! _ := console_warn
            ("No default printer found, using first available printer: "
               +:+ infoName host first) in
          ret (mkPDFPrinter (infoName host first))
      end
    else ret (mkPDFPrinter (Js.orElse defaultPrinter "")).

(** [PDFPrinter.getLastError] *)
Definition getLastError : M World Z :=
  tryCatch (external EvGetLastError (api_GetLastError host))
    (fun _ => ret 0).

(** [devMode.dmFields |= flag] *)
Definition orFields (flag : Z) (d : DevMode) : DevMode :=
  mkDevMode (Js.bitor (dmFields d) flag) (dmCopies d) (dmDuplex d)
    (dmPaperSize d) (dmDefaultSource d) (dmOrientation d) (dmColor d).

Definition setCopies (v : Z) (d : DevMode) : DevMode :=
  mkDevMode (dmFields d) (Some v) (dmDuplex d) (dmPaperSize d)
    (dmDefaultSource d) (dmOrientation d) (dmColor d).
Definition setDuplex (v : Z) (d : DevMode) : DevMode :=
  mkDevMode (dmFields d) (dmCopies d) (Some v) (dmPaperSize d)
    (dmDefaultSource d) (dmOrientation d) (dmColor d).
Definition setPaperSize (v : Z) (d : DevMode) : DevMode :=
  mkDevMode (dmFields d) (dmCopies d) (dmDuplex d) (Some v)
    (dmDefaultSource d) (dmOrientation d) (dmColor d).
Definition setDefaultSource (v : Z) (d : DevMode) : DevMode :=
  mkDevMode (dmFields d) (dmCopies d) (dmDuplex d) (dmPaperSize d)
    (Some v) (dmOrientation d) (dmColor d).
Definition setOrientation (v : Z) (d : DevMode) : DevMode :=
  mkDevMode (dmFields d) (dmCopies d) (dmDuplex d) (dmPaperSize d)
    (dmDefaultSource d) (Some v) (dmColor d).
Definition setColor (v : Z) (d : DevMode) : DevMode :=
  mkDevMode (dmFields d) (dmCopies d) (dmDuplex d) (dmPaperSize d)
    (dmDefaultSource d) (dmOrientation d) (Some v).

(** [PDFPrinter.createDevMode] *)
Definition createDevMode (options : PrintOptions) : DevMode :=
  let devMode := mkDevMode 0 None None None None None None in
  let devMode :=
    match copies options with
    | Some n =>
        if negb (n =? 0) && (0 <? n)
        then orFields (DM_COPIES host) (setCopies n devMode)
        else devMode
    | None => devMode
    end in
  let devMode :=
    match duplex options with
    | Some mode =>
        let devMode :=
          match mode with
          | simplex => setDuplex (DUPLEX_SIMPLEX host) devMode
          | horizontal => setDuplex (DUPLEX_HORIZONTAL host) devMode
          | vertical => setDuplex (DUPLEX_VERTICAL host) devMode
          end in
        orFields (DM_DUPLEX host) devMode
    | None => devMode
    end in
  let devMode :=
    match paperSize options with
    | Some size =>
        if negb (size =? 0)
        then orFields (DM_PAPERSIZE host) (setPaperSize size devMode)
        else devMode
    | None => devMode
    end in
  let devMode :=
    match paperSource options with
    | Some source =>
        if negb (source =? 0)
        then orFields (DM_DEFAULTSOURCE host)
               (setDefaultSource source devMode)
        else devMode
    | None => devMode
    end in
  let devMode :=
    match orientation options with
    | Some o =>
        orFields (DM_ORIENTATION host)
          (setOrientation
             (match o with
              | portrait => PORTRAIT host
              | landscape => LANDSCAPE host
              end) devMode)
    | None => devMode
    end in
  let devMode :=
    match color options with
    | Some c =>
        orFields (DM_COLOR host)
          (setColor (if c then COLOR_MODE host else MONOCHROME host)
             devMode)
    | None => devMode
    end in
  devMode.

(** [!n] for a number or [undefined]. *)
Definition notNumber (n : option Z) : bool :=
  match n with Some j => j =? 0 | None => true end.
(** [n === 0] *)
Definition isZero (n : option Z) : bool :=
  match n with Some j => j =? 0 | None => false end.
(** [n === undefined] *)
Definition isUndefined (n : option Z) : bool :=
  match n with Some _ => false | None => true end.

(** [PDFPrinter.print] *)
Definition print (this : PDFPrinter) (pdfPath : string)
    (options : PrintOptions) : M World unit :=
  let! present := existsSync pdfPath in
  if negb present then throwError ("PDF file not found: " +:+ pdfPath) else
  let! isFile := statSync_isFile pdfPath in
  if negb isFile then throwError ("Path is not a file: " +:+ pdfPath) else
  let printerName1 := Js.orElse (printer options) (printerName this) in
  let! hPrinter := openPrinter printerName1 in
  tryFinally
    (let devMode := createDevMode options in
     let! pdfData := readFileSync pdfPath in
     let docName := basename host pdfPath in
     let docInfo := mkDocInfo docName None "RAW" in
     let! jobId := StartDocPrinterW hPrinter 1 docInfo in
     if notNumber jobId || isZero jobId then
       let! lastError := getLastError in
       throwError ("Failed to start print job. Windows error code: "
                     +:+ Js.Number_toString lastError)
     else
       tryFinally
         (let! started := StartPagePrinter hPrinter in
          if negb started then throwError "Failed to start page" else
          tryFinally
            (let! written :=
               WritePrinter hPrinter pdfData
                 (Z.of_nat (length pdfData)) in
             if negb (fst written)
             then throwError "Failed to write data to printer"
             else console_log
                    ("Successfully sent "
                       +:+ Js.Number_toString (snd written)
                       +:+ " bytes to printer"))
            (discard (EndPagePrinter hPrinter)))
         (discard (EndDocPrinter hPrinter)))
    (closePrinter hPrinter).

(** [PDFPrinter.printRaw]; an absent [documentName] takes the default
    value ['Document']. *)
Definition printRaw (this : PDFPrinter) (data : Buffer)
    (documentName : option string) (options : PrintOptions)
  : M World unit :=
  let documentName1 := default "Document" documentName in
  let printerName1 := Js.orElse (printer options) (printerName this) in
  let! hPrinter := openPrinter printerName1 in
  tryFinally
    (let docInfo := mkDocInfo documentName1 None "RAW" in
     let! jobId := StartDocPrinterW hPrinter 1 docInfo in
     if isZero jobId || isUndefined jobId then
       let! lastError := getLastError in
       throwError ("Failed to start print job. Windows error code: "
                     +:+ Js.Number_toString lastError)
     else
       tryFinally
         (let! started := StartPagePrinter hPrinter in
          if negb started then throwError "Failed to start page" else
          tryFinally
            (let! written :=
               WritePrinter hPrinter data (Z.of_nat (length data)) in
             if negb (fst written)
             then throwError "Failed to write data to printer"
             else console_log
                    ("Successfully sent "
                       +:+ Js.Number_toString (snd written)
                       +:+ " bytes to printer"))
            (discard (EndPagePrinter hPrinter)))
         (discard (EndDocPrinter hPrinter)))
    (closePrinter hPrinter).

(** [PDFPrinter.getPrinterName] *)
Definition getPrinterName (this : PDFPrinter) : string := printerName this.

(** [PDFPrinter.getCapabilities] *)
Definition getCapabilities (this : PDFPrinter)
  : M World (option (PrinterCapabilities host)) :=
  query (pm_getPrinterCapabilities host (printerName this)).

End WithHost.

End Windows.

(** ** [src/index.ts] *)

Module Index.

(** The machine the library runs on: the value of [os.platform()] and
    what each platform-specific implementation reaches. *)
Record Platform := mkPlatform {
  os_platform : string;
  windows : Windows.Host;
  unix : Unix.Host
}.

(** The implementation held by the cross-platform [PDFPrinter]. *)
Inductive Impl : Type :=
| WindowsPDFPrinter (p : Windows.PDFPrinter)
| UnixPDFPrinter (p : Unix.UnixPDFPrinter).

Record PDFPrinter := mkPDFPrinter {
  printer : Impl;
  isUnix : bool
}.

(** An options object as each implementation reads it ([options: any]). *)
Record AnyOptions := mkAnyOptions {
  asWindows : Windows.PrintOptions;
  asUnix : Unix.UnixPrintOptions
}.

Inductive PlatformName : Type := windows_name | unix_name.

(** The text of a [PlatformName]. *)
Definition platformText (p : PlatformName) : string :=
  match p with windows_name => "windows" | unix_name => "unix" end.

Section WithPlatform.
Context (pf : Platform).

Definition isWindows : bool := String.eqb (os_platform pf) "win32".

(** The constructor of the cross-platform [PDFPrinter]. *)
Definition constructor (printerName : option string)
  : M World PDFPrinter :=
  let isUnix1 := negb isWindows in
  if isWindows then
    let! p := Windows.constructor (windows pf) printerName in
    ret (mkPDFPrinter (WindowsPDFPrinter p) isUnix1)
  else
    let! p := Windows.query (Unix.constructor printerName) in
    ret (mkPDFPrinter (UnixPDFPrinter p) isUnix1).

(** Run a method of the Unix implementation held in [this.printer]. *)
Definition onUnix {A : Type} (isUnix1 : bool) (p : Unix.UnixPDFPrinter)
    (m : M (Unix.UnixPDFPrinter * World) A) : M (PDFPrinter * World) A :=
  fun s =>
    match m (p, snd s) with
    | (r, (p', w')) => (r, (mkPDFPrinter (UnixPDFPrinter p') isUnix1, w'))
    end.

(** [PDFPrinter.print] *)
Definition print (pdfPath : string) (options : AnyOptions)
  : M (PDFPrinter * World) unit :=
  let! this := gets fst in
  match printer this with
  | WindowsPDFPrinter p =>
      liftW (Windows.print (windows pf) p pdfPath (asWindows options))
  | UnixPDFPrinter p =>
      onUnix (isUnix this) p
        (Unix.print (unix pf) pdfPath (asUnix options))
  end.

(** [PDFPrinter.printRaw] *)
Definition printRaw (data : Buffer) (documentName : option string)
    (options : AnyOptions) : M (PDFPrinter * World) unit :=
  let! this := gets fst in
  match printer this with
  | WindowsPDFPrinter p =>
      liftW (Windows.printRaw (windows pf) p data documentName
               (asWindows options))
  | UnixPDFPrinter p =>
      onUnix (isUnix this) p
        (Unix.printRaw (unix pf) data documentName (asUnix options))
  end.

(** [PDFPrinter.getPrinterName] *)
Definition getPrinterName (this : PDFPrinter) : string :=
  match printer this with
  | WindowsPDFPrinter p => Windows.getPrinterName p
  | UnixPDFPrinter p => Unix.printerName p
  end.

(** [PDFPrinter.getCapabilities].  The test
    ['getCapabilities' in this.printer] holds for both implementations,
    and the cast in the first branch changes nothing at run time: either
    branch calls the method of the implementation held. *)
Definition getCapabilities
  : M (PDFPrinter * World)
      (option (Windows.PrinterCapabilities (windows pf))
       + Unix.UnixCapabilities) :=
  let! this := gets fst in
  let hasMethod := true in
  match printer this with
  | WindowsPDFPrinter p =>
      if isUnix this && hasMethod then
        let! caps := liftW (Windows.getCapabilities (windows pf) p) in
        ret (inl caps)
      else
        let! caps := liftW (Windows.getCapabilities (windows pf) p) in
        ret (inl caps)
  | UnixPDFPrinter p =>
      if isUnix this && hasMethod then
        let! caps := onUnix (isUnix this) p Unix.getCapabilities in
        ret (inr caps)
      else
        let! caps := onUnix (isUnix this) p Unix.getCapabilities in
        ret (inr caps)
  end.

(** [PrinterManager.getAvailablePrinters]: the union type
    [PrinterInfo[]] is a sum. *)
Definition getAvailablePrinters
  : M World (list (Windows.PrinterInfo (windows pf))
             + list Unix.UnixPrinterInfo) :=
  if isWindows then
    let! ps := Windows.query (Windows.pm_getAvailablePrinters (windows pf)) in
    ret (inl ps)
  else
    let! ps := Unix.getAvailablePrinters (unix pf) in
    ret (inr ps).

(** [PrinterManager.getDefaultPrinter] *)
Definition getDefaultPrinter : M World (option string) :=
  if isWindows then Windows.query (Windows.pm_getDefaultPrinter (windows pf))
  else Unix.getDefaultPrinter (unix pf).

(** [PrinterManager.printerExists] *)
Definition printerExists (printerName : string) : M World bool :=
  if isWindows
  then Windows.query (Windows.pm_printerExists (windows pf) printerName)
  else Unix.printerExists (unix pf) printerName.

(** [PrinterManager.getPrinterCapabilities]; [null] is [None]. *)
Definition getPrinterCapabilities (printerName : string)
  : M World (option (Windows.PrinterCapabilities (windows pf))) :=
  if isWindows
  then Windows.query
         (Windows.pm_getPrinterCapabilities (windows pf) printerName)
  else ret None.

(** [listPrinters] *)
Definition listPrinters := getAvailablePrinters.

(** [getPlatform] *)
Definition getPlatform : PlatformName :=
  if isWindows then windows_name else unix_name.

End WithPlatform.

End Index.

(** ** [src/adapters/unix/unix-printer-manager.adapter.ts] *)

Module Adapter.

(** The object literals the adapter returns; their types [PrinterInfo]
    and [PrinterCapabilities] are declared in [core/types], which is not
    among the sources.  [availablePaperSources] is always the empty
    array. *)
Record PrinterInfo := mkPrinterInfo {
  name : string;
  status : Z;
  isDefault : bool;
  location : option string;
  comment : option string
}.

Record PrinterCapabilities := mkPrinterCapabilities {
  supportsDuplex : bool;
  supportsColor : bool;
  availablePaperSizes : list string;
  defaultPaperSize : string;
  availablePaperSources : list string
}.

(** [b || false] for an optional boolean. *)
Definition orFalse (b : option bool) : bool :=
  match b with
  | Some true => true
  | _ => false
  end.

Section WithHost.
Context (host : Unix.Host).

(** The arrow function mapped over the printers. *)
Definition toPrinterInfo (p : Unix.UnixPrinterInfo) : PrinterInfo :=
  mkPrinterInfo (Unix.name p) 0 (orFalse (Unix.isDefault p))
    (Unix.location p) (Unix.description p).

(** [UnixPrinterManagerAdapter.getAvailablePrinters] *)
Definition getAvailablePrinters : M World (list PrinterInfo) :=
  let! printers := Unix.getAvailablePrinters host in
  ret (map toPrinterInfo printers).

(** [UnixPrinterManagerAdapter.getDefaultPrinter] *)
Definition getDefaultPrinter : M World (option string) :=
  Unix.getDefaultPrinter host.

(** [UnixPrinterManagerAdapter.printerExists] *)
Definition printerExists (printerName : string) : M World bool :=
  Unix.printerExists host printerName.

(** [UnixPrinterManagerAdapter.getPrinterCapabilities]; [null] is
    [None]. *)
Definition getPrinterCapabilities (printerName : string)
  : M World (option PrinterCapabilities) :=
  let! found := printerExists printerName in
  if negb found then ret None else
  ret (Some (mkPrinterCapabilities true true ["A4"; "Letter"; "Legal"]
               "A4" [])).

End WithHost.

End Adapter.


(** ** Concrete hosts and worlds

    Used to run the embedding: the examples, witnesses and counterexamples
    below evaluate the definitions on them. *)

Module Examples.

Definition nl : string := String "010" EmptyString.

(** A CUPS host with one queue, [Office], which is also the default
    destination; [lp] answers with [lpOutcome]. *)
Definition cupsHost (lpOutcome : Result Unix.ExecOutput) : Unix.Host :=
  Unix.mkHost
    (fun command =>
       if String.eqb command "lpstat -p -d 2>/dev/null || lpstat -p" then
         Ok (Unix.mkExecOutput
               ("printer Office is idle.  enabled since Mon 01 Jan" +:+ nl
                  +:+ "system default destination: Office" +:+ nl) "")
       else if String.eqb command "lpstat -d 2>/dev/null" then
         Ok (Unix.mkExecOutput
               ("system default destination: Office" +:+ nl) "")
       else if Js.startsWith command "lp " then lpOutcome
       else Throw (mkError ("Command failed: " +:+ command)))
    (fun _ => None) (fun _ => None).

(** A host on which every command fails, as when CUPS is not installed. *)
Definition noCupsHost : Unix.Host :=
  Unix.mkHost
    (fun command =>
       Throw (mkError ("Command failed: " +:+ command +:+ nl
                         +:+ "/bin/sh: 1: lpstat: not found" +:+ nl)))
    (fun _ => None) (fun _ => None).

Definition requestAccepted : Result Unix.ExecOutput :=
  Ok (Unix.mkExecOutput ("request id is Office-42 (1 file(s))" +:+ nl) "").

Definition report : string := "/home/u/report.pdf".

(** A file system with one PDF file in one directory. *)
Definition world0 : World :=
  mkWorld (<[report := RegularFile []]> (<["/home/u" := Directory]> ∅))
    1700000000000 [].

(** The Windows host of the examples: the constants have the values of
    the Windows SDK headers, the printers [installed] are the ones that
    exist (the first is the default), and the spooler functions answer
    with the given outcomes. *)
Definition spoolerHost (installed : list string)
    (startDoc : Result (option Z)) (startPage write : Result bool)
    (lastError : Result Z) : Windows.Host :=
  {| Windows.PrinterInfo := string;
     Windows.PrinterCapabilities := unit;
     Windows.infoName := fun n => n;
     Windows.DM_ORIENTATION := 1;
     Windows.DM_PAPERSIZE := 2;
     Windows.DM_COPIES := 256;
     Windows.DM_DUPLEX := 4096;
     Windows.DM_COLOR := 2048;
     Windows.DM_DEFAULTSOURCE := 512;
     Windows.DUPLEX_SIMPLEX := 1;
     Windows.DUPLEX_HORIZONTAL := 3;
     Windows.DUPLEX_VERTICAL := 2;
     Windows.PORTRAIT := 1;
     Windows.LANDSCAPE := 2;
     Windows.MONOCHROME := 1;
     Windows.COLOR_MODE := 2;
     Windows.api_StartDocPrinterW := fun _ _ _ => startDoc;
     Windows.api_EndDocPrinter := fun _ => Ok true;
     Windows.api_StartPagePrinter := fun _ => startPage;
     Windows.api_EndPagePrinter := fun _ => Ok true;
     Windows.api_WritePrinter :=
       fun _ data len =>
         match write with
         | Ok b => Ok (b, if b then len else 0)
         | Throw e => Throw e
         end;
     Windows.api_GetLastError := lastError;
     Windows.pm_getAvailablePrinters := Ok installed;
     Windows.pm_getDefaultPrinter := Ok (head installed);
     Windows.pm_printerExists :=
       fun n => Ok (existsb (String.eqb n) installed);
     Windows.pm_getPrinterCapabilities := fun _ => Ok (Some tt);
     Windows.pm_openPrinter :=
       fun n =>
         if existsb (String.eqb n) installed then Ok 7
         else Throw (mkError ("Failed to open printer: " +:+ n));
     Windows.pm_closePrinter := fun _ => Ok tt;
     Windows.basename := fun _ => "report.pdf" |}.

Definition healthySpooler : Windows.Host :=
  spoolerHost ["Office"] (Ok (Some 12)) (Ok true) (Ok true) (Ok 0).

(** A Windows host without any printer. *)
Definition emptySpooler : Windows.Host :=
  spoolerHost [] (Ok (Some 12)) (Ok true) (Ok true) (Ok 0).

Definition office : Windows.PDFPrinter := Windows.mkPDFPrinter "Office".

End Examples.


(** ** Vocabulary of the properties *)

Local Open Scope js_scope.

(** [w'] is [w] after some more external calls: same files, same clock,
    a longer record of events. *)
Definition extends (w w' : World) : Prop :=
  files w' = files w /\ now w' = now w
  /\ exists log, events w' = events w ++ log.

(** A computation on the world, and a method of an object, that only add
    events. *)
Definition frame {A : Type} (m : M World A) : Prop :=
  forall w, extends w (snd (m w)).

Definition frameP {T A : Type} (m : M (T * World) A) : Prop :=
  forall s, extends (snd s) (snd (snd (m s))).

(** [w] after the external calls [log]. *)
Definition logged (w : World) (log : list Event) : World :=
  mkWorld (files w) (now w) (events w ++ log).

(** The command line [print] hands to [execAsync]. *)
Definition lpCommandOf (this : Unix.UnixPDFPrinter)
    (options : Unix.UnixPrintOptions) (pdfPath : string) : string :=
  "lp " +:+ Js.join " "
    (Unix.lpArgs (Js.orElse (Unix.printer options) (Unix.printerName this))
       options pdfPath).

(** The command line as the specification words it:
    [lp -d <printer> [-n <copies>] [-o <option>]... <file>]. *)
Module Spec.

(** [options.printer] if given (and not empty), otherwise the name held
    by the instance. *)
Definition effectivePrinter (options : Unix.UnixPrintOptions)
    (instanceName : string) : string :=
  match Unix.printer options with
  | Some p => if String.eqb p "" then instanceName else p
  | None => instanceName
  end.

(** [-n <copies>] if and only if copies is given and greater than 1. *)
Definition copiesWords (options : Unix.UnixPrintOptions) : list string :=
  match Unix.copies options with
  | Some n => if 1 <? n then ["-n"; Js.Number_toString n] else []
  | None => []
  end.

(** What follows each [-o], in the order duplex, media, orientation,
    color mode, fit to page. *)
Definition requestedOptions (options : Unix.UnixPrintOptions) : list string :=
  match Unix.duplex options with
  | Some simplex => ["sides=one-sided"]
  | Some horizontal => ["sides=two-sided-short-edge"]
  | Some vertical => ["sides=two-sided-long-edge"]
  | None => []
  end
  ++ match Unix.paperSize options with
     | Some size => if String.eqb size "" then [] else ["media=" +:+ size]
     | None => []
     end
  ++ match Unix.orientation options with
     | Some landscape => ["orientation-requested=4"]
     | Some portrait => ["orientation-requested=3"]
     | None => []
     end
  ++ match Unix.color options with
     | Some true => ["print-color-mode=color"]
     | Some false => ["print-color-mode=monochrome"]
     | None => []
     end
  ++ match Unix.fitToPage options with
     | Some true => ["fit-to-page"]
     | _ => []
     end.

Definition lpWords (printerName : string) (options : Unix.UnixPrintOptions)
    (file : string) : list string :=
  ["lp"; "-d"; printerName] ++ copiesWords options
  ++ flat_map (fun o => ["-o"; o]) (requestedOptions options) ++ [file].

Definition lpCommand (printerName : string) (options : Unix.UnixPrintOptions)
    (file : string) : string :=
  Js.join " " (lpWords printerName options file).

End Spec.

(** Every occurrence of [a] in [tr] has an occurrence of [b] after it. *)
Definition followedBy (a b : Event) (tr : list Event) : Prop :=
  forall pre post, tr = pre ++ a :: post -> In b post.

(** Each spooler call that succeeded is followed by the call that ends
    what it started. *)
Definition spoolerPaired (wh : Windows.Host) (tr : list Event) : Prop :=
  (forall n h,
     Windows.pm_openPrinter wh n = Ok h ->
     followedBy (EvOpenPrinter n) (EvClosePrinter h) tr)
  /\ (forall h level docInfo jobId,
        Windows.api_StartDocPrinterW wh h level docInfo = Ok (Some jobId) ->
        jobId <> 0 ->
        followedBy (EvStartDocPrinter h level docInfo) (EvEndDocPrinter h) tr)
  /\ (forall h,
        Windows.api_StartPagePrinter wh h = Ok true ->
        followedBy (EvStartPagePrinter h) (EvEndPagePrinter h) tr).

(** The value [getLastError] returns: [0] when [GetLastError] throws. *)
Definition lastErrorOf (wh : Windows.Host) : Z :=
  match Windows.api_GetLastError wh with
  | Ok code => code
  | Throw _ => 0
  end.

(** The document information [print] and [printRaw] pass on. *)
Definition docInfoOfPrint (wh : Windows.Host) (pdfPath : string) : DocInfo :=
  mkDocInfo (Windows.basename wh pdfPath) None "RAW".
Definition docInfoOfPrintRaw (documentName : option string) : DocInfo :=
  mkDocInfo (default "Document" documentName) None "RAW".

(** What the specification expects of the [DEVMODE] field flags: the
    duplex flag is a non-zero flag of a 32-bit field and shares no bit
    with the flags of the other fields set by [createDevMode]. *)
Definition duplexFlagApart (wh : Windows.Host) : Prop :=
  0 < Windows.DM_DUPLEX wh < 2 ^ 31
  /\ Z.land (Windows.DM_COPIES wh) (Windows.DM_DUPLEX wh) = 0
  /\ Z.land (Windows.DM_PAPERSIZE wh) (Windows.DM_DUPLEX wh) = 0
  /\ Z.land (Windows.DM_DEFAULTSOURCE wh) (Windows.DM_DUPLEX wh) = 0
  /\ Z.land (Windows.DM_ORIENTATION wh) (Windows.DM_DUPLEX wh) = 0
  /\ Z.land (Windows.DM_COLOR wh) (Windows.DM_DUPLEX wh) = 0.

(** The world after [writeFileSync] stored [data] in [tempFile]. *)
Definition afterWrite (data : Buffer) (w : World) (tempFile : string)
  : World :=
  mkWorld (<[tempFile := RegularFile data]> (files w)) (now w)
    (events w ++ [EvWriteFile tempFile data]).

(** The [finally] block of [printRaw]. *)
Definition cleanup (uh : Unix.Host) (tempFile : string)
  : M (Unix.UnixPDFPrinter * World) unit :=
  let! present := liftW (existsSync tempFile) in
  if present then liftW (Unix.unlinkSync uh tempFile) else ret tt.

(** A host on which the temporary file cannot be unlinked, as in a
    sticky directory for a file that belongs to another user: writing it
    is allowed, removing it is refused. *)
Definition stickyTmpHost : Unix.Host :=
  Unix.mkHost
    (Unix.execOutcome (Examples.cupsHost Examples.requestAccepted))
    (fun _ => None)
    (fun path =>
       Some (mkError ("EPERM: operation not permitted, unlink '"
                        +:+ path +:+ "'"))).

(** The [sides=] value of a duplex mode. *)
Definition sidesOf (d : Duplex) : string :=
  match d with
  | simplex => "sides=one-sided"
  | horizontal => "sides=two-sided-short-edge"
  | vertical => "sides=two-sided-long-edge"
  end.

(** More hosts and options for the examples. *)
Definition allOptions : Unix.UnixPrintOptions :=
  Unix.mkUnixPrintOptions (Some "Lobby") (Some 3) (Some vertical) (Some "a4")
    (Some landscape) (Some false) (Some true).

(** An [lp] that resolves with an error text. *)
Definition tonerLow : Result Unix.ExecOutput :=
  Ok (Unix.mkExecOutput "" "lp: Error - printer is out of toner").

(** A spooler that refuses the document with last error 1804. *)
Definition refusingSpooler : Windows.Host :=
  Examples.spoolerHost ["Office"] (Ok (Some 0)) (Ok true) (Ok true) (Ok 1804).

(** A spooler that starts the document but not the page, or not the
    write, while the last error is 1804. *)
Definition pagelessSpooler : Windows.Host :=
  Examples.spoolerHost ["Office"] (Ok (Some 12)) (Ok false) (Ok true)
    (Ok 1804).
Definition writelessSpooler : Windows.Host :=
  Examples.spoolerHost ["Office"] (Ok (Some 12)) (Ok true) (Ok false)
    (Ok 1804).

(** A Windows machine and a Linux machine. *)
Definition onWindows : Index.Platform :=
  Index.mkPlatform "win32" Examples.healthySpooler Examples.noCupsHost.
Definition onLinux : Index.Platform :=
  Index.mkPlatform "linux" Examples.emptySpooler
    (Examples.cupsHost Examples.requestAccepted).

(** Options of a duplex job on Windows. *)
Definition verticalOnWindows : Windows.PrintOptions :=
  Windows.mkPrintOptions None (Some 2) (Some vertical) (Some 9) None
    (Some landscape) (Some true) None None.


(** ** Vocabulary of the further properties *)

(** No code unit of [s] is white space. *)
Definition noWhiteSpace (s : string) : Prop :=
  forall c, In c (list_ascii_of_string s) -> Js.isWhiteSpace c = false.

(** No code unit of [s] is a line terminator. *)
Definition noLineTerminator (s : string) : Prop :=
  forall c, In c (list_ascii_of_string s) -> Js.isLineTerminator c = false.

(** A name made of white space only, and of at least one code unit. *)
Definition blankName (n : string) : Prop :=
  n <> "" /\
  forall c, In c (list_ascii_of_string n) -> Js.isWhiteSpace c = true.

(** A CUPS host whose [lpstat] lists two queues and no default
    destination. *)
Definition noDefaultHost : Unix.Host :=
  Unix.mkHost
    (fun command =>
       if String.eqb command "lpstat -p -d 2>/dev/null || lpstat -p" then
         Ok (Unix.mkExecOutput
               ("printer Lobby is idle.  enabled since Mon 01 Jan"
                  +:+ Examples.nl
                  +:+ "printer Office disabled since Tue 02 Jan -"
                  +:+ Examples.nl
                  +:+ "no system default destination" +:+ Examples.nl) "")
       else if String.eqb command "lpstat -d 2>/dev/null" then
         Ok (Unix.mkExecOutput
               ("no system default destination" +:+ Examples.nl) "")
       else if Js.startsWith command "lp " then Examples.requestAccepted
       else Throw (mkError ("Command failed: " +:+ command)))
    (fun _ => None) (fun _ => None).

(** The default destination a host reports: what [getDefaultPrinter]
    returns on it. *)
Definition defaultReadBy (uh : Unix.Host) : option string :=
  match Unix.execOutcome uh "lpstat -d 2>/dev/null" with
  | Ok out => Js.search Unix.defaultDestinationAt (Unix.stdout out)
  | Throw _ => None
  end.

(** The lines of [lpstat -p]: one line per queue, a name and a status. *)
Definition lpstatLine (q : string * string) : string :=
  "printer " +:+ fst q +:+ " " +:+ snd q.

Fixpoint lpstatLines (qs : list (string * string)) : string :=
  match qs with
  | [] => ""
  | q :: more => lpstatLine q +:+ Examples.nl +:+ lpstatLines more
  end.

(** A queue as [lpstat] prints it: the name is a word, the status stays
    on the line and does not start with white space. *)
Definition queueWellFormed (q : string * string) : Prop :=
  fst q <> "" /\ noWhiteSpace (fst q) /\ noLineTerminator (snd q)
  /\ (snd q = "" \/ exists c r, snd q = String c r
                                /\ Js.isWhiteSpace c = false).

(** The record [getAvailablePrinters] builds for a queue. *)
Definition printerOfQueue (defaultPrinter : option string)
    (q : string * string) : Unix.UnixPrinterInfo :=
  Unix.mkUnixPrinterInfo (fst q) None None (Some (snd q))
    (Some (Unix.isDefaultName (fst q) defaultPrinter)).

(** The two queues of [noDefaultHost]. *)
Definition twoQueues : list (string * string) :=
  [("Lobby", "is idle.  enabled since Mon 01 Jan");
   ("Office", "disabled since Tue 02 Jan -")].

(** Every field flag of the host is a non-negative number below 2^31. *)
Definition flagsInRange (wh : Windows.Host) : Prop :=
  0 <= Windows.DM_COPIES wh < 2 ^ 31
  /\ 0 <= Windows.DM_DUPLEX wh < 2 ^ 31
  /\ 0 <= Windows.DM_PAPERSIZE wh < 2 ^ 31
  /\ 0 <= Windows.DM_DEFAULTSOURCE wh < 2 ^ 31
  /\ 0 <= Windows.DM_ORIENTATION wh < 2 ^ 31
  /\ 0 <= Windows.DM_COLOR wh < 2 ^ 31.

(** [flag] when the field is assigned. *)
Definition flagIf (field : option Z) (flag : Z) : list Z :=
  match field with
  | Some _ => [flag]
  | None => []
  end.

(** The flags of the fields a [DEVMODE] object has, in the order in which
    [createDevMode] assigns them. *)
Definition assignedFlags (wh : Windows.Host) (d : Windows.DevMode) : list Z :=
  flagIf (Windows.dmCopies d) (Windows.DM_COPIES wh)
  ++ flagIf (Windows.dmDuplex d) (Windows.DM_DUPLEX wh)
  ++ flagIf (Windows.dmPaperSize d) (Windows.DM_PAPERSIZE wh)
  ++ flagIf (Windows.dmDefaultSource d) (Windows.DM_DEFAULTSOURCE wh)
  ++ flagIf (Windows.dmOrientation d) (Windows.DM_ORIENTATION wh)
  ++ flagIf (Windows.dmColor d) (Windows.DM_COLOR wh).

(** The facade agrees with the platform: [isUnix] is the negation of
    [isWindows], and the implementation held is the one of the
    platform. *)
Definition facadeAgrees (pf : Index.Platform) (this : Index.PDFPrinter)
  : Prop :=
  Index.isUnix this = negb (Index.isWindows pf)
  /\ match Index.printer this with
     | Index.WindowsPDFPrinter _ => Index.isWindows pf = true
     | Index.UnixPDFPrinter _ => Index.isWindows pf = false
     end.

(** The capabilities the Unix implementations answer with. *)
Definition unixCapabilities : Unix.UnixCapabilities :=
  Unix.mkUnixCapabilities true true
    "Unix printer capabilities are limited. Actual support depends on printer and CUPS configuration.".

Definition adapterCapabilities : Adapter.PrinterCapabilities :=
  Adapter.mkPrinterCapabilities true true ["A4"; "Letter"; "Legal"] "A4" [].


(** * Properties *)


(** ** Strings *)

Lemma prefix_refl (s : string) : String.prefix s s = true.
Proof.
  induction s as [|c s IH]; simpl; [reflexivity|].
  destruct (ascii_dec c c) as [_|Hne]; [exact IH | contradiction].
Qed.

Lemma includes_refl (s : string) : Js.includes s s = true.
Proof.
  destruct s as [|c s]; [reflexivity|].
  cbn [Js.includes]. unfold Js.startsWith. rewrite prefix_refl. reflexivity.
Qed.

Lemma includes_append (a b : string) : Js.includes (a +:+ b) b = true.
Proof.
  induction a as [|c a IH].
  - apply includes_refl.
  - change (String c a +:+ b) with (String c (a +:+ b)).
    cbn [Js.includes]. rewrite IH. apply orb_true_r.
Qed.

Lemma isEmpty_true (s : string) : Js.isEmpty s = true -> s = "".
Proof. destruct s; [reflexivity | discriminate]. Qed.

Lemma truthy_false (s : string) : Js.truthy s = false -> s = "".
Proof.
  unfold Js.truthy. intros H. apply isEmpty_true.
  destruct (Js.isEmpty s); [reflexivity | discriminate].
Qed.

(** ** File validation comes first (claim C4) *)

Section FileValidation.

Context (uh : Unix.Host) (wh : Windows.Host) (pf : Index.Platform).

Lemma unix_print_missing pdfPath options (this : Unix.UnixPDFPrinter) w :
  files w !! pdfPath = None ->
  Unix.print uh pdfPath options (this, w)
  = (Throw (mkError ("PDF file not found: " +:+ pdfPath)), (this, w)).
Proof.
  intros Hnone. unfold Unix.print, bind, liftW, existsSync, gets. simpl.
  rewrite Hnone. reflexivity.
Qed.

Lemma unix_print_not_file pdfPath options (this : Unix.UnixPDFPrinter) w :
  files w !! pdfPath = Some Directory ->
  Unix.print uh pdfPath options (this, w)
  = (Throw (mkError ("Path is not a file: " +:+ pdfPath)), (this, w)).
Proof.
  intros Hdir.
  unfold Unix.print, bind, liftW, existsSync, statSync_isFile, gets. simpl.
  rewrite Hdir. simpl. rewrite Hdir. reflexivity.
Qed.

Lemma windows_print_missing this pdfPath options w :
  files w !! pdfPath = None ->
  Windows.print wh this pdfPath options w
  = (Throw (mkError ("PDF file not found: " +:+ pdfPath)), w).
Proof.
  intros Hnone. unfold Windows.print, bind, existsSync, gets.
  rewrite Hnone. reflexivity.
Qed.

Lemma windows_print_not_file this pdfPath options w :
  files w !! pdfPath = Some Directory ->
  Windows.print wh this pdfPath options w
  = (Throw (mkError ("Path is not a file: " +:+ pdfPath)), w).
Proof.
  intros Hdir. unfold Windows.print, bind, existsSync, statSync_isFile, gets.
  rewrite Hdir. simpl. rewrite Hdir. reflexivity.
Qed.

(** The facade reaches the same two checks through either implementation. *)
Lemma index_print_rejected (this : Index.PDFPrinter) pdfPath options w msg :
  (forall p, Unix.print (Index.unix pf) pdfPath (Index.asUnix options) (p, w)
             = (Throw (mkError msg), (p, w))) ->
  (forall p, Windows.print (Index.windows pf) p pdfPath
               (Index.asWindows options) w
             = (Throw (mkError msg), w)) ->
  Index.print pf pdfPath options (this, w) = (Throw (mkError msg), (this, w)).
Proof.
  intros Hu Hw. destruct this as [[p|p] u];
    unfold Index.print, bind, gets, liftW, Index.onUnix; simpl.
  - rewrite Hw. reflexivity.
  - rewrite Hu. reflexivity.
Qed.

End FileValidation.

(** C4. A path that does not exist makes [print] throw
    ['PDF file not found: <path>'], and a path that exists without being a
    regular file makes it throw ['Path is not a file: <path>'], on the Unix
    implementation, on the Windows implementation and through the facade.
    In each case the world after the call is the world before it: no
    event was recorded, so no printer handle was opened, no command was
    executed and no job was submitted. *)
Theorem print_validates_file_first
    (uh : Unix.Host) (wh : Windows.Host) (pf : Index.Platform)
    (pdfPath : string) (uopts : Unix.UnixPrintOptions)
    (wopts : Windows.PrintOptions) (aopts : Index.AnyOptions)
    (up : Unix.UnixPDFPrinter) (wp : Windows.PDFPrinter)
    (fp : Index.PDFPrinter) (w : World) :
  (files w !! pdfPath = None ->
     Unix.print uh pdfPath uopts (up, w)
     = (Throw (mkError ("PDF file not found: " +:+ pdfPath)), (up, w))
     /\ Windows.print wh wp pdfPath wopts w
        = (Throw (mkError ("PDF file not found: " +:+ pdfPath)), w)
     /\ Index.print pf pdfPath aopts (fp, w)
        = (Throw (mkError ("PDF file not found: " +:+ pdfPath)), (fp, w)))
  /\
  (files w !! pdfPath = Some Directory ->
     Unix.print uh pdfPath uopts (up, w)
     = (Throw (mkError ("Path is not a file: " +:+ pdfPath)), (up, w))
     /\ Windows.print wh wp pdfPath wopts w
        = (Throw (mkError ("Path is not a file: " +:+ pdfPath)), w)
     /\ Index.print pf pdfPath aopts (fp, w)
        = (Throw (mkError ("Path is not a file: " +:+ pdfPath)), (fp, w))).
Proof.
  split; intros H; repeat split.
  - apply unix_print_missing, H.
  - apply windows_print_missing, H.
  - apply index_print_rejected; intros p.
    + apply unix_print_missing, H.
    + apply windows_print_missing, H.
  - apply unix_print_not_file, H.
  - apply windows_print_not_file, H.
  - apply index_print_rejected; intros p.
    + apply unix_print_not_file, H.
    + apply windows_print_not_file, H.
Qed.

(** The two rejections on a concrete file system, with the events. *)
Example print_missing_file_runs :
  Unix.print (Examples.cupsHost Examples.requestAccepted) "/home/u/none.pdf"
    Unix.noOptions (Unix.mkUnixPDFPrinter "Office" false, Examples.world0)
  = (Throw (mkError "PDF file not found: /home/u/none.pdf"),
     (Unix.mkUnixPDFPrinter "Office" false, Examples.world0))
  /\ Windows.print Examples.healthySpooler Examples.office "/home/u"
       Windows.noOptions Examples.world0
     = (Throw (mkError "Path is not a file: /home/u"), Examples.world0).
Proof. split; vm_compute; reflexivity. Qed.

(** ** Calls that only add events

    The computations on a Unix host never touch the files or the clock:
    they extend the record of external calls. *)

Lemma extends_refl w : extends w w.
Proof. repeat split. exists []. symmetry. apply app_nil_r. Qed.

Lemma extends_trans w1 w2 w3 : extends w1 w2 -> extends w2 w3 -> extends w1 w3.
Proof.
  intros (Hf1 & Hn1 & l1 & He1) (Hf2 & Hn2 & l2 & He2). repeat split.
  - congruence.
  - congruence.
  - exists (l1 ++ l2). rewrite He2, He1. symmetry. apply app_assoc.
Qed.

Lemma frame_ret {A} (a : A) : frame (ret a).
Proof. intros w. apply extends_refl. Qed.

Lemma frame_throw {A} msg : frame (@throwError World A msg).
Proof. intros w. apply extends_refl. Qed.

Lemma frame_bind {A B} (m : M World A) (k : A -> M World B) :
  frame m -> (forall a, frame (k a)) -> frame (bind m k).
Proof.
  intros Hm Hk w. unfold bind. specialize (Hm w).
  destruct (m w) as [[a|e] w1]; simpl in *; [|exact Hm].
  eapply extends_trans; [exact Hm | apply Hk].
Qed.

Lemma frame_tryCatch {A} (m : M World A) h :
  frame m -> (forall e, frame (h e)) -> frame (tryCatch m h).
Proof.
  intros Hm Hh w. unfold tryCatch. specialize (Hm w).
  destruct (m w) as [[a|e] w1]; simpl in *; [exact Hm|].
  eapply extends_trans; [exact Hm | apply Hh].
Qed.

Lemma frame_external {A} ev (r : Result A) : frame (external ev r).
Proof. intros w. repeat split. exists [ev]. reflexivity. Qed.

Lemma frame_emit ev : frame (emit ev).
Proof. intros w. repeat split. exists [ev]. reflexivity. Qed.

Lemma frame_if {A} (c : bool) (a b : M World A) :
  frame a -> frame b -> frame (if c then a else b).
Proof. destruct c; auto. Qed.

Lemma frameP_ret {T A} (a : A) : frameP (@ret (T * World) A a).
Proof. intros s. apply extends_refl. Qed.

Lemma frameP_throw {T A} msg : frameP (@throwError (T * World) A msg).
Proof. intros s. apply extends_refl. Qed.

Lemma frameP_gets {T A} (f : T * World -> A) : frameP (gets f).
Proof. intros s. apply extends_refl. Qed.

Lemma frameP_bind {T A B} (m : M (T * World) A) (k : A -> M (T * World) B) :
  frameP m -> (forall a, frameP (k a)) -> frameP (bind m k).
Proof.
  intros Hm Hk s. unfold bind. specialize (Hm s).
  destruct (m s) as [[a|e] s1]; simpl in *; [|exact Hm].
  eapply extends_trans; [exact Hm | apply Hk].
Qed.

Lemma frameP_tryCatch {T A} (m : M (T * World) A) h :
  frameP m -> (forall e, frameP (h e)) -> frameP (tryCatch m h).
Proof.
  intros Hm Hh s. unfold tryCatch. specialize (Hm s).
  destruct (m s) as [[a|e] s1]; simpl in *; [exact Hm|].
  eapply extends_trans; [exact Hm | apply Hh].
Qed.

Lemma frameP_liftW {T A} (m : M World A) : frame m -> frameP (@liftW T A m).
Proof.
  intros Hm s. unfold liftW. specialize (Hm (snd s)).
  destruct (m (snd s)) as [r w']. exact Hm.
Qed.

Lemma frameP_if {T A} (c : bool) (a b : M (T * World) A) :
  frameP a -> frameP b -> frameP (if c then a else b).
Proof. destruct c; auto. Qed.

Lemma frame_existsSync p : frame (existsSync p).
Proof. intros w. apply extends_refl. Qed.

Lemma frame_statSync p : frame (statSync_isFile p).
Proof.
  intros w. unfold statSync_isFile.
  destruct (files w !! p) as [[c|]|]; apply extends_refl.
Qed.

Create HintDb js_frame.
#[local] Hint Resolve frame_ret frame_throw frame_bind frame_tryCatch
  frame_external frame_emit frame_if frameP_ret frameP_throw frameP_gets
  frameP_bind frameP_tryCatch frameP_liftW frameP_if frame_existsSync
  frame_statSync : js_frame.

Section UnixFrames.

Context (uh : Unix.Host).

Lemma frame_execAsync command : frame (Unix.execAsync uh command).
Proof. apply frame_external. Qed.

Lemma frame_getDefaultPrinter : frame (Unix.getDefaultPrinter uh).
Proof.
  unfold Unix.getDefaultPrinter.
  auto using frame_execAsync with js_frame.
Qed.

Lemma frame_getAvailablePrinters : frame (Unix.getAvailablePrinters uh).
Proof.
  unfold Unix.getAvailablePrinters.
  auto 8 using frame_execAsync, frame_getDefaultPrinter with js_frame.
Qed.

Lemma frame_printerExists n : frame (Unix.printerExists uh n).
Proof.
  unfold Unix.printerExists.
  auto using frame_getAvailablePrinters with js_frame.
Qed.

Lemma frameP_setPrinterName v : frameP (Unix.setPrinterName v).
Proof. intros s. apply extends_refl. Qed.

Lemma frameP_setInitialized v : frameP (Unix.setInitialized v).
Proof. intros s. apply extends_refl. Qed.

Lemma frameP_initialize : frameP (Unix.initialize uh).
Proof.
  unfold Unix.initialize, Unix.getThis, console_warn.
  apply frameP_bind; [apply frameP_gets|]. intros this.
  apply frameP_if; [apply frameP_ret|].
  apply frameP_bind; [|intros; apply frameP_setInitialized].
  apply frameP_if.
  - apply frameP_bind;
      [apply frameP_liftW, frame_getDefaultPrinter|]. intros d.
    apply frameP_if; [|apply frameP_setPrinterName].
    apply frameP_bind;
      [apply frameP_liftW, frame_getAvailablePrinters|]. intros [|p ps].
    + apply frameP_throw.
    + apply frameP_bind; [apply frameP_liftW, frame_emit|].
      intros; apply frameP_setPrinterName.
  - apply frameP_bind; [apply frameP_liftW, frame_printerExists|].
    intros found. apply frameP_if; auto with js_frame.
Qed.

Lemma frameP_print pdfPath options : frameP (Unix.print uh pdfPath options).
Proof.
  unfold Unix.print, Unix.getThis, console_log.
  apply frameP_bind; [auto with js_frame|]. intros present.
  apply frameP_if; [apply frameP_throw|].
  apply frameP_bind; [auto with js_frame|]. intros isFile.
  apply frameP_if; [apply frameP_throw|].
  apply frameP_bind; [apply frameP_initialize|]. intros _.
  apply frameP_bind; [apply frameP_gets|]. intros this.
  apply frameP_tryCatch; [|intros; apply frameP_throw].
  apply frameP_bind; [apply frameP_liftW, frame_execAsync|]. intros out.
  apply frameP_if; [apply frameP_throw|].
  apply frameP_bind; [apply frameP_liftW, frame_emit|]. intros _.
  apply frameP_if; [apply frameP_liftW, frame_emit | apply frameP_ret].
Qed.

End UnixFrames.

(** ** The [lp] command of [print] *)

Section UnixPrint.

Context (uh : Unix.Host).

(** [print] on a regular file whose printer initializes: one command is
    executed, and its outcome decides the result. *)
Lemma unix_print_run this w pdfPath options content this1 w1 :
  files w !! pdfPath = Some (RegularFile content) ->
  Unix.initialize uh (this, w) = (Ok tt, (this1, w1)) ->
  Unix.print uh pdfPath options (this, w) =
    let command := lpCommandOf this1 options pdfPath in
    match Unix.execOutcome uh command with
    | Throw e =>
        (Throw (mkError ("Failed to print: " +:+ message e)),
         (this1, logged w1 [EvExec command]))
    | Ok out =>
        if Js.truthy (Unix.stderr out)
           && negb (Js.includes (Unix.stderr out) "request id")
        then (Throw (mkError ("Failed to print: Print command failed: "
                                +:+ Unix.stderr out)),
              (this1, logged w1 [EvExec command]))
        else (Ok tt,
              (this1,
               logged w1
                 ([EvExec command;
                   EvConsoleLog "Print job submitted successfully"]
                  ++ if Js.truthy (Unix.stdout out)
                     then [EvConsoleLog (Js.trim (Unix.stdout out))]
                     else [])))
    end.
Proof.
  intros Hfile Hinit.
  unfold Unix.print, bind, liftW, existsSync, statSync_isFile, gets. simpl.
  rewrite Hfile. simpl. rewrite Hfile. simpl. rewrite Hinit.
  unfold tryCatch, Unix.getThis, gets, Unix.execAsync, external, lpCommandOf.
  simpl.
  destruct (Unix.execOutcome uh _) as [out|e]; [|reflexivity].
  destruct (Js.truthy (Unix.stderr out)
            && negb (Js.includes (Unix.stderr out) "request id"));
    [reflexivity|].
  unfold console_log, emit, logged. simpl.
  destruct (Js.truthy (Unix.stdout out)); simpl;
    rewrite <- ?app_assoc; reflexivity.
Qed.

(** An exception of [initialize] is the outcome of [print] on a regular
    file. *)
Lemma print_initialize_throws this w pdfPath options content e s1 :
  files w !! pdfPath = Some (RegularFile content) ->
  Unix.initialize uh (this, w) = (Throw e, s1) ->
  Unix.print uh pdfPath options (this, w) = (Throw e, s1).
Proof.
  intros Hfile Hinit.
  unfold Unix.print, bind, liftW, existsSync, statSync_isFile, gets. simpl.
  rewrite Hfile. simpl. rewrite Hfile. simpl. rewrite Hinit. reflexivity.
Qed.

End UnixPrint.

Lemma orElse_effectivePrinter options instanceName :
  Js.orElse (Unix.printer options) instanceName
  = Spec.effectivePrinter options instanceName.
Proof.
  unfold Js.orElse, Spec.effectivePrinter.
  destruct (Unix.printer options) as [[|c p]|]; reflexivity.
Qed.

Lemma copies_condition n : negb (n =? 0) && (1 <? n) = (1 <? n).
Proof.
  destruct (Z.ltb_spec 1 n) as [H|H]; [|apply andb_false_r].
  destruct (Z.eqb_spec n 0); [lia | reflexivity].
Qed.

(** The argument vector of the source, preceded by [lp], is the word list
    of the specification. *)
Lemma lpArgs_words printerName options pdfPath :
  "lp" :: Unix.lpArgs printerName options pdfPath
  = Spec.lpWords printerName options pdfPath.
Proof.
  unfold Unix.lpArgs, Spec.lpWords, Spec.copiesWords, Spec.requestedOptions.
  destruct options as [pr cp dp ps ori col fit]. cbn [Unix.copies Unix.duplex
    Unix.paperSize Unix.orientation Unix.color Unix.fitToPage].
  assert (Hcp : forall l : list string,
             match cp with
             | Some n => if negb (n =? 0) && (1 <? n)
                         then l ++ ["-n"; Js.Number_toString n] else l
             | None => l
             end
             = l ++ match cp with
                    | Some n => if 1 <? n then ["-n"; Js.Number_toString n]
                                else []
                    | None => []
                    end).
  { intros l. destruct cp as [n|]; [|symmetry; apply app_nil_r].
    rewrite copies_condition.
    destruct (1 <? n); [reflexivity | symmetry; apply app_nil_r]. }
  rewrite Hcp. clear Hcp.
  generalize (match cp with
              | Some n => if 1 <? n then ["-n"; Js.Number_toString n] else []
              | None => []
              end). intros cw.
  destruct dp as [[| |]|], ps as [[|c s]|], ori as [[|]|], col as [[|]|],
    fit as [[|]|]; cbn [Js.truthy Js.isEmpty negb String.eqb flat_map];
    repeat (rewrite <- app_assoc; cbn [app]); reflexivity.
Qed.

Lemma join_after_lp (l : list string) :
  l <> [] -> "lp " +:+ Js.join " " l = Js.join " " ("lp" :: l).
Proof. destruct l; [contradiction | reflexivity]. Qed.

Lemma lpArgs_not_nil printerName options pdfPath :
  Unix.lpArgs printerName options pdfPath <> [].
Proof.
  unfold Unix.lpArgs. cbv zeta. intros H.
  apply app_eq_nil in H as [_ H]. discriminate H.
Qed.

Lemma lpCommandOf_spec this options pdfPath :
  lpCommandOf this options pdfPath
  = Spec.lpCommand (Spec.effectivePrinter options (Unix.printerName this))
      options pdfPath.
Proof.
  unfold lpCommandOf, Spec.lpCommand.
  rewrite <- lpArgs_words, orElse_effectivePrinter.
  apply join_after_lp, lpArgs_not_nil.
Qed.



(** The command of the example, spelled out. *)
Example lp_command_spelled_out :
  Spec.lpCommand (Spec.effectivePrinter allOptions "Office") allOptions
    Examples.report
  = "lp -d Lobby -n 3 -o sides=two-sided-long-edge -o media=a4 -o orientation-requested=4 -o print-color-mode=monochrome -o fit-to-page /home/u/report.pdf".
Proof. reflexivity. Qed.


(** C7. On a regular file whose printer initializes: when the [lp]
    command resolves with a standard error text that is not empty and
    does not include ['request id'], [print] throws
    ['Failed to print: Print command failed: <stderr>'], a message that
    includes that text; when the command itself fails, [print] throws
    ['Failed to print: <message of the failure>']; and when the standard
    error text includes ['request id'] or is empty, [print] returns
    without throwing. *)
Theorem print_reports_lp_failure
    (uh : Unix.Host) (this : Unix.UnixPDFPrinter) (w : World)
    (pdfPath : string) (options : Unix.UnixPrintOptions)
    (content : Buffer) (this1 : Unix.UnixPDFPrinter) (w1 : World) :
  files w !! pdfPath = Some (RegularFile content) ->
  Unix.initialize uh (this, w) = (Ok tt, (this1, w1)) ->
  let command := lpCommandOf this1 options pdfPath in
  let result := fst (Unix.print uh pdfPath options (this, w)) in
  (forall out,
     Unix.execOutcome uh command = Ok out ->
     Unix.stderr out <> "" ->
     Js.includes (Unix.stderr out) "request id" = false ->
     result = Throw (mkError ("Failed to print: Print command failed: "
                                +:+ Unix.stderr out))
     /\ Js.includes ("Failed to print: Print command failed: "
                       +:+ Unix.stderr out) (Unix.stderr out) = true)
  /\ (forall e,
        Unix.execOutcome uh command = Throw e ->
        result = Throw (mkError ("Failed to print: " +:+ message e))
        /\ Js.includes ("Failed to print: " +:+ message e) (message e) = true)
  /\ (forall out,
        Unix.execOutcome uh command = Ok out ->
        Js.includes (Unix.stderr out) "request id" = true
        \/ Unix.stderr out = "" ->
        result = Ok tt).
Proof.
  intros Hfile Hinit command result. subst result.
  rewrite (unix_print_run uh _ _ _ options _ _ _ Hfile Hinit). cbv zeta.
  fold command. repeat split.
  - rewrite H. destruct (Unix.stderr out) as [|c s]; [contradiction|].
    rewrite H1. reflexivity.
  - apply includes_append.
  - rewrite H. reflexivity.
  - apply includes_append.
  - intros out Hout Hok. rewrite Hout.
    destruct Hok as [Hid|Hempty].
    + rewrite Hid, andb_false_r. reflexivity.
    + rewrite Hempty. reflexivity.
Qed.

Lemma print_reports_lp_failure_witness :
  fst (Unix.print (Examples.cupsHost tonerLow) Examples.report Unix.noOptions
         (Unix.mkUnixPDFPrinter "" false, Examples.world0))
  = Throw (mkError
      "Failed to print: Print command failed: lp: Error - printer is out of toner").
Proof.
  pose proof (print_reports_lp_failure (Examples.cupsHost tonerLow)
                (Unix.mkUnixPDFPrinter "" false) Examples.world0
                Examples.report Unix.noOptions []
                (Unix.mkUnixPDFPrinter "Office" true)
                (logged Examples.world0 [EvExec "lpstat -d 2>/dev/null"])
                eq_refl eq_refl) as (Hstderr & _).
  apply (Hstderr (Unix.mkExecOutput "" "lp: Error - printer is out of toner"));
    [reflexivity | discriminate | reflexivity].
Defined.

(** The three outcomes on the example host. *)
Example print_outcomes_run :
  fst (Unix.print (Examples.cupsHost tonerLow) Examples.report Unix.noOptions
         (Unix.mkUnixPDFPrinter "" false, Examples.world0))
  = Throw (mkError
      "Failed to print: Print command failed: lp: Error - printer is out of toner")
  /\ fst (Unix.print
            (Examples.cupsHost (Throw (mkError "Command failed: lp")))
            Examples.report Unix.noOptions
            (Unix.mkUnixPDFPrinter "" false, Examples.world0))
     = Throw (mkError "Failed to print: Command failed: lp")
  /\ fst (Unix.print (Examples.cupsHost Examples.requestAccepted)
            Examples.report Unix.noOptions
            (Unix.mkUnixPDFPrinter "" false, Examples.world0))
     = Ok tt
  /\ fst (Unix.print
            (Examples.cupsHost
               (Ok (Unix.mkExecOutput "" "request id is Office-43 (1 file(s))")))
            Examples.report Unix.noOptions
            (Unix.mkUnixPDFPrinter "" false, Examples.world0))
     = Ok tt.
Proof. repeat split; vm_compute; reflexivity. Qed.

(** ** The printer manager on Unix (claims C5 and C8) *)

Section UnixManager.

Context (uh : Unix.Host).

Lemma getDefaultPrinter_caught w e :
  Unix.execOutcome uh "lpstat -d 2>/dev/null" = Throw e ->
  Unix.getDefaultPrinter uh w
  = (Ok None, logged w [EvExec "lpstat -d 2>/dev/null"]).
Proof.
  intros H. unfold Unix.getDefaultPrinter, tryCatch, bind, Unix.execAsync,
    external. rewrite H. reflexivity.
Qed.

Lemma getAvailablePrinters_caught w e :
  Unix.execOutcome uh "lpstat -p -d 2>/dev/null || lpstat -p" = Throw e ->
  Unix.getAvailablePrinters uh w
  = (Ok [], logged w [EvExec "lpstat -p -d 2>/dev/null || lpstat -p"]).
Proof.
  intros H. unfold Unix.getAvailablePrinters, tryCatch, bind, Unix.execAsync,
    external. rewrite H. reflexivity.
Qed.

Lemma getDefaultPrinter_returns w :
  exists d, fst (Unix.getDefaultPrinter uh w) = Ok d.
Proof.
  unfold Unix.getDefaultPrinter, tryCatch, bind, Unix.execAsync, external.
  destruct (Unix.execOutcome uh _); eexists; reflexivity.
Qed.

Lemma getAvailablePrinters_returns w :
  exists printers, fst (Unix.getAvailablePrinters uh w) = Ok printers.
Proof.
  unfold Unix.getAvailablePrinters, tryCatch, bind.
  unfold Unix.execAsync at 1. unfold external.
  destruct (Unix.execOutcome uh _) as [out|e]; [|eexists; reflexivity].
  match goal with |- context [Unix.getDefaultPrinter uh ?w1] =>
    destruct (getDefaultPrinter_returns w1) as [d Hd];
    destruct (Unix.getDefaultPrinter uh w1) as [r w2] end.
  simpl in Hd. subst r. eexists; reflexivity.
Qed.

Lemma constructor_named name this :
  Js.truthy name = true ->
  Unix.constructor (Some name) = Ok this ->
  this = Unix.mkUnixPDFPrinter name false.
Proof.
  unfold Unix.constructor, Js.orElse. intros Ht. rewrite Ht.
  destruct (_ =? _)%nat; [discriminate|]. congruence.
Qed.

Lemma constructor_unnamed given this :
  Js.falsy given = true ->
  Unix.constructor given = Ok this ->
  this = Unix.mkUnixPDFPrinter "" false.
Proof.
  unfold Unix.constructor, Js.orElse, Js.falsy, Js.truthy.
  destruct given as [n|]; [|congruence].
  intros Hf. rewrite Hf. simpl. congruence.
Qed.

Lemma existsb_name_false name (printers : list Unix.UnixPrinterInfo) :
  (forall p, In p printers -> Unix.name p <> name) ->
  existsb (fun p => String.eqb (Unix.name p) name) printers = false.
Proof.
  intros H. induction printers as [|p ps IH]; [reflexivity|]. simpl.
  destruct (String.eqb_spec (Unix.name p) name) as [Heq|_].
  - exfalso. apply (H p); [left; reflexivity | exact Heq].
  - apply IH. intros q Hq. apply H. right. exact Hq.
Qed.

Lemma initialize_not_found name w printers w1 :
  Js.truthy name = true ->
  Unix.getAvailablePrinters uh w = (Ok printers, w1) ->
  (forall p, In p printers -> Unix.name p <> name) ->
  Unix.initialize uh (Unix.mkUnixPDFPrinter name false, w)
  = (Throw (mkError ("Printer not found: " +:+ name)),
     (Unix.mkUnixPDFPrinter name false, w1)).
Proof.
  intros Ht Hlist Hnone.
  unfold Unix.initialize, Unix.getThis, bind, gets, liftW, Unix.printerExists.
  simpl. rewrite Ht. simpl. unfold bind. rewrite Hlist. simpl.
  rewrite (existsb_name_false _ _ Hnone). reflexivity.
Qed.

Lemma initialize_no_printers w d w1 w2 :
  Unix.getDefaultPrinter uh w = (Ok d, w1) ->
  Js.falsy d = true ->
  Unix.getAvailablePrinters uh w1 = (Ok [], w2) ->
  Unix.initialize uh (Unix.mkUnixPDFPrinter "" false, w)
  = (Throw (mkError "No printers found on this system"),
     (Unix.mkUnixPDFPrinter "" false, w2)).
Proof.
  intros Hd Hf Hlist.
  unfold Unix.initialize, Unix.getThis, bind, gets, liftW. simpl.
  rewrite Hd. simpl. rewrite Hf. simpl. rewrite Hlist. reflexivity.
Qed.

End UnixManager.

Section WindowsConstructor.

Context (wh : Windows.Host).

Lemma windows_constructor_not_found name w :
  Js.truthy name = true ->
  Windows.pm_printerExists wh name = Ok false ->
  Windows.constructor wh (Some name) w
  = (Throw (mkError ("Printer not found: " +:+ name)), w).
Proof.
  intros Ht Hex.
  unfold Windows.constructor, Js.falsy, Js.orElse, bind, Windows.query.
  unfold Js.truthy in Ht. destruct (Js.isEmpty name) eqn:E; [discriminate|].
  unfold Js.truthy. rewrite E. simpl. rewrite Hex. reflexivity.
Qed.

Lemma windows_constructor_no_printers given d w :
  Js.falsy given = true ->
  Windows.pm_getDefaultPrinter wh = Ok d ->
  Js.falsy d = true ->
  Windows.pm_getAvailablePrinters wh = Ok [] ->
  Windows.constructor wh given w
  = (Throw (mkError "No printers found on this system"), w).
Proof.
  intros Hg Hd Hf Hl. unfold Windows.constructor, bind, Windows.query.
  rewrite Hg. simpl. rewrite Hd, Hf, Hl. reflexivity.
Qed.

End WindowsConstructor.

(** C5. A given name that the Windows [PrinterManager] does not know makes
    the Windows constructor throw ['Printer not found: <name>'] at once.
    On Unix, when the name given at construction is the name of no printer
    returned by [getAvailablePrinters] (the queues that [lpstat] lists),
    [initialize] throws the same message, and so does the first [print] of
    a regular file.  When no name is given, there is no default printer and
    the list of printers is empty, the Windows constructor and the Unix
    [initialize] throw ['No printers found on this system']. *)
Theorem printer_not_found_classified
    (wh : Windows.Host) (uh : Unix.Host) (name : string) (w : World) :
  (Js.truthy name = true ->
   Windows.pm_printerExists wh name = Ok false ->
   Windows.constructor wh (Some name) w
   = (Throw (mkError ("Printer not found: " +:+ name)), w))
  /\ (forall this printers w1,
        Js.truthy name = true ->
        Unix.constructor (Some name) = Ok this ->
        Unix.getAvailablePrinters uh w = (Ok printers, w1) ->
        (forall p, In p printers -> Unix.name p <> name) ->
        Unix.initialize uh (this, w)
        = (Throw (mkError ("Printer not found: " +:+ name)), (this, w1))
        /\ forall pdfPath options content,
             files w !! pdfPath = Some (RegularFile content) ->
             Unix.print uh pdfPath options (this, w)
             = (Throw (mkError ("Printer not found: " +:+ name)), (this, w1)))
  /\ (forall given d,
        Js.falsy given = true ->
        Windows.pm_getDefaultPrinter wh = Ok d ->
        Js.falsy d = true ->
        Windows.pm_getAvailablePrinters wh = Ok [] ->
        Windows.constructor wh given w
        = (Throw (mkError "No printers found on this system"), w))
  /\ (forall given this d w1 w2,
        Js.falsy given = true ->
        Unix.constructor given = Ok this ->
        Unix.getDefaultPrinter uh w = (Ok d, w1) ->
        Js.falsy d = true ->
        Unix.getAvailablePrinters uh w1 = (Ok [], w2) ->
        Unix.initialize uh (this, w)
        = (Throw (mkError "No printers found on this system"), (this, w2))).
Proof.
  split; [|split; [|split]].
  - apply windows_constructor_not_found.
  - intros this printers w1 Ht Hc Hl Hnone.
    apply (constructor_named _ _ Ht) in Hc. subst this.
    pose proof (initialize_not_found uh name w printers w1 Ht Hl Hnone) as Hi.
    split; [exact Hi|].
    intros pdfPath options content Hfile.
    exact (print_initialize_throws uh _ _ _ options _ _ _ Hfile Hi).
  - intros given d. apply windows_constructor_no_printers.
  - intros given this d w1 w2 Hg Hc Hd Hf Hl.
    apply (constructor_unnamed _ _ Hg) in Hc. subst this.
    exact (initialize_no_printers uh w d w1 w2 Hd Hf Hl).
Qed.

(** The four classifications on the example hosts. *)
Example printer_not_found_runs :
  fst (Windows.constructor Examples.healthySpooler (Some "Ghost")
         Examples.world0)
  = Throw (mkError "Printer not found: Ghost")
  /\ (exists this,
        Unix.constructor (Some "Ghost") = Ok this
        /\ fst (Unix.initialize (Examples.cupsHost Examples.requestAccepted)
                  (this, Examples.world0))
           = Throw (mkError "Printer not found: Ghost"))
  /\ fst (Windows.constructor Examples.emptySpooler None Examples.world0)
     = Throw (mkError "No printers found on this system")
  /\ (exists this,
        Unix.constructor None = Ok this
        /\ fst (Unix.initialize Examples.noCupsHost (this, Examples.world0))
           = Throw (mkError "No printers found on this system")).
Proof.
  split; [vm_compute; reflexivity|].
  split; [eexists; split; [reflexivity | vm_compute; reflexivity]|].
  split; [vm_compute; reflexivity|].
  eexists; split; [reflexivity | vm_compute; reflexivity].
Qed.

(** C8 (amended). A failure of [lpstat] is not surfaced by the Unix
    printer manager: when the command fails, [getAvailablePrinters]
    returns the empty list and [getDefaultPrinter] returns [null], and
    neither of them ever throws. *)
Theorem lpstat_failure_is_caught (uh : Unix.Host) (w : World) :
  (forall e,
     Unix.execOutcome uh "lpstat -p -d 2>/dev/null || lpstat -p" = Throw e ->
     fst (Unix.getAvailablePrinters uh w) = Ok [])
  /\ (forall e,
        Unix.execOutcome uh "lpstat -d 2>/dev/null" = Throw e ->
        fst (Unix.getDefaultPrinter uh w) = Ok None)
  /\ (exists printers, fst (Unix.getAvailablePrinters uh w) = Ok printers)
  /\ (exists d, fst (Unix.getDefaultPrinter uh w) = Ok d).
Proof.
  split; [|split; [|split]].
  - intros e H. rewrite (getAvailablePrinters_caught uh w e H). reflexivity.
  - intros e H. rewrite (getDefaultPrinter_caught uh w e H). reflexivity.
  - apply getAvailablePrinters_returns.
  - apply getDefaultPrinter_returns.
Qed.

(** C8 as stated fails: on a host where every [lpstat] invocation fails,
    both methods return a value instead of the failure. *)
Lemma lpstat_failure_not_surfaced :
  (exists e,
     Unix.execOutcome Examples.noCupsHost
       "lpstat -p -d 2>/dev/null || lpstat -p" = Throw e)
  /\ (exists e,
        Unix.execOutcome Examples.noCupsHost "lpstat -d 2>/dev/null"
        = Throw e)
  /\ fst (Unix.getAvailablePrinters Examples.noCupsHost Examples.world0)
     = Ok []
  /\ fst (Unix.getDefaultPrinter Examples.noCupsHost Examples.world0)
     = Ok None.
Proof.
  split; [eexists; reflexivity|]. split; [eexists; reflexivity|].
  split; vm_compute; reflexivity.
Qed.

(** What the manager reads from the output of a working [lpstat]. *)
Example getAvailablePrinters_runs :
  fst (Unix.getAvailablePrinters (Examples.cupsHost Examples.requestAccepted)
         Examples.world0)
  = Ok [Unix.mkUnixPrinterInfo "Office" None None
          (Some "is idle.  enabled since Mon 01 Jan") (Some true)].
Proof. vm_compute. reflexivity. Qed.

(** ** Spooler calls on Windows (claims C6 and C9) *)

Lemma followedBy_nil a b : followedBy a b [].
Proof. intros [|x pre] post H; discriminate H. Qed.

Lemma followedBy_cons a b x tr :
  (x = a -> In b tr) -> followedBy a b tr -> followedBy a b (x :: tr).
Proof.
  intros Hx Htr [|y pre] post H; simpl in H; injection H as H1 H2.
  - subst. apply Hx. reflexivity.
  - apply (Htr pre post H2).
Qed.

(** Case analysis on every outcome that a computation inspects. *)
Ltac outcomes :=
  repeat match goal with
         | |- context [match ?x with _ => _ end] =>
             lazymatch x with
             | context [match _ with _ => _ end] => fail
             | _ => destruct x eqn:?
             end; cbn -[String.append Js.Number_toString] in *
         end.

(** A trace spelled out is paired: each candidate occurrence is compared
    with the call in question and the outcomes recorded by [outcomes]. *)
Ltac paired_trace :=
  repeat first
    [ apply followedBy_nil
    | apply followedBy_cons;
      [ let H := fresh in
        intros H; try discriminate H; injection H as ?; subst;
        first [ congruence
              | repeat match goal with
                       | H1 : ?f = Ok ?a, H2 : ?f = Ok ?b |- _ =>
                           rewrite H1 in H2; injection H2 as ?; subst
                       | H1 : ?f = Ok _, H2 : ?f = Throw _ |- _ =>
                           rewrite H1 in H2; discriminate H2
                       end;
                cbn [In]; try lia; tauto ]
      | ] ].

Section WindowsPrint.

Context (wh : Windows.Host).

Lemma print_paired this pdfPath options w :
  exists tr,
    events (snd (Windows.print wh this pdfPath options w)) = events w ++ tr
    /\ spoolerPaired wh tr.
Proof.
  unfold Windows.print, Windows.openPrinter, Windows.closePrinter,
    Windows.StartDocPrinterW, Windows.EndDocPrinter, Windows.StartPagePrinter,
    Windows.EndPagePrinter, Windows.WritePrinter, Windows.getLastError,
    Windows.discard, Windows.notNumber, Windows.isZero, Windows.isUndefined,
    readFileSync, existsSync, statSync_isFile, console_log, emit, external,
    tryFinally, tryCatch, bind, gets, ret, throwError, throw.
  cbn -[String.append Js.Number_toString].
  outcomes.
  all: eexists; split;
    [ rewrite <- ?app_assoc; cbn [app];
      first [ reflexivity | symmetry; apply app_nil_r ] | ].
  all: repeat split; intros; paired_trace.
Qed.

End WindowsPrint.

Section WindowsPrintRaw.

Context (wh : Windows.Host).

Lemma printRaw_paired this data documentName options w :
  exists tr,
    events (snd (Windows.printRaw wh this data documentName options w))
    = events w ++ tr
    /\ spoolerPaired wh tr.
Proof.
  unfold Windows.printRaw, Windows.openPrinter, Windows.closePrinter,
    Windows.StartDocPrinterW, Windows.EndDocPrinter, Windows.StartPagePrinter,
    Windows.EndPagePrinter, Windows.WritePrinter, Windows.getLastError,
    Windows.discard, Windows.notNumber, Windows.isZero, Windows.isUndefined,
    console_log, emit, external,
    tryFinally, tryCatch, bind, gets, ret, throwError, throw.
  cbn -[String.append Js.Number_toString].
  outcomes.
  all: eexists; split;
    [ rewrite <- ?app_assoc; cbn [app];
      first [ reflexivity | symmetry; apply app_nil_r ] | ].
  all: repeat split; intros; paired_trace.
Qed.

End WindowsPrintRaw.

(** C9. In every execution of [print] and of [printRaw] on Windows,
    whatever each spooler call returns or throws: an [openPrinter] that
    returned a handle is followed by [closePrinter] on that handle, a
    [StartDocPrinterW] that returned a job identifier other than zero is
    followed by [EndDocPrinter], and a [StartPagePrinter] that succeeded
    is followed by [EndPagePrinter], all before the operation returns or
    its exception propagates. *)
Theorem spooler_calls_are_paired
    (wh : Windows.Host) (this : Windows.PDFPrinter) (pdfPath : string)
    (data : Buffer) (documentName : option string)
    (options : Windows.PrintOptions) (w : World) :
  (exists tr,
     events (snd (Windows.print wh this pdfPath options w)) = events w ++ tr
     /\ spoolerPaired wh tr)
  /\ (exists tr,
        events (snd (Windows.printRaw wh this data documentName options w))
        = events w ++ tr
        /\ spoolerPaired wh tr).
Proof.
  split; [apply print_paired | apply printRaw_paired].
Qed.

(** The calls of a job whose page cannot be written: the page, the
    document and the handle are still ended and closed. *)
Example failed_write_is_unwound :
  Windows.print
    (Examples.spoolerHost ["Office"] (Ok (Some 12)) (Ok true) (Ok false)
       (Ok 0))
    Examples.office Examples.report Windows.noOptions Examples.world0
  = (Throw (mkError "Failed to write data to printer"),
     logged Examples.world0
       [EvOpenPrinter "Office";
        EvStartDocPrinter 7 1 (mkDocInfo "report.pdf" None "RAW");
        EvStartPagePrinter 7; EvWritePrinter 7 [] 0;
        EvEndPagePrinter 7; EvEndDocPrinter 7; EvClosePrinter 7]).
Proof. vm_compute. reflexivity. Qed.

(** Unfolds a spooler job down to the outcomes it inspects. *)
Ltac unfold_job :=
  unfold Windows.print, Windows.printRaw, Windows.openPrinter,
    Windows.closePrinter, Windows.StartDocPrinterW, Windows.EndDocPrinter,
    Windows.StartPagePrinter, Windows.EndPagePrinter, Windows.WritePrinter,
    Windows.getLastError, Windows.discard, Windows.notNumber, Windows.isZero,
    Windows.isUndefined, readFileSync, existsSync, statSync_isFile,
    console_log, emit, external, tryFinally, tryCatch, bind, gets, ret,
    throwError, throw;
  cbn -[String.append Js.Number_toString].

Ltac finish_log :=
  cbn -[String.append Js.Number_toString]; rewrite <- ?app_assoc;
  reflexivity.

Section SpoolerFailures.

Context (wh : Windows.Host) (this : Windows.PDFPrinter)
  (options : Windows.PrintOptions) (w : World) (h : Handle).

(** The printer the job is sent to. *)
Let target : string :=
  Js.orElse (Windows.printer options) (Windows.printerName this).

Hypothesis opened : Windows.pm_openPrinter wh target = Ok h.
Hypothesis closes : Windows.pm_closePrinter wh h = Ok tt.

Lemma print_start_doc_failure pdfPath content jobId :
  files w !! pdfPath = Some (RegularFile content) ->
  Windows.api_StartDocPrinterW wh h 1 (docInfoOfPrint wh pdfPath) = Ok jobId ->
  jobId = None \/ jobId = Some 0 ->
  Windows.print wh this pdfPath options w
  = (Throw (mkError ("Failed to start print job. Windows error code: "
                       +:+ Js.Number_toString (lastErrorOf wh))),
     logged w [EvOpenPrinter target;
               EvStartDocPrinter h 1 (docInfoOfPrint wh pdfPath);
               EvGetLastError; EvClosePrinter h]).
Proof.
  unfold docInfoOfPrint, lastErrorOf, logged. intros Hfile Hstart Hjob.
  unfold_job. rewrite Hfile. cbn. fold target.
  rewrite Hfile, opened. cbn. rewrite Hfile, Hstart.
  destruct Hjob as [-> | ->]; cbn;
    destruct (Windows.api_GetLastError wh); rewrite closes; finish_log.
Qed.

Lemma printRaw_start_doc_failure data documentName jobId :
  Windows.api_StartDocPrinterW wh h 1 (docInfoOfPrintRaw documentName)
  = Ok jobId ->
  jobId = None \/ jobId = Some 0 ->
  Windows.printRaw wh this data documentName options w
  = (Throw (mkError ("Failed to start print job. Windows error code: "
                       +:+ Js.Number_toString (lastErrorOf wh))),
     logged w [EvOpenPrinter target;
               EvStartDocPrinter h 1 (docInfoOfPrintRaw documentName);
               EvGetLastError; EvClosePrinter h]).
Proof.
  unfold docInfoOfPrintRaw, lastErrorOf, logged. intros Hstart Hjob.
  unfold_job. fold target. rewrite opened, Hstart.
  destruct Hjob as [-> | ->]; cbn;
    destruct (Windows.api_GetLastError wh); rewrite closes; finish_log.
Qed.

(** From here on the document has started and can be ended. *)
Context (jobId : Z) (docEnded : bool).
Hypothesis started : jobId <> 0.
Hypothesis docEnds : Windows.api_EndDocPrinter wh h = Ok docEnded.

Lemma print_start_page_failure pdfPath content :
  files w !! pdfPath = Some (RegularFile content) ->
  Windows.api_StartDocPrinterW wh h 1 (docInfoOfPrint wh pdfPath)
  = Ok (Some jobId) ->
  Windows.api_StartPagePrinter wh h = Ok false ->
  Windows.print wh this pdfPath options w
  = (Throw (mkError "Failed to start page"),
     logged w [EvOpenPrinter target;
               EvStartDocPrinter h 1 (docInfoOfPrint wh pdfPath);
               EvStartPagePrinter h; EvEndDocPrinter h; EvClosePrinter h]).
Proof.
  unfold docInfoOfPrint, logged. intros Hfile Hstart Hpage.
  unfold_job. rewrite Hfile. cbn. fold target.
  rewrite Hfile, opened. cbn. rewrite Hfile, Hstart.
  destruct (Z.eqb_spec jobId 0) as [E|_]; [contradiction|]. cbn.
  rewrite Hpage. cbn. rewrite docEnds. cbn. rewrite closes. finish_log.
Qed.

Lemma printRaw_start_page_failure data documentName :
  Windows.api_StartDocPrinterW wh h 1 (docInfoOfPrintRaw documentName)
  = Ok (Some jobId) ->
  Windows.api_StartPagePrinter wh h = Ok false ->
  Windows.printRaw wh this data documentName options w
  = (Throw (mkError "Failed to start page"),
     logged w [EvOpenPrinter target;
               EvStartDocPrinter h 1 (docInfoOfPrintRaw documentName);
               EvStartPagePrinter h; EvEndDocPrinter h; EvClosePrinter h]).
Proof.
  unfold docInfoOfPrintRaw, logged. intros Hstart Hpage.
  unfold_job. fold target. rewrite opened, Hstart.
  destruct (Z.eqb_spec jobId 0) as [E|_]; [contradiction|]. cbn.
  rewrite Hpage. cbn. rewrite docEnds. cbn. rewrite closes. finish_log.
Qed.

Context (pageEnded : bool).
Hypothesis pageStarts : Windows.api_StartPagePrinter wh h = Ok true.
Hypothesis pageEnds : Windows.api_EndPagePrinter wh h = Ok pageEnded.

Lemma print_write_failure pdfPath content written :
  files w !! pdfPath = Some (RegularFile content) ->
  Windows.api_StartDocPrinterW wh h 1 (docInfoOfPrint wh pdfPath)
  = Ok (Some jobId) ->
  Windows.api_WritePrinter wh h content (Z.of_nat (length content))
  = Ok (false, written) ->
  Windows.print wh this pdfPath options w
  = (Throw (mkError "Failed to write data to printer"),
     logged w [EvOpenPrinter target;
               EvStartDocPrinter h 1 (docInfoOfPrint wh pdfPath);
               EvStartPagePrinter h;
               EvWritePrinter h content (Z.of_nat (length content));
               EvEndPagePrinter h; EvEndDocPrinter h; EvClosePrinter h]).
Proof.
  unfold docInfoOfPrint, logged. intros Hfile Hstart Hwrite.
  unfold_job. rewrite Hfile. cbn. fold target.
  rewrite Hfile, opened. cbn. rewrite Hfile, Hstart.
  destruct (Z.eqb_spec jobId 0) as [E|_]; [contradiction|]. cbn.
  rewrite pageStarts. cbn. rewrite Hwrite. cbn. rewrite pageEnds. cbn.
  rewrite docEnds. cbn. rewrite closes. finish_log.
Qed.

Lemma printRaw_write_failure data documentName written :
  Windows.api_StartDocPrinterW wh h 1 (docInfoOfPrintRaw documentName)
  = Ok (Some jobId) ->
  Windows.api_WritePrinter wh h data (Z.of_nat (length data))
  = Ok (false, written) ->
  Windows.printRaw wh this data documentName options w
  = (Throw (mkError "Failed to write data to printer"),
     logged w [EvOpenPrinter target;
               EvStartDocPrinter h 1 (docInfoOfPrintRaw documentName);
               EvStartPagePrinter h;
               EvWritePrinter h data (Z.of_nat (length data));
               EvEndPagePrinter h; EvEndDocPrinter h; EvClosePrinter h]).
Proof.
  unfold docInfoOfPrintRaw, logged. intros Hstart Hwrite.
  unfold_job. fold target. rewrite opened, Hstart.
  destruct (Z.eqb_spec jobId 0) as [E|_]; [contradiction|]. cbn.
  rewrite pageStarts. cbn. rewrite Hwrite. cbn. rewrite pageEnds. cbn.
  rewrite docEnds. cbn. rewrite closes. finish_log.
Qed.

End SpoolerFailures.

(** C6. What [print] and [printRaw] throw when a spooler call fails, on a
    handle that opens and closes.  A [StartDocPrinterW] that returned [0]
    or [undefined] is reported as ['Failed to start print job. Windows
    error code: <lastError>'], where [lastError] is what [GetLastError]
    returned ([0] if it threw), written in decimal digits.  A failure of
    [StartPagePrinter] or of [WritePrinter] is reported by the fixed
    messages ['Failed to start page'] and ['Failed to write data to
    printer']: [GetLastError] is not called for them, and the message
    carries no error code.  [print] is taken on a regular file; [printRaw]
    reads no file. *)
Theorem spooler_failures_reported
    (wh : Windows.Host) (this : Windows.PDFPrinter)
    (options : Windows.PrintOptions) (w : World) (h : Handle)
    (pdfPath : string) (content data : Buffer)
    (documentName : option string) :
  let target :=
    Js.orElse (Windows.printer options) (Windows.printerName this) in
  let doc := docInfoOfPrint wh pdfPath in
  let rawDoc := docInfoOfPrintRaw documentName in
  let code := Js.Number_toString (lastErrorOf wh) in
  Windows.pm_openPrinter wh target = Ok h ->
  Windows.pm_closePrinter wh h = Ok tt ->
  (forall jobId,
     jobId = None \/ jobId = Some 0 ->
     Js.isSafeInteger (lastErrorOf wh) = true ->
     (files w !! pdfPath = Some (RegularFile content) ->
      Windows.api_StartDocPrinterW wh h 1 doc = Ok jobId ->
      Windows.print wh this pdfPath options w
      = (Throw (mkError ("Failed to start print job. Windows error code: "
                           +:+ code)),
         logged w [EvOpenPrinter target; EvStartDocPrinter h 1 doc;
                   EvGetLastError; EvClosePrinter h]))
     /\ (Windows.api_StartDocPrinterW wh h 1 rawDoc = Ok jobId ->
         Windows.printRaw wh this data documentName options w
         = (Throw (mkError ("Failed to start print job. Windows error code: "
                              +:+ code)),
            logged w [EvOpenPrinter target; EvStartDocPrinter h 1 rawDoc;
                      EvGetLastError; EvClosePrinter h])))
  /\ (forall jobId docEnded,
        jobId <> 0 ->
        Windows.api_EndDocPrinter wh h = Ok docEnded ->
        Windows.api_StartPagePrinter wh h = Ok false ->
        (files w !! pdfPath = Some (RegularFile content) ->
         Windows.api_StartDocPrinterW wh h 1 doc = Ok (Some jobId) ->
         Windows.print wh this pdfPath options w
         = (Throw (mkError "Failed to start page"),
            logged w [EvOpenPrinter target; EvStartDocPrinter h 1 doc;
                      EvStartPagePrinter h; EvEndDocPrinter h;
                      EvClosePrinter h]))
        /\ (Windows.api_StartDocPrinterW wh h 1 rawDoc = Ok (Some jobId) ->
            Windows.printRaw wh this data documentName options w
            = (Throw (mkError "Failed to start page"),
               logged w [EvOpenPrinter target; EvStartDocPrinter h 1 rawDoc;
                         EvStartPagePrinter h; EvEndDocPrinter h;
                         EvClosePrinter h])))
  /\ (forall jobId docEnded pageEnded written,
        jobId <> 0 ->
        Windows.api_EndDocPrinter wh h = Ok docEnded ->
        Windows.api_StartPagePrinter wh h = Ok true ->
        Windows.api_EndPagePrinter wh h = Ok pageEnded ->
        (files w !! pdfPath = Some (RegularFile content) ->
         Windows.api_StartDocPrinterW wh h 1 doc = Ok (Some jobId) ->
         Windows.api_WritePrinter wh h content (Z.of_nat (length content))
         = Ok (false, written) ->
         Windows.print wh this pdfPath options w
         = (Throw (mkError "Failed to write data to printer"),
            logged w [EvOpenPrinter target; EvStartDocPrinter h 1 doc;
                      EvStartPagePrinter h;
                      EvWritePrinter h content (Z.of_nat (length content));
                      EvEndPagePrinter h; EvEndDocPrinter h;
                      EvClosePrinter h]))
        /\ (Windows.api_StartDocPrinterW wh h 1 rawDoc = Ok (Some jobId) ->
            Windows.api_WritePrinter wh h data (Z.of_nat (length data))
            = Ok (false, written) ->
            Windows.printRaw wh this data documentName options w
            = (Throw (mkError "Failed to write data to printer"),
               logged w [EvOpenPrinter target; EvStartDocPrinter h 1 rawDoc;
                         EvStartPagePrinter h;
                         EvWritePrinter h data (Z.of_nat (length data));
                         EvEndPagePrinter h; EvEndDocPrinter h;
                         EvClosePrinter h]))).
Proof.
  intros target doc rawDoc code Hopen Hclose.
  split; [|split].
  - intros jobId Hjob _. split.
    + intros Hfile Hstart.
      exact (print_start_doc_failure wh this options w h Hopen Hclose
               pdfPath content jobId Hfile Hstart Hjob).
    + intros Hstart.
      exact (printRaw_start_doc_failure wh this options w h Hopen Hclose
               data documentName jobId Hstart Hjob).
  - intros jobId docEnded Hj Hend Hpage. split.
    + intros Hfile Hstart.
      exact (print_start_page_failure wh this options w h Hopen Hclose
               jobId docEnded Hj Hend pdfPath content Hfile Hstart Hpage).
    + intros Hstart.
      exact (printRaw_start_page_failure wh this options w h Hopen Hclose
               jobId docEnded Hj Hend data documentName Hstart Hpage).
  - intros jobId docEnded pageEnded written Hj Hend Hpage HpageEnd. split.
    + intros Hfile Hstart Hwrite.
      exact (print_write_failure wh this options w h Hopen Hclose
               jobId docEnded Hj Hend pageEnded Hpage HpageEnd
               pdfPath content written Hfile Hstart Hwrite).
    + intros Hstart Hwrite.
      exact (printRaw_write_failure wh this options w h Hopen Hclose
               jobId docEnded Hj Hend pageEnded Hpage HpageEnd
               data documentName written Hstart Hwrite).
Qed.

Lemma spooler_failures_reported_witness :
  fst (Windows.print refusingSpooler Examples.office Examples.report
         Windows.noOptions Examples.world0)
  = Throw (mkError "Failed to start print job. Windows error code: 1804")
  /\ fst (Windows.printRaw refusingSpooler Examples.office [] None
            Windows.noOptions Examples.world0)
     = Throw (mkError "Failed to start print job. Windows error code: 1804").
Proof.
  pose proof (proj1
                (spooler_failures_reported refusingSpooler Examples.office
                   Windows.noOptions Examples.world0 7 Examples.report [] []
                   None eq_refl eq_refl)
                (Some 0) (or_intror eq_refl) eq_refl) as [Hprint Hraw].
  split.
  - exact (f_equal fst (Hprint eq_refl eq_refl)).
  - exact (f_equal fst (Hraw eq_refl)).
Defined.

(** C6 fails on the code: [StartPagePrinter] and [WritePrinter] fail while
    the last error code is 1804, and the messages thrown by [print] and
    [printRaw] do not include that code, unlike the message for a failing
    [StartDocPrinterW] on the same printer. *)
Lemma page_and_write_failures_carry_no_code :
  Windows.api_GetLastError pagelessSpooler = Ok 1804
  /\ Windows.api_GetLastError writelessSpooler = Ok 1804
  /\ fst (Windows.print pagelessSpooler Examples.office Examples.report
            Windows.noOptions Examples.world0)
     = Throw (mkError "Failed to start page")
  /\ fst (Windows.printRaw pagelessSpooler Examples.office [] None
            Windows.noOptions Examples.world0)
     = Throw (mkError "Failed to start page")
  /\ fst (Windows.print writelessSpooler Examples.office Examples.report
            Windows.noOptions Examples.world0)
     = Throw (mkError "Failed to write data to printer")
  /\ fst (Windows.printRaw writelessSpooler Examples.office [] None
            Windows.noOptions Examples.world0)
     = Throw (mkError "Failed to write data to printer")
  /\ Js.includes "Failed to start page" (Js.Number_toString 1804) = false
  /\ Js.includes "Failed to write data to printer" (Js.Number_toString 1804)
     = false
  /\ Windows.api_GetLastError refusingSpooler = Ok 1804
  /\ fst (Windows.print refusingSpooler Examples.office Examples.report
            Windows.noOptions Examples.world0)
     = Throw (mkError "Failed to start print job. Windows error code: 1804").
Proof. repeat split; vm_compute; reflexivity. Qed.

(** ** Platform dispatch (claim C3) *)

Lemma isWindows_true pf :
  Index.isWindows pf = true <-> Index.os_platform pf = "win32".
Proof. unfold Index.isWindows. apply String.eqb_eq. Qed.

Lemma isWindows_false pf :
  Index.isWindows pf = false <-> Index.os_platform pf <> "win32".
Proof. unfold Index.isWindows. apply String.eqb_neq. Qed.

(** C3. [getPlatform()] is ['windows'] exactly when [os.platform()] is
    ['win32'] and ['unix'] otherwise.  On ['win32'] the constructor of the
    facade builds the Windows implementation and every static method of
    the facade's [PrinterManager] returns what the Windows manager
    returns; on any other platform the constructor builds the Unix
    implementation and the static methods run the Unix manager, except
    [getPrinterCapabilities], which returns [null]. *)
Theorem platform_dispatch
    (pf : Index.Platform) (given : option string) (name : string)
    (w : World) :
  (Index.getPlatform pf = Index.windows_name
   <-> Index.os_platform pf = "win32")
  /\ (Index.getPlatform pf = Index.unix_name
      <-> Index.os_platform pf <> "win32")
  /\ (Index.os_platform pf = "win32" ->
      Index.constructor pf given w
      = match Windows.constructor (Index.windows pf) given w with
        | (Ok p, w') =>
            (Ok (Index.mkPDFPrinter (Index.WindowsPDFPrinter p) false), w')
        | (Throw e, w') => (Throw e, w')
        end
      /\ Index.getAvailablePrinters pf w
         = match Windows.pm_getAvailablePrinters (Index.windows pf) with
           | Ok printers => (Ok (inl printers), w)
           | Throw e => (Throw e, w)
           end
      /\ Index.getDefaultPrinter pf w
         = (Windows.pm_getDefaultPrinter (Index.windows pf), w)
      /\ Index.printerExists pf name w
         = (Windows.pm_printerExists (Index.windows pf) name, w)
      /\ Index.getPrinterCapabilities pf name w
         = (Windows.pm_getPrinterCapabilities (Index.windows pf) name, w))
  /\ (Index.os_platform pf <> "win32" ->
      Index.constructor pf given w
      = match Unix.constructor given with
        | Ok p => (Ok (Index.mkPDFPrinter (Index.UnixPDFPrinter p) true), w)
        | Throw e => (Throw e, w)
        end
      /\ Index.getAvailablePrinters pf w
         = match Unix.getAvailablePrinters (Index.unix pf) w with
           | (Ok printers, w') => (Ok (inr printers), w')
           | (Throw e, w') => (Throw e, w')
           end
      /\ Index.getDefaultPrinter pf w
         = Unix.getDefaultPrinter (Index.unix pf) w
      /\ Index.printerExists pf name w
         = Unix.printerExists (Index.unix pf) name w
      /\ Index.getPrinterCapabilities pf name w = (Ok None, w)).
Proof.
  split; [|split; [|split]].
  - rewrite <- isWindows_true. unfold Index.getPlatform.
    destruct (Index.isWindows pf); split; intros H;
      try reflexivity; discriminate H.
  - rewrite <- isWindows_false. unfold Index.getPlatform.
    destruct (Index.isWindows pf); split; intros H;
      try reflexivity; discriminate H.
  - intros Hwin. apply isWindows_true in Hwin.
    unfold Index.constructor, Index.getAvailablePrinters,
      Index.getDefaultPrinter, Index.printerExists,
      Index.getPrinterCapabilities, bind, ret, Windows.query.
    rewrite Hwin. cbn [negb].
    repeat split.
  - intros Hunix. apply isWindows_false in Hunix.
    unfold Index.constructor, Index.getAvailablePrinters,
      Index.getDefaultPrinter, Index.printerExists,
      Index.getPrinterCapabilities, bind, ret, Windows.query.
    rewrite Hunix. cbn [negb].
    repeat split.
Qed.

(** Both platforms at work: the name, the implementation built, and the
    manager asked. *)
Example platform_dispatch_runs :
  Index.platformText (Index.getPlatform onWindows) = "windows"
  /\ Index.platformText (Index.getPlatform onLinux) = "unix"
  /\ fst (Index.constructor onWindows None Examples.world0)
     = Ok (Index.mkPDFPrinter
             (Index.WindowsPDFPrinter (Windows.mkPDFPrinter "Office")) false)
  /\ fst (Index.constructor onLinux (Some "Office") Examples.world0)
     = Ok (Index.mkPDFPrinter
             (Index.UnixPDFPrinter (Unix.mkUnixPDFPrinter "Office" false))
             true)
  /\ fst (Index.printerExists onWindows "Office" Examples.world0) = Ok true
  /\ fst (Index.printerExists onLinux "Office" Examples.world0) = Ok true
  /\ fst (Index.getDefaultPrinter onLinux Examples.world0) = Ok (Some "Office")
  /\ fst (Index.getPrinterCapabilities onWindows "Office" Examples.world0)
     = Ok (Some tt)
  /\ fst (Index.getPrinterCapabilities onLinux "Office" Examples.world0)
     = Ok None.
Proof. repeat split; vm_compute; reflexivity. Qed.

(** ** Translation of the duplex option (claim C1) *)

Lemma ToInt32_low_bits x n : 0 <= n < 32 ->
  Z.testbit (Js.ToInt32 x) n = Z.testbit x n.
Proof.
  intros Hn. unfold Js.ToInt32.
  rewrite <- (Z.mod_pow2_bits_low _ 32 n) by lia.
  rewrite <- (Z.mod_pow2_bits_low x 32 n) by lia.
  f_equal.
  rewrite (Z.mod_eq (x + 2 ^ 31) (2 ^ 32)) by lia.
  replace (x + 2 ^ 31 - 2 ^ 32 * ((x + 2 ^ 31) / 2 ^ 32) - 2 ^ 31)
    with (x + (- ((x + 2 ^ 31) / 2 ^ 32)) * 2 ^ 32) by ring.
  apply Z.mod_add. lia.
Qed.

Lemma small_flag_high_bits d n : 0 < d < 2 ^ 31 -> 31 <= n ->
  Z.testbit d n = false.
Proof.
  intros Hd Hn. apply Z.bits_above_log2; [lia|].
  assert (Z.log2 d < 31) by (apply Z.log2_lt_pow2; lia). lia.
Qed.

Lemma land_ToInt32 x d : 0 < d < 2 ^ 31 ->
  Z.land (Js.ToInt32 x) d = Z.land x d.
Proof.
  intros Hd. apply Z.bits_inj'. intros n Hn. rewrite !Z.land_spec.
  destruct (Z.lt_ge_cases n 31) as [Hlt|Hge].
  - rewrite ToInt32_low_bits by lia. reflexivity.
  - rewrite (small_flag_high_bits d n Hd Hge), !andb_false_r. reflexivity.
Qed.

Lemma land_bitor f flag d : 0 < d < 2 ^ 31 ->
  Z.land (Js.bitor f flag) d = Z.lor (Z.land f d) (Z.land flag d).
Proof.
  intros Hd. unfold Js.bitor.
  rewrite Z.land_lor_distr_l, !land_ToInt32 by exact Hd. reflexivity.
Qed.

Lemma decimal_not_sides n :
  Js.startsWith (Js.Number_toString n) "sides=" = false.
Proof.
  unfold Js.Number_toString, Js.startsWith.
  destruct (Z.to_int n) as [d|d]; destruct d; reflexivity.
Qed.

Section Duplex.

Context (wh : Windows.Host).
Hypothesis apart : duplexFlagApart wh.

(** The duplex property and the duplex bit of a [DEVMODE] object. *)
Let duplexView (d : Windows.DevMode) : option Z * Z :=
  (Windows.dmDuplex d, Z.land (Windows.dmFields d) (Windows.DM_DUPLEX wh)).

Lemma createDevMode_duplex options :
  duplexView (Windows.createDevMode wh options)
  = match Windows.duplex options with
    | Some simplex => (Some (Windows.DUPLEX_SIMPLEX wh), Windows.DM_DUPLEX wh)
    | Some horizontal =>
        (Some (Windows.DUPLEX_HORIZONTAL wh), Windows.DM_DUPLEX wh)
    | Some vertical =>
        (Some (Windows.DUPLEX_VERTICAL wh), Windows.DM_DUPLEX wh)
    | None => (None, 0)
    end.
Proof.
  destruct apart as (Hd & Hc & Hp & Hs & Ho & Hcol).
  destruct options as [pr cp dp ps src ori col q cl].
  unfold Windows.createDevMode, duplexView.
  cbn [Windows.copies Windows.duplex Windows.paperSize Windows.paperSource
       Windows.orientation Windows.color].
  destruct cp as [n|]; [destruct (negb (n =? 0) && (0 <? n))|];
  destruct dp as [[| |]|];
  (destruct ps as [s|]; [destruct (negb (s =? 0))|]);
  (destruct src as [t|]; [destruct (negb (t =? 0))|]);
  destruct ori as [o|]; destruct col as [c|];
  cbn [Windows.dmDuplex Windows.dmFields Windows.orFields Windows.setCopies
       Windows.setDuplex Windows.setPaperSize Windows.setDefaultSource
       Windows.setOrientation Windows.setColor];
  rewrite ?land_bitor by exact Hd;
  rewrite ?Hc, ?Hp, ?Hs, ?Ho, ?Hcol, ?Z.land_diag, ?Z.land_0_l, ?Z.lor_0_r,
    ?Z.lor_0_l; reflexivity.
Qed.

End Duplex.

Lemma lpArgs_shape printerName options pdfPath :
  Unix.lpArgs printerName options pdfPath
  = ["-d"; printerName] ++ Spec.copiesWords options
    ++ flat_map (fun o => ["-o"; o]) (Spec.requestedOptions options)
    ++ [pdfPath].
Proof.
  pose proof (lpArgs_words printerName options pdfPath) as H.
  unfold Spec.lpWords in H. cbn [app] in H. injection H as H. exact H.
Qed.

Lemma copiesWords_not_sides options :
  Forall (fun a => Js.startsWith a "sides=" = false)
    (Spec.copiesWords options).
Proof.
  unfold Spec.copiesWords.
  destruct (Unix.copies options) as [n|]; [|constructor].
  destruct (1 <? n); [|constructor].
  repeat constructor. apply decimal_not_sides.
Qed.

Lemma requestedOptions_not_sides options :
  Unix.duplex options = None ->
  Forall (fun a => Js.startsWith a "sides=" = false)
    (flat_map (fun o => ["-o"; o]) (Spec.requestedOptions options)).
Proof.
  intros Hd. unfold Spec.requestedOptions. rewrite Hd.
  destruct (Unix.paperSize options) as [[|c s]|],
    (Unix.orientation options) as [[|]|],
    (Unix.color options) as [[|]|],
    (Unix.fitToPage options) as [[|]|];
    cbn [String.eqb app flat_map]; repeat constructor.
Qed.

Lemma requestedOptions_sides options d :
  Unix.duplex options = Some d ->
  exists post,
    flat_map (fun o => ["-o"; o]) (Spec.requestedOptions options)
    = "-o" :: sidesOf d :: post
    /\ Forall (fun a => Js.startsWith a "sides=" = false) post.
Proof.
  intros Hd. unfold Spec.requestedOptions. rewrite Hd.
  destruct d,
    (Unix.paperSize options) as [[|c s]|],
    (Unix.orientation options) as [[|]|],
    (Unix.color options) as [[|]|],
    (Unix.fitToPage options) as [[|]|];
    cbn [String.eqb app flat_map sidesOf];
    (eexists; split; [reflexivity | repeat constructor]).
Qed.

Lemma lpArgs_sides printerName options pdfPath d :
  Unix.duplex options = Some d ->
  exists pre post,
    Unix.lpArgs printerName options pdfPath
    = "-d" :: printerName :: pre ++ "-o" :: sidesOf d :: post ++ [pdfPath]
    /\ Forall (fun a => Js.startsWith a "sides=" = false) pre
    /\ Forall (fun a => Js.startsWith a "sides=" = false) post.
Proof.
  intros Hd.
  destruct (requestedOptions_sides options d Hd) as (post & Hopts & Hpost).
  exists (Spec.copiesWords options), post.
  split; [|split; [apply copiesWords_not_sides | exact Hpost]].
  rewrite lpArgs_shape, Hopts. reflexivity.
Qed.

(** C1. The duplex option is translated alike on both platforms.  On Unix
    the argument vector of [lp] is [-d], the printer name, the words of
    the options and the file path; among the words of the options,
    [-o sides=one-sided] for ['simplex'], [-o sides=two-sided-short-edge]
    for ['horizontal'] and [-o sides=two-sided-long-edge] for ['vertical']
    stands between words none of which starts with [sides=], so that it is
    the one [sides] option of the command; and when duplex is absent no
    word of the options starts with [sides=].  On Windows [createDevMode]
    sets [dmDuplex] to [DUPLEX_SIMPLEX], [DUPLEX_HORIZONTAL] or
    [DUPLEX_VERTICAL] with the [DM_DUPLEX] bit set in [dmFields], and when
    duplex is absent it leaves [dmDuplex] unassigned and the [DM_DUPLEX]
    bit clear.  The flag constants come from the Windows bindings;
    [duplexFlagApart] states what is expected of them. *)
Theorem duplex_translation
    (wh : Windows.Host) (printerName pdfPath : string)
    (uopts : Unix.UnixPrintOptions) (wopts : Windows.PrintOptions) :
  duplexFlagApart wh ->
  let args := Unix.lpArgs printerName uopts pdfPath in
  let devMode := Windows.createDevMode wh wopts in
  let duplexBit := Z.land (Windows.dmFields devMode) (Windows.DM_DUPLEX wh) in
  (Unix.duplex uopts = Some simplex ->
   exists pre post,
     args = "-d" :: printerName
              :: pre ++ "-o" :: "sides=one-sided" :: post ++ [pdfPath]
     /\ Forall (fun a => Js.startsWith a "sides=" = false) pre
     /\ Forall (fun a => Js.startsWith a "sides=" = false) post)
  /\ (Unix.duplex uopts = Some horizontal ->
      exists pre post,
        args = "-d" :: printerName
                 :: pre ++ "-o" :: "sides=two-sided-short-edge"
                 :: post ++ [pdfPath]
        /\ Forall (fun a => Js.startsWith a "sides=" = false) pre
        /\ Forall (fun a => Js.startsWith a "sides=" = false) post)
  /\ (Unix.duplex uopts = Some vertical ->
      exists pre post,
        args = "-d" :: printerName
                 :: pre ++ "-o" :: "sides=two-sided-long-edge"
                 :: post ++ [pdfPath]
        /\ Forall (fun a => Js.startsWith a "sides=" = false) pre
        /\ Forall (fun a => Js.startsWith a "sides=" = false) post)
  /\ (Unix.duplex uopts = None ->
      exists middle,
        args = "-d" :: printerName :: middle ++ [pdfPath]
        /\ Forall (fun a => Js.startsWith a "sides=" = false) middle)
  /\ (Windows.duplex wopts = Some simplex ->
      Windows.dmDuplex devMode = Some (Windows.DUPLEX_SIMPLEX wh)
      /\ duplexBit = Windows.DM_DUPLEX wh)
  /\ (Windows.duplex wopts = Some horizontal ->
      Windows.dmDuplex devMode = Some (Windows.DUPLEX_HORIZONTAL wh)
      /\ duplexBit = Windows.DM_DUPLEX wh)
  /\ (Windows.duplex wopts = Some vertical ->
      Windows.dmDuplex devMode = Some (Windows.DUPLEX_VERTICAL wh)
      /\ duplexBit = Windows.DM_DUPLEX wh)
  /\ (Windows.duplex wopts = None ->
      Windows.dmDuplex devMode = None /\ duplexBit = 0).
Proof.
  intros Hapart args devMode duplexBit.
  pose proof (createDevMode_duplex wh Hapart wopts) as Hwin.
  cbv zeta in Hwin.
  split; [|split; [|split; [|split; [|split; [|split; [|split]]]]]].
  - intros Hd. exact (lpArgs_sides printerName uopts pdfPath simplex Hd).
  - intros Hd. exact (lpArgs_sides printerName uopts pdfPath horizontal Hd).
  - intros Hd. exact (lpArgs_sides printerName uopts pdfPath vertical Hd).
  - intros Hd.
    exists (Spec.copiesWords uopts
            ++ flat_map (fun o => ["-o"; o]) (Spec.requestedOptions uopts)).
    split.
    + subst args. rewrite lpArgs_shape. cbn [app].
      rewrite <- app_assoc. reflexivity.
    + apply Forall_app. split.
      * apply copiesWords_not_sides.
      * apply requestedOptions_not_sides, Hd.
  - intros Hd. rewrite Hd in Hwin. injection Hwin as H1 H2.
    split; [exact H1 | exact H2].
  - intros Hd. rewrite Hd in Hwin. injection Hwin as H1 H2.
    split; [exact H1 | exact H2].
  - intros Hd. rewrite Hd in Hwin. injection Hwin as H1 H2.
    split; [exact H1 | exact H2].
  - intros Hd. rewrite Hd in Hwin. injection Hwin as H1 H2.
    split; [exact H1 | exact H2].
Qed.

Lemma sdk_flags_apart : duplexFlagApart Examples.healthySpooler.
Proof. unfold duplexFlagApart. cbn. repeat split; lia. Qed.

Lemma duplex_translation_witness :
  (exists pre post,
     Unix.lpArgs "Office" allOptions Examples.report
     = "-d" :: "Office"
         :: pre ++ "-o" :: "sides=two-sided-long-edge"
         :: post ++ [Examples.report]
     /\ Forall (fun a => Js.startsWith a "sides=" = false) pre
     /\ Forall (fun a => Js.startsWith a "sides=" = false) post)
  /\ Windows.dmDuplex
       (Windows.createDevMode Examples.healthySpooler verticalOnWindows)
     = Some 2
  /\ Z.land
       (Windows.dmFields
          (Windows.createDevMode Examples.healthySpooler verticalOnWindows))
       4096
     = 4096.
Proof.
  pose proof (duplex_translation Examples.healthySpooler "Office"
                Examples.report allOptions verticalOnWindows sdk_flags_apart)
    as (_ & _ & Hu & _ & _ & _ & Hw & _).
  split; [exact (Hu eq_refl) | exact (Hw eq_refl)].
Defined.

(** The translation at work on the example options. *)
Example duplex_translation_runs :
  Unix.lpArgs "Office" allOptions Examples.report
  = ["-d"; "Office"; "-n"; "3"; "-o"; "sides=two-sided-long-edge";
     "-o"; "media=a4"; "-o"; "orientation-requested=4";
     "-o"; "print-color-mode=monochrome"; "-o"; "fit-to-page";
     "/home/u/report.pdf"]
  /\ Unix.lpArgs "Office" Unix.noOptions Examples.report
     = ["-d"; "Office"; "/home/u/report.pdf"]
  /\ Windows.createDevMode Examples.healthySpooler verticalOnWindows
     = Windows.mkDevMode 6403 (Some 2) (Some 2) (Some 9) None (Some 2) (Some 2)
  /\ Windows.createDevMode Examples.healthySpooler Windows.noOptions
     = Windows.mkDevMode 0 None None None None None None.
Proof. repeat split; vm_compute; reflexivity. Qed.

(** ** The temporary file of [printRaw] on Unix (claim C10) *)

Section TempFile.

Context (uh : Unix.Host) (data : Buffer) (options : Unix.UnixPrintOptions)
  (this : Unix.UnixPDFPrinter) (w : World) (tempFile : string).

Lemma writeFileSync_cases :
  (exists e,
     Unix.writeFileSync uh tempFile data w
     = (Throw e, logged w [EvWriteFile tempFile data])
     /\ (Unix.writeError uh tempFile <> None
         \/ files w !! tempFile = Some Directory))
  \/ (Unix.writeFileSync uh tempFile data w = (Ok tt, afterWrite data w tempFile)
      /\ Unix.writeError uh tempFile = None
      /\ files w !! tempFile <> Some Directory).
Proof.
  unfold Unix.writeFileSync, afterWrite, logged.
  destruct (Unix.writeError uh tempFile) as [e|] eqn:He.
  - left. exists e. split; [reflexivity | left; discriminate].
  - destruct (files w !! tempFile) as [[c|]|] eqn:Hf.
    + right. repeat split; discriminate.
    + left. eexists. split; [reflexivity | right; reflexivity].
    + right. repeat split; discriminate.
Qed.

(** After a write that threw, the cleanup leaves every other path as it
    is and, unless the unlink is refused, removes a regular file that was
    already there. *)
Lemma cleanup_after_failed_write p :
  let final :=
    snd (snd (cleanup uh tempFile
                (p, logged w [EvWriteFile tempFile data]))) in
  (Unix.unlinkError uh tempFile = None ->
   (forall content, files final !! tempFile <> Some (RegularFile content))
   /\ (files w !! tempFile <> Some Directory ->
       files final !! tempFile = None))
  /\ (forall q, q <> tempFile -> files final !! q = files w !! q)
  /\ exists log, events final = events w ++ EvWriteFile tempFile data :: log.
Proof.
  cbv zeta.
  unfold cleanup, bind, ret, liftW, existsSync, Unix.unlinkSync, gets, logged.
  cbn [fst snd files now events].
  destruct (files w !! tempFile) as [[c|]|] eqn:Hf;
    cbn [fst snd files now events];
    destruct (Unix.unlinkError uh tempFile) as [e|] eqn:He;
    rewrite ?Hf; cbn [fst snd files now events].
  - split; [discriminate|]. split; [reflexivity|].
    exists [EvUnlink tempFile]. rewrite <- app_assoc. reflexivity.
  - split; [intros _; split|split].
    + intros content. rewrite lookup_delete_eq. discriminate.
    + intros _. apply lookup_delete_eq.
    + intros q Hq. apply lookup_delete_ne. congruence.
    + exists [EvUnlink tempFile]. rewrite <- app_assoc. reflexivity.
  - split; [discriminate|]. split; [reflexivity|].
    exists [EvUnlink tempFile]. rewrite <- app_assoc. reflexivity.
  - split; [intros _; split|split].
    + intros content. rewrite ?Hf. discriminate.
    + intros H. rewrite ?Hf in *. congruence.
    + reflexivity.
    + exists [EvUnlink tempFile]. rewrite <- app_assoc. reflexivity.
  - split; [discriminate|]. split; [reflexivity|].
    exists []. reflexivity.
  - split; [intros _; split|split].
    + intros content. rewrite ?Hf. discriminate.
    + intros _. rewrite ?Hf. reflexivity.
    + reflexivity.
    + exists []. reflexivity.
Qed.

(** After [print] ran on the file just written, the cleanup unlinks it:
    the file is removed, unless the host refuses, and then the refusal is
    thrown and the file stays. *)
Lemma cleanup_after_print p w2 :
  extends (afterWrite data w tempFile) w2 ->
  cleanup uh tempFile (p, w2)
  = match Unix.unlinkError uh tempFile with
    | None =>
        (Ok tt, (p, mkWorld (delete tempFile (files w2)) (now w2)
                      (events w2 ++ [EvUnlink tempFile])))
    | Some e =>
        (Throw e, (p, mkWorld (files w2) (now w2)
                        (events w2 ++ [EvUnlink tempFile])))
    end.
Proof.
  intros (Hfiles & _ & _).
  unfold cleanup, bind, liftW, existsSync, Unix.unlinkSync, gets, afterWrite
    in *.
  repeat (cbn [fst snd files now events] in *;
          first [rewrite Hfiles | rewrite lookup_insert_eq]).
  destruct (Unix.unlinkError uh tempFile); reflexivity.
Qed.

(** A write that is refused where no file stands: nothing is there to
    unlink, and the refusal is what leaves the [try] block. *)
Lemma failed_write_on_free_path e :
  Unix.writeError uh tempFile = Some e ->
  files w !! tempFile = None ->
  tryFinally
    (let! _ := liftW (Unix.writeFileSync uh tempFile data) in
     Unix.print uh tempFile options)
    (cleanup uh tempFile) (this, w)
  = (Throw e, (this, logged w [EvWriteFile tempFile data])).
Proof.
  intros He Hf.
  unfold cleanup, existsSync, Unix.writeFileSync, tryFinally, bind, liftW,
    gets, ret, logged.
  cbn [fst snd files now events]. rewrite He.
  cbn [fst snd files now events]. rewrite Hf. reflexivity.
Qed.

End TempFile.

(** *** The path of the temporary file *)

Lemma includes_slash_cons c r :
  Js.includes (String c r) "/" = Ascii.eqb c "/" || Js.includes r "/".
Proof.
  cbn [Js.includes]. f_equal. unfold Js.startsWith. cbn [String.prefix].
  destruct (ascii_dec "/" c) as [<-|Hne].
  - destruct r; reflexivity.
  - symmetry. apply Ascii.eqb_neq. congruence.
Qed.

Lemma includes_slash_app a b :
  Js.includes (a +:+ b) "/" = Js.includes a "/" || Js.includes b "/".
Proof.
  induction a as [|c a IH]; [reflexivity|].
  change (String c a +:+ b) with (String c (a +:+ b)).
  rewrite !includes_slash_cons, IH. apply orb_assoc.
Qed.

Lemma split_plain s : Js.includes s "/" = false -> Js.split "/" s = [s].
Proof.
  induction s as [|c s IH]; [reflexivity|].
  rewrite includes_slash_cons. intros H.
  apply orb_false_elim in H as [Hc Hs].
  cbn [Js.split]. rewrite Hc, (IH Hs). reflexivity.
Qed.

Lemma digits_no_slash d :
  Js.includes (NilEmpty.string_of_uint d) "/" = false.
Proof.
  induction d; cbn [NilEmpty.string_of_uint];
    rewrite ?includes_slash_cons, ?IHd; reflexivity.
Qed.

Lemma decimal_no_slash n : Js.includes (Js.Number_toString n) "/" = false.
Proof.
  unfold Js.Number_toString, NilZero.string_of_int, NilZero.string_of_uint.
  destruct (Z.to_int n) as [d|d];
    rewrite ?includes_slash_cons;
    (destruct d; [reflexivity | apply digits_no_slash ..]).
Qed.

Lemma string_length_append a b :
  String.length (a +:+ b) = (String.length a + String.length b)%nat.
Proof.
  induction a as [|c a IH]; [reflexivity|].
  change (S (String.length (a +:+ b))
          = S (String.length a + String.length b)).
  f_equal. exact IH.
Qed.

Lemma eqb_false_by_length s t :
  String.length s <> String.length t -> String.eqb s t = false.
Proof. intros H. apply String.eqb_neq. intros ->. apply H. reflexivity. Qed.

Lemma endsWithSlash_plain s :
  Js.includes s "/" = false -> Js.endsWithSlash s = false.
Proof.
  induction s as [|c s IH]; [reflexivity|].
  rewrite includes_slash_cons. intros H.
  apply orb_false_elim in H as [Hc Hs].
  cbn [Js.endsWithSlash]. destruct s; [exact Hc | apply IH, Hs].
Qed.

(** For a document name without separator, the temporary file is
    [/tmp/<documentName>-<timestamp>.pdf]. *)
Lemma tempFileOf_plain documentName timestamp :
  Js.includes documentName "/" = false ->
  Unix.tempFileOf documentName timestamp
  = "/tmp/" +:+ documentName +:+ "-" +:+ Js.Number_toString timestamp
      +:+ ".pdf".
Proof.
  intros Hname. unfold Unix.tempFileOf.
  set (seg := documentName +:+ "-" +:+ Js.Number_toString timestamp
                +:+ ".pdf").
  assert (Hseg : Js.includes seg "/" = false).
  { unfold seg. rewrite includes_slash_app, Hname.
    change ("-" +:+ ?x) with (String "-" x).
    rewrite includes_slash_cons, includes_slash_app, decimal_no_slash.
    reflexivity. }
  assert (Hlen : (4 < String.length seg)%nat).
  { unfold seg. rewrite !string_length_append. cbn. lia. }
  assert (Hne : exists c rest, seg = String c rest).
  { destruct seg; [cbn in Hlen; lia | eauto]. }
  destruct Hne as (c & rest & Hc).
  unfold Js.path_join.
  rewrite filter_cons_True by reflexivity.
  rewrite filter_cons_True by (rewrite Hc; reflexivity).
  rewrite filter_nil.
  change (Js.join "/" ["/tmp"; seg]) with ("/tmp/" +:+ seg).
  unfold Js.path_normalize.
  change (Js.isEmpty ("/tmp/" +:+ seg)) with false.
  change (Js.startsWith ("/tmp/" +:+ seg) "/") with true.
  cbv iota. cbn [negb].
  assert (Hsplit : Js.split "/" ("/tmp/" +:+ seg) = [""; "tmp"; seg]).
  { change ("/tmp/" +:+ seg)
      with (String "/" (String "t" (String "m" (String "p"
              (String "/" seg))))).
    cbn [Js.split Ascii.eqb Bool.eqb]. rewrite (split_plain seg Hseg).
    reflexivity. }
  rewrite Hsplit.
  assert (Htrail : Js.endsWithSlash ("/tmp/" +:+ seg) = false).
  { rewrite Hc.
    change (Js.endsWithSlash ("/tmp/" +:+ String c rest))
      with (Js.endsWithSlash (String c rest)).
    rewrite <- Hc. apply endsWithSlash_plain, Hseg. }
  rewrite Htrail.
  cbn [Js.normalizeSegments String.eqb Ascii.eqb Bool.eqb orb].
  rewrite !(eqb_false_by_length seg) by (cbn; lia).
  cbn [orb rev app Js.join String.concat].
  rewrite Hc at 1. cbn [Js.isEmpty String.append]. rewrite <- Hc.
  reflexivity.
Qed.

Lemma printRaw_unfold uh data documentName options this w :
  Unix.printRaw uh data documentName options (this, w)
  = let tempFile :=
      Unix.tempFileOf (default "Document" documentName) (now w) in
    tryFinally
      (let! _ := liftW (Unix.writeFileSync uh tempFile data) in
       Unix.print uh tempFile options)
      (cleanup uh tempFile) (this, w).
Proof. reflexivity. Qed.


(** [printRaw] on the example host: the file is written, printed and
    unlinked, and the file system ends as it started. *)
Example printRaw_runs :
  Unix.printRaw (Examples.cupsHost Examples.requestAccepted) []
    (Some "Invoice") Unix.noOptions
    (Unix.mkUnixPDFPrinter "" false, Examples.world0)
  = (Ok tt,
     (Unix.mkUnixPDFPrinter "Office" true,
      logged Examples.world0
        [EvWriteFile "/tmp/Invoice-1700000000000.pdf" [];
         EvExec "lpstat -d 2>/dev/null";
         EvExec "lp -d Office /tmp/Invoice-1700000000000.pdf";
         EvConsoleLog "Print job submitted successfully";
         EvConsoleLog "request id is Office-42 (1 file(s))";
         EvUnlink "/tmp/Invoice-1700000000000.pdf"])).
Proof. vm_compute. reflexivity. Qed.

(** The same when [lp] fails: the exception of [print] leaves
    [printRaw] after the file was unlinked. *)
Example printRaw_failure_runs :
  Unix.printRaw (Examples.cupsHost tonerLow) [] None Unix.noOptions
    (Unix.mkUnixPDFPrinter "" false, Examples.world0)
  = (Throw (mkError
       "Failed to print: Print command failed: lp: Error - printer is out of toner"),
     (Unix.mkUnixPDFPrinter "Office" true,
      logged Examples.world0
        [EvWriteFile "/tmp/Document-1700000000000.pdf" [];
         EvExec "lpstat -d 2>/dev/null";
         EvExec "lp -d Office /tmp/Document-1700000000000.pdf";
         EvUnlink "/tmp/Document-1700000000000.pdf"])).
Proof. vm_compute. reflexivity. Qed.


(** * Further properties of the code *)

(** ** Reading the output of [lpstat] *)

Lemma span_taken_all p s a b :
  Js.span p s = (a, b) ->
  forall c, In c (list_ascii_of_string a) -> p c = true.
Proof.
  revert a b. induction s as [|x s IH]; intros a b H c Hc.
  - injection H as <- <-. destruct Hc.
  - cbn [Js.span] in H. destruct (p x) eqn:Hx.
    + destruct (Js.span p s) as [a' b'] eqn:Hs. injection H as <- <-.
      destruct Hc as [<-|Hc]; [exact Hx | exact (IH _ _ eq_refl c Hc)].
    + injection H as <- <-. destruct Hc.
Qed.

Lemma span_append p a b :
  (forall c, In c (list_ascii_of_string a) -> p c = true) ->
  (b = "" \/ exists c r, b = String c r /\ p c = false) ->
  Js.span p (a +:+ b) = (a, b).
Proof.
  intros Ha Hb. induction a as [|x a IH].
  - destruct Hb as [->|(c & r & -> & Hc)]; [reflexivity|].
    change ("" +:+ String c r) with (String c r).
    cbn [Js.span]. rewrite Hc. reflexivity.
  - change (String x a +:+ b) with (String x (a +:+ b)). cbn [Js.span].
    rewrite (Ha x (or_introl eq_refl)), IH; [reflexivity|].
    intros c Hc. apply Ha. right. exact Hc.
Qed.

Lemma search_found {A} (f : string -> option A) s m :
  Js.search f s = Some m -> exists suffix, f suffix = Some m.
Proof.
  induction s as [|c s IH]; cbn [Js.search].
  - destruct (f "") eqn:E; [|discriminate]. intros H. exists "". congruence.
  - destruct (f (String c s)) eqn:E.
    + intros H. exists (String c s). congruence.
    + exact IH.
Qed.

Lemma search_at_start {A} (f : string -> option A) s m :
  f s = Some m -> Js.search f s = Some m.
Proof. intros H. destruct s; cbn [Js.search]; rewrite H; reflexivity. Qed.

Lemma dropPrefix_none p s :
  Js.startsWith s p = false -> Js.dropPrefix p s = None.
Proof.
  unfold Js.startsWith. revert s.
  induction p as [|a p IH]; intros s H.
  - destruct s; discriminate H.
  - destruct s as [|b s]; [reflexivity|]. cbn [String.prefix] in H.
    cbn [Js.dropPrefix]. destruct (ascii_dec a b) as [<-|Hne].
    + rewrite Ascii.eqb_refl. apply IH, H.
    + apply Ascii.eqb_neq in Hne. rewrite Hne. reflexivity.
Qed.

Lemma search_without p {A} (f : string -> option A) s :
  (forall t, Js.startsWith t p = false -> f t = None) ->
  Js.includes s p = false -> Js.search f s = None.
Proof.
  intros Hf. induction s as [|c s IH]; cbn [Js.includes Js.search]; intros H.
  - rewrite orb_false_r in H. rewrite (Hf _ H). reflexivity.
  - apply orb_false_elim in H as [H1 H2]. rewrite (Hf _ H1). apply IH, H2.
Qed.

Lemma truthy_cons s : Js.isEmpty s = false -> s <> "".
Proof. destruct s; [discriminate | discriminate]. Qed.

Lemma negb_whiteSpace_all s :
  (forall c, In c (list_ascii_of_string s) ->
             negb (Js.isWhiteSpace c) = true) ->
  noWhiteSpace s.
Proof.
  intros H c Hc. specialize (H c Hc).
  destruct (Js.isWhiteSpace c); [discriminate | reflexivity].
Qed.

Lemma defaultDestinationAt_name s d :
  Unix.defaultDestinationAt s = Some d -> d <> "" /\ noWhiteSpace d.
Proof.
  unfold Unix.defaultDestinationAt.
  destruct (Js.dropPrefix _ s) as [rest|]; [|discriminate].
  destruct (Js.span Js.isWhiteSpace rest) as [blank rest1].
  destruct (Js.isEmpty blank); [discriminate|].
  destruct (Js.span _ rest1) as [dest rest2] eqn:Hspan.
  destruct (Js.isEmpty dest) eqn:He; [discriminate|].
  intros H. injection H as <-. split.
  - apply truthy_cons, He.
  - apply negb_whiteSpace_all. exact (span_taken_all _ _ _ _ Hspan).
Qed.

Lemma printerLineAt_captures s n st :
  Unix.printerLineAt s = Some (n, st) ->
  n <> "" /\ noWhiteSpace n /\ noLineTerminator st.
Proof.
  unfold Unix.printerLineAt.
  destruct (Js.dropPrefix _ s) as [rest|]; [|discriminate].
  destruct (Js.span Js.isWhiteSpace rest) as [blank1 rest1].
  destruct (Js.isEmpty blank1); [discriminate|].
  destruct (Js.span _ rest1) as [name1 rest2] eqn:Hname.
  destruct (Js.isEmpty name1) eqn:He; [discriminate|].
  destruct (Js.span Js.isWhiteSpace rest2) as [blank2 rest3].
  destruct (Js.isEmpty blank2); [discriminate|].
  destruct (Js.span _ rest3) as [status1 rest4] eqn:Hstatus.
  intros H. injection H as <- <-. repeat apply conj.
  - apply truthy_cons, He.
  - apply negb_whiteSpace_all. exact (span_taken_all _ _ _ _ Hname).
  - intros c Hc. pose proof (span_taken_all _ _ _ _ Hstatus c Hc) as H.
    cbn beta in H.
    destruct (Js.isLineTerminator c); [discriminate H | reflexivity].
Qed.

Section UnixManagerReads.

Context (uh : Unix.Host).

(** What [getDefaultPrinter] returns is decided by the host alone. *)
Lemma getDefaultPrinter_value w :
  fst (Unix.getDefaultPrinter uh w)
  = match Unix.execOutcome uh "lpstat -d 2>/dev/null" with
    | Ok out => Ok (Js.search Unix.defaultDestinationAt (Unix.stdout out))
    | Throw _ => Ok None
    end.
Proof.
  unfold Unix.getDefaultPrinter, tryCatch, bind, ret, Unix.execAsync, external.
  destruct (Unix.execOutcome uh _); reflexivity.
Qed.

End UnixManagerReads.

(** X1. A name returned by [UnixPrinterManager.getDefaultPrinter] is
    never empty and holds no white space: it is the run of non-blank
    characters captured after [default destination:]. *)
Theorem default_printer_name_is_a_word
    (uh : Unix.Host) (w : World) (d : string) :
  fst (Unix.getDefaultPrinter uh w) = Ok (Some d) ->
  d <> "" /\ noWhiteSpace d.
Proof.
  rewrite getDefaultPrinter_value.
  destruct (Unix.execOutcome uh _) as [out|e]; [|discriminate].
  intros H. injection H as H.
  destruct (search_found _ _ _ H) as (suffix & Hs).
  exact (defaultDestinationAt_name _ _ Hs).
Qed.

Lemma default_printer_name_is_a_word_witness :
  "Office" <> "" /\ noWhiteSpace "Office".
Proof.
  exact (default_printer_name_is_a_word
           (Examples.cupsHost Examples.requestAccepted) Examples.world0
           "Office" eq_refl).
Defined.

(** X2. When the output of [lpstat -d] does not include
    [default destination:] (as in [no system default destination]), or
    when the command fails, [getDefaultPrinter] returns [null]. *)
Theorem default_printer_absent (uh : Unix.Host) (w : World) :
  (forall out,
     Unix.execOutcome uh "lpstat -d 2>/dev/null" = Ok out ->
     Js.includes (Unix.stdout out) "default destination:" = false ->
     fst (Unix.getDefaultPrinter uh w) = Ok None)
  /\ (forall e,
        Unix.execOutcome uh "lpstat -d 2>/dev/null" = Throw e ->
        fst (Unix.getDefaultPrinter uh w) = Ok None).
Proof.
  rewrite getDefaultPrinter_value. split.
  - intros out -> Hno. f_equal.
    apply (search_without "default destination:"); [|exact Hno].
    intros t Ht. unfold Unix.defaultDestinationAt.
    rewrite (dropPrefix_none _ _ Ht). reflexivity.
  - intros e ->. reflexivity.
Qed.

Example default_printer_absent_runs :
  fst (Unix.getDefaultPrinter noDefaultHost Examples.world0) = Ok None
  /\ fst (Unix.getDefaultPrinter Examples.noCupsHost Examples.world0)
     = Ok None.
Proof. split; vm_compute; reflexivity. Qed.

Section AvailablePrinters.

Context (uh : Unix.Host).

Lemma getDefaultPrinter_read w :
  fst (Unix.getDefaultPrinter uh w) = Ok (defaultReadBy uh).
Proof.
  rewrite getDefaultPrinter_value. unfold defaultReadBy.
  destruct (Unix.execOutcome uh _); reflexivity.
Qed.

(** What [getAvailablePrinters] returns is decided by the host alone. *)
Lemma getAvailablePrinters_value w :
  fst (Unix.getAvailablePrinters uh w)
  = match Unix.execOutcome uh "lpstat -p -d 2>/dev/null || lpstat -p" with
    | Ok out =>
        Ok (fold_left (Unix.pushPrinter (defaultReadBy uh))
              (filter (fun line => Js.startsWith line "printer" = true)
                 (Js.split "010" (Unix.stdout out))) [])
    | Throw _ => Ok []
    end.
Proof.
  unfold Unix.getAvailablePrinters, tryCatch, bind, ret.
  unfold Unix.execAsync at 1. unfold external.
  destruct (Unix.execOutcome uh "lpstat -p -d 2>/dev/null || lpstat -p")
    as [out|e]; [|reflexivity].
  match goal with |- context [Unix.getDefaultPrinter uh ?w1] =>
    pose proof (getDefaultPrinter_read w1) as Hd;
    destruct (Unix.getDefaultPrinter uh w1) as [r w2] end.
  cbn [fst] in Hd. subst r. reflexivity.
Qed.

Lemma pushPrinter_keeps (P : Unix.UnixPrinterInfo -> Prop) d lines :
  (forall line n st,
     Js.search Unix.printerLineAt line = Some (n, st) ->
     P (Unix.mkUnixPrinterInfo n None None (Some st)
          (Some (Unix.isDefaultName n d)))) ->
  forall acc, Forall P acc ->
  Forall P (fold_left (Unix.pushPrinter d) lines acc).
Proof.
  intros Hline. induction lines as [|line lines IH]; intros acc Hacc.
  - exact Hacc.
  - cbn [fold_left]. apply IH. unfold Unix.pushPrinter.
    destruct (Js.search Unix.printerLineAt line) as [[n st]|] eqn:E;
      [|exact Hacc].
    apply Forall_app. split; [exact Hacc|].
    constructor; [|constructor]. exact (Hline line n st E).
Qed.

End AvailablePrinters.

Lemma isDefaultName_true n d :
  Unix.isDefaultName n d = true <-> d = Some n.
Proof.
  unfold Unix.isDefaultName. destruct d as [x|].
  - rewrite String.eqb_eq. split; congruence.
  - split; discriminate.
Qed.

(** X3. Every printer returned by
    [UnixPrinterManager.getAvailablePrinters] has a name that is not
    empty and holds no white space, a status without line break, no
    description and no location, and its [isDefault] flag is set, to
    [true] exactly when its name is the one [getDefaultPrinter]
    returns. *)
Theorem available_printers_are_well_formed
    (uh : Unix.Host) (w : World) (printers : list Unix.UnixPrinterInfo)
    (d : option string) (p : Unix.UnixPrinterInfo) :
  fst (Unix.getAvailablePrinters uh w) = Ok printers ->
  fst (Unix.getDefaultPrinter uh w) = Ok d ->
  In p printers ->
  Unix.name p <> "" /\ noWhiteSpace (Unix.name p)
  /\ Unix.description p = None /\ Unix.location p = None
  /\ (exists st, Unix.status p = Some st /\ noLineTerminator st)
  /\ (exists b, Unix.isDefault p = Some b
                /\ (b = true <-> d = Some (Unix.name p))).
Proof.
  rewrite getAvailablePrinters_value, getDefaultPrinter_read.
  intros Hlist Hd Hin. injection Hd as <-.
  destruct (Unix.execOutcome uh _) as [out|e].
  - injection Hlist as <-. revert p Hin.
    apply (proj1 (Stdlib.Lists.List.Forall_forall _ _)).
    apply pushPrinter_keeps; [|constructor].
    intros line n st Hs. destruct (search_found _ _ _ Hs) as (suffix & Hat).
    destruct (printerLineAt_captures _ _ _ Hat) as (Hn & Hws & Hst).
    cbn [Unix.name Unix.description Unix.location Unix.status
         Unix.isDefault].
    repeat apply conj; try reflexivity; try assumption.
    + exists st. split; [reflexivity | exact Hst].
    + eexists. split; [reflexivity | apply isDefaultName_true].
  - injection Hlist as <-. destruct Hin.
Qed.

Lemma available_printers_are_well_formed_witness :
  let p := Unix.mkUnixPrinterInfo "Office" None None
             (Some "is idle.  enabled since Mon 01 Jan") (Some true) in
  Unix.name p <> "" /\ noWhiteSpace (Unix.name p)
  /\ Unix.description p = None /\ Unix.location p = None
  /\ (exists st, Unix.status p = Some st /\ noLineTerminator st)
  /\ (exists b, Unix.isDefault p = Some b
                /\ (b = true <-> Some "Office" = Some (Unix.name p))).
Proof.
  exact (available_printers_are_well_formed
           (Examples.cupsHost Examples.requestAccepted) Examples.world0
           [Unix.mkUnixPrinterInfo "Office" None None
              (Some "is idle.  enabled since Mon 01 Jan") (Some true)]
           (Some "Office")
           (Unix.mkUnixPrinterInfo "Office" None None
              (Some "is idle.  enabled since Mon 01 Jan") (Some true))
           eq_refl eq_refl (or_introl eq_refl)).
Defined.

(** ** From the lines of [lpstat] back to the queues *)

Lemma chars_append a b c :
  In c (list_ascii_of_string (a +:+ b)) ->
  In c (list_ascii_of_string a) \/ In c (list_ascii_of_string b).
Proof.
  induction a as [|x a IH]; [right; assumption|].
  change (String x a +:+ b) with (String x (a +:+ b)).
  cbn [list_ascii_of_string In]. intros [H|H]; [left; left; exact H|].
  destruct (IH H); [left; right; assumption | right; assumption].
Qed.

Lemma append_empty_r s : s +:+ "" = s.
Proof.
  induction s as [|c s IH]; [reflexivity|].
  change (String c s +:+ "") with (String c (s +:+ "")). rewrite IH.
  reflexivity.
Qed.

(** A line without line feed, followed by a line feed, is the first piece
    of the split. *)
Lemma split_first_line line rest :
  (forall c, In c (list_ascii_of_string line) -> Ascii.eqb c "010" = false) ->
  Js.split "010" (line +:+ Examples.nl +:+ rest)
  = line :: Js.split "010" rest.
Proof.
  intros H. induction line as [|c line IH].
  - reflexivity.
  - change (String c line +:+ Examples.nl +:+ rest)
      with (String c (line +:+ Examples.nl +:+ rest)).
    cbn [Js.split]. rewrite (H c (or_introl eq_refl)), IH; [reflexivity|].
    intros x Hx. apply H. right. exact Hx.
Qed.

Lemma not_line_feed_of_word c : Js.isWhiteSpace c = false ->
  Ascii.eqb c "010" = false.
Proof.
  intros H. apply Ascii.eqb_neq. intros ->. discriminate H.
Qed.

Lemma not_line_feed_of_status c : Js.isLineTerminator c = false ->
  Ascii.eqb c "010" = false.
Proof.
  intros H. apply Ascii.eqb_neq. intros ->. discriminate H.
Qed.

Lemma lpstatLine_one_line q :
  queueWellFormed q ->
  forall c, In c (list_ascii_of_string (lpstatLine q)) ->
            Ascii.eqb c "010" = false.
Proof.
  intros (_ & Hname & Hstatus & _) c Hc. unfold lpstatLine in Hc.
  apply chars_append in Hc as [Hc|Hc].
  - cbn in Hc. repeat (destruct Hc as [<-|Hc]; [reflexivity|]). destruct Hc.
  - apply chars_append in Hc as [Hc|Hc].
    + apply not_line_feed_of_word, Hname, Hc.
    + apply chars_append in Hc as [Hc|Hc].
      * cbn in Hc. destruct Hc as [<-|[]]. reflexivity.
      * apply not_line_feed_of_status, Hstatus, Hc.
Qed.

(** The pattern of [getAvailablePrinters] finds the name and the status
    of a line as [lpstat] prints it. *)
Lemma printerLineAt_lpstatLine q :
  queueWellFormed q ->
  Unix.printerLineAt (lpstatLine q) = Some (fst q, snd q).
Proof.
  destruct q as [n st]. intros (Hne & Hname & Hstatus & Hstart).
  cbn [fst snd] in *. unfold lpstatLine, Unix.printerLineAt. cbn [fst snd].
  change (Js.dropPrefix "printer" ("printer " +:+ n +:+ " " +:+ st))
    with (Some (" " +:+ n +:+ " " +:+ st)).
  cbv iota.
  rewrite (span_append Js.isWhiteSpace " " (n +:+ " " +:+ st)).
  - cbn [Js.isEmpty]. cbv iota.
    rewrite (span_append (fun c => negb (Js.isWhiteSpace c)) n (" " +:+ st)).
    + destruct n as [|c n]; [contradiction|]. cbn [Js.isEmpty]. cbv iota.
      rewrite (span_append Js.isWhiteSpace " " st).
      * cbn [Js.isEmpty]. cbv iota.
        rewrite <- (append_empty_r st) at 1.
        rewrite (span_append (fun c => negb (Js.isLineTerminator c)) st "").
        -- reflexivity.
        -- intros x Hx. rewrite (Hstatus x Hx). reflexivity.
        -- left. reflexivity.
      * intros x [<-|[]]. reflexivity.
      * exact Hstart.
    + intros x Hx. rewrite (Hname x Hx). reflexivity.
    + right. exists " "%char, st. split; reflexivity.
  - intros x [<-|[]]. reflexivity.
  - right. destruct n as [|c n]; [contradiction|].
    exists c, (n +:+ " " +:+ st). split; [reflexivity|].
    apply Hname. left. reflexivity.
Qed.

Lemma pushPrinter_lpstatLines d qs :
  Forall queueWellFormed qs ->
  forall acc,
    fold_left (Unix.pushPrinter d) (map lpstatLine qs) acc
    = acc ++ map (printerOfQueue d) qs.
Proof.
  induction 1 as [|q qs Hq _ IH]; intros acc.
  - symmetry. apply app_nil_r.
  - cbn [map fold_left]. rewrite IH. unfold Unix.pushPrinter.
    rewrite (search_at_start _ _ _ (printerLineAt_lpstatLine q Hq)).
    rewrite <- app_assoc. reflexivity.
Qed.

Lemma split_lpstatLines qs footer :
  Forall queueWellFormed qs ->
  Js.split "010" (lpstatLines qs +:+ footer)
  = map lpstatLine qs ++ Js.split "010" footer.
Proof.
  induction 1 as [|q qs Hq _ IH]; [reflexivity|].
  cbn [lpstatLines map app].
  assert (Hassoc : forall a b c : string, (a +:+ b) +:+ c = a +:+ b +:+ c).
  { intros a b c. induction a as [|x a IHa]; [reflexivity|].
    change ((String x a +:+ b) +:+ c) with (String x ((a +:+ b) +:+ c)).
    rewrite IHa. reflexivity. }
  rewrite !Hassoc.
  rewrite (split_first_line _ _ (lpstatLine_one_line q Hq)), IH.
  reflexivity.
Qed.

Lemma filter_lpstatLines qs :
  filter (fun line => Js.startsWith line "printer" = true)
    (map lpstatLine qs)
  = map lpstatLine qs.
Proof.
  induction qs as [|q qs IH]; [reflexivity|].
  cbn [map]. rewrite filter_cons_True by reflexivity. rewrite IH.
  reflexivity.
Qed.

(** X4. Round trip with the output of [lpstat -p]: when the command
    prints one line [printer <name> <status>] per queue, followed by
    lines that do not start with [printer] (such as the default
    destination), [getAvailablePrinters] returns exactly these queues, in
    order, each with its name and status, and flagged as default when its
    name is the default destination. *)
Theorem available_printers_round_trip
    (uh : Unix.Host) (w : World) (qs : list (string * string))
    (footer : string) (out : Unix.ExecOutput) :
  Forall queueWellFormed qs ->
  filter (fun line => Js.startsWith line "printer" = true)
    (Js.split "010" footer) = [] ->
  Unix.execOutcome uh "lpstat -p -d 2>/dev/null || lpstat -p" = Ok out ->
  Unix.stdout out = lpstatLines qs +:+ footer ->
  fst (Unix.getAvailablePrinters uh w)
  = Ok (map (printerOfQueue (defaultReadBy uh)) qs).
Proof.
  intros Hqs Hfooter Hexec Hout.
  rewrite getAvailablePrinters_value, Hexec, Hout.
  rewrite (split_lpstatLines qs footer Hqs), filter_app, Hfooter, app_nil_r.
  rewrite filter_lpstatLines, (pushPrinter_lpstatLines _ qs Hqs).
  reflexivity.
Qed.

(** Checks a property of every code unit of a literal. *)
Ltac each_char :=
  let c := fresh "c" in
  let Hc := fresh "Hc" in
  intros c Hc; cbn in Hc;
  repeat (destruct Hc as [<-|Hc]; [reflexivity|]); destruct Hc.

Lemma twoQueues_well_formed : Forall queueWellFormed twoQueues.
Proof.
  assert (Hq : forall n st c r,
             n <> "" -> noWhiteSpace n -> noLineTerminator st ->
             st = String c r -> Js.isWhiteSpace c = false ->
             queueWellFormed (n, st)).
  { intros n st c r Hn Hw Hl Hst Hc. repeat apply conj; cbn [fst snd];
      [exact Hn | exact Hw | exact Hl | right; eauto]. }
  unfold twoQueues. constructor; [|constructor; [|constructor]].
  - eapply Hq; [discriminate | each_char | each_char | reflexivity
                | reflexivity].
  - eapply Hq; [discriminate | each_char | each_char | reflexivity
                | reflexivity].
Qed.

Lemma available_printers_round_trip_witness :
  fst (Unix.getAvailablePrinters noDefaultHost Examples.world0)
  = Ok [Unix.mkUnixPrinterInfo "Lobby" None None
          (Some "is idle.  enabled since Mon 01 Jan") (Some false);
        Unix.mkUnixPrinterInfo "Office" None None
          (Some "disabled since Tue 02 Jan -") (Some false)].
Proof.
  exact (available_printers_round_trip noDefaultHost Examples.world0
           twoQueues ("no system default destination" +:+ Examples.nl)
           (Unix.mkExecOutput
              (lpstatLines twoQueues
                 +:+ "no system default destination" +:+ Examples.nl) "")
           twoQueues_well_formed eq_refl eq_refl eq_refl).
Defined.

(** ** The Unix printer: construction and initialization *)

Lemma trimStart_blank n :
  (forall c, In c (list_ascii_of_string n) -> Js.isWhiteSpace c = true) ->
  Js.trimStart n = "".
Proof.
  induction n as [|c n IH]; intros H; [reflexivity|].
  cbn [Js.trimStart]. rewrite (H c (or_introl eq_refl)).
  apply IH. intros x Hx. apply H. right. exact Hx.
Qed.

Lemma trim_cases n :
  (forall c, In c (list_ascii_of_string n) -> Js.isWhiteSpace c = true)
  \/ Js.trim n <> "".
Proof.
  unfold Js.trim. induction n as [|c n IH]; [left; intros c []|].
  cbn [Js.trimStart]. destruct (Js.isWhiteSpace c) eqn:Hc.
  - destruct IH as [IH|IH]; [left | right; exact IH].
    intros x [<-|Hx]; [exact Hc | exact (IH x Hx)].
  - right. cbn [Js.trimEnd]. rewrite Hc.
    destruct (Js.trimEnd n); discriminate.
Qed.

Lemma length_zero s : (String.length s =? 0)%nat = true <-> s = "".
Proof.
  destruct s; cbn; split; intros H; try reflexivity; discriminate H.
Qed.

(** X5. The constructor of [UnixPDFPrinter] throws ['Printer name cannot
    be empty'] exactly for a name that is not the empty string and is
    made of white space only.  Any other argument is accepted without
    looking at the system: the instance holds the name as given (the
    empty string when none is given) and is not initialized. *)
Theorem unix_constructor_rejects_blank_names (given : option string) :
  (forall n,
     given = Some n -> blankName n ->
     Unix.constructor given
     = Throw (mkError "Printer name cannot be empty"))
  /\ ((forall n, given = Some n -> ~ blankName n) ->
      Unix.constructor given
      = Ok (Unix.mkUnixPDFPrinter (Js.orElse given "") false)).
Proof.
  split.
  - intros n -> (Hne & Hblank). unfold Unix.constructor.
    destruct n as [|c n]; [contradiction|]. cbn [Js.truthy Js.isEmpty negb].
    unfold Js.trim. rewrite (trimStart_blank _ Hblank). reflexivity.
  - intros Hok. unfold Unix.constructor.
    destruct given as [n|]; [|reflexivity].
    destruct (Js.truthy n) eqn:Ht; [|reflexivity].
    destruct (trim_cases n) as [Hblank|Htrim].
    + exfalso. apply (Hok n eq_refl). split; [|exact Hblank].
      intros ->. discriminate Ht.
    + destruct (String.length (Js.trim n) =? 0)%nat eqn:E; [|reflexivity].
      apply length_zero in E. contradiction.
Qed.

Example unix_constructor_runs :
  Unix.constructor (Some "   ")
  = Throw (mkError "Printer name cannot be empty")
  /\ Unix.constructor (Some " Office ")
     = Ok (Unix.mkUnixPDFPrinter " Office " false)
  /\ Unix.constructor (Some "")
     = Ok (Unix.mkUnixPDFPrinter "" false)
  /\ Unix.constructor None = Ok (Unix.mkUnixPDFPrinter "" false).
Proof. repeat split. Qed.

Section UnixInitialize.

Context (uh : Unix.Host).

Lemma initialize_done this w :
  Unix.initialized this = true ->
  Unix.initialize uh (this, w) = (Ok tt, (this, w)).
Proof.
  intros H. unfold Unix.initialize, Unix.getThis, bind, gets.
  cbn [fst]. rewrite H. reflexivity.
Qed.

Lemma initialize_sets_flag this w this1 w1 :
  Unix.initialize uh (this, w) = (Ok tt, (this1, w1)) ->
  Unix.initialized this1 = true.
Proof.
  unfold Unix.initialize, Unix.getThis. unfold bind at 1. unfold gets.
  cbn [fst]. destruct (Unix.initialized this) eqn:Hi.
  - intros H. injection H as <- <-. exact Hi.
  - unfold bind at 1.
    match goal with |- context [match ?m ?s with _ => _ end] =>
      destruct (m s) as [[[]|e] s'] end; [|discriminate].
    unfold Unix.setInitialized. intros H. injection H as <- <-.
    reflexivity.
Qed.

(** The log of [print] once the instance is ready: one command. *)
Lemma print_log_after_init this w pdfPath options content this1 w1 :
  files w !! pdfPath = Some (RegularFile content) ->
  Unix.initialize uh (this, w) = (Ok tt, (this1, w1)) ->
  exists log,
    events (snd (snd (Unix.print uh pdfPath options (this, w))))
    = events w1 ++ EvExec (lpCommandOf this1 options pdfPath) :: log
    /\ forall command, ~ In (EvExec command) log.
Proof.
  intros Hfile Hinit.
  rewrite (unix_print_run uh _ _ _ options _ _ _ Hfile Hinit). cbv zeta.
  destruct (Unix.execOutcome uh _) as [out|e].
  - destruct (Js.truthy (Unix.stderr out)
              && negb (Js.includes (Unix.stderr out) "request id")).
    + exists []. split; [reflexivity | intros c []].
    + destruct (Js.truthy (Unix.stdout out)).
      * eexists. split; [reflexivity|].
        intros c [H|[H|[]]]; discriminate H.
      * eexists. split; [reflexivity|].
        intros c [H|[]]; discriminate H.
  - exists []. split; [reflexivity | intros c []].
Qed.

End UnixInitialize.

(** X6. Initialization happens once.  After an [initialize] that
    returned, the instance is marked initialized, a further [initialize]
    changes nothing and runs no command, and a [print] of a regular file
    executes the [lp] command and nothing else: [lpstat] is not asked
    again and the printer name is not validated again. *)
Theorem initialize_happens_once
    (uh : Unix.Host) (this this1 : Unix.UnixPDFPrinter) (w w1 : World) :
  Unix.initialize uh (this, w) = (Ok tt, (this1, w1)) ->
  Unix.initialized this1 = true
  /\ forall w2,
       Unix.initialize uh (this1, w2) = (Ok tt, (this1, w2))
       /\ forall pdfPath options content,
            files w2 !! pdfPath = Some (RegularFile content) ->
            exists log,
              events (snd (snd (Unix.print uh pdfPath options (this1, w2))))
              = events w2
                ++ EvExec (lpCommandOf this1 options pdfPath) :: log
              /\ forall command, ~ In (EvExec command) log.
Proof.
  intros Hinit. pose proof (initialize_sets_flag uh _ _ _ _ Hinit) as Hflag.
  split; [exact Hflag|]. intros w2.
  pose proof (initialize_done uh this1 w2 Hflag) as Hdone.
  split; [exact Hdone|]. intros pdfPath options content Hfile.
  exact (print_log_after_init uh _ _ _ options _ _ _ Hfile Hdone).
Qed.

Lemma initialize_happens_once_witness :
  let ready := Unix.mkUnixPDFPrinter "Office" true in
  Unix.initialized ready = true
  /\ forall w2,
       Unix.initialize (Examples.cupsHost Examples.requestAccepted)
         (ready, w2) = (Ok tt, (ready, w2))
       /\ forall pdfPath options content,
            files w2 !! pdfPath = Some (RegularFile content) ->
            exists log,
              events (snd (snd (Unix.print
                                  (Examples.cupsHost Examples.requestAccepted)
                                  pdfPath options (ready, w2))))
              = events w2
                ++ EvExec (lpCommandOf ready options pdfPath) :: log
              /\ forall command, ~ In (EvExec command) log.
Proof.
  exact (initialize_happens_once
           (Examples.cupsHost Examples.requestAccepted)
           (Unix.mkUnixPDFPrinter "" false)
           (Unix.mkUnixPDFPrinter "Office" true) Examples.world0
           (logged Examples.world0 [EvExec "lpstat -d 2>/dev/null"])
           eq_refl).
Defined.

Section UnixInitializeChoice.

Context (uh : Unix.Host).

Lemma default_read_is_word w d w1 :
  Unix.getDefaultPrinter uh w = (Ok (Some d), w1) -> Js.truthy d = true.
Proof.
  intros H. pose proof (getDefaultPrinter_value uh w) as Hv.
  rewrite H in Hv. cbn [fst] in Hv.
  destruct (Unix.execOutcome uh _) as [out|e]; [|discriminate].
  injection Hv as Hv. symmetry in Hv.
  destruct (search_found _ _ _ Hv) as (suffix & Hs).
  destruct (defaultDestinationAt_name _ _ Hs) as [Hne _].
  destruct d; [contradiction | reflexivity].
Qed.

Lemma existsb_name_true name (printers : list Unix.UnixPrinterInfo) :
  (exists p, In p printers /\ Unix.name p = name) ->
  existsb (fun p => String.eqb (Unix.name p) name) printers = true.
Proof.
  intros (p & Hin & Hname). apply existsb_exists. exists p.
  split; [exact Hin | apply String.eqb_eq, Hname].
Qed.

Lemma initialize_listed name w printers w1 :
  Js.truthy name = true ->
  Unix.getAvailablePrinters uh w = (Ok printers, w1) ->
  (exists p, In p printers /\ Unix.name p = name) ->
  Unix.initialize uh (Unix.mkUnixPDFPrinter name false, w)
  = (Ok tt, (Unix.mkUnixPDFPrinter name true, w1)).
Proof.
  intros Ht Hlist Hin.
  unfold Unix.initialize, Unix.getThis, bind, gets, liftW, Unix.printerExists.
  simpl. rewrite Ht. simpl. unfold bind. rewrite Hlist. simpl.
  rewrite (existsb_name_true _ _ Hin). reflexivity.
Qed.

Lemma initialize_default w d w1 :
  Unix.getDefaultPrinter uh w = (Ok (Some d), w1) ->
  Unix.initialize uh (Unix.mkUnixPDFPrinter "" false, w)
  = (Ok tt, (Unix.mkUnixPDFPrinter d true, w1)).
Proof.
  intros Hd. pose proof (default_read_is_word _ _ _ Hd) as Ht.
  unfold Unix.initialize, Unix.getThis, bind, gets, liftW. simpl.
  rewrite Hd. simpl. unfold Js.truthy in Ht.
  destruct (Js.isEmpty d); [discriminate|]. simpl.
  unfold Js.truthy. destruct d; reflexivity.
Qed.

Lemma initialize_first_listed w d w1 first rest w2 :
  Unix.getDefaultPrinter uh w = (Ok d, w1) ->
  Js.falsy d = true ->
  Unix.getAvailablePrinters uh w1 = (Ok (first :: rest), w2) ->
  Unix.initialize uh (Unix.mkUnixPDFPrinter "" false, w)
  = (Ok tt,
     (Unix.mkUnixPDFPrinter (Unix.name first) true,
      logged w2
        [EvConsoleWarn
           ("No default printer found, using first available printer: "
              +:+ Unix.name first)])).
Proof.
  intros Hd Hf Hlist.
  unfold Unix.initialize, Unix.getThis, bind, gets, liftW. simpl.
  rewrite Hd. simpl. rewrite Hf. simpl. rewrite Hlist. reflexivity.
Qed.

(** The two exceptions of [initialize]. *)
Lemma initialize_throws this w e s1 :
  Unix.initialize uh (this, w) = (Throw e, s1) ->
  message e = "Printer not found: " +:+ Unix.printerName this
  \/ message e = "No printers found on this system".
Proof.
  unfold Unix.initialize, Unix.getThis, Unix.printerExists.
  unfold bind at 1. unfold gets. cbn [fst].
  destruct (Unix.initialized this); [discriminate|].
  unfold bind at 1.
  destruct (negb (Js.truthy (Unix.printerName this))).
  - unfold bind at 1. unfold liftW at 1. cbn [fst snd].
    destruct (getDefaultPrinter_returns uh w) as [d Hd].
    destruct (Unix.getDefaultPrinter uh w) as [r w1]. cbn [fst] in Hd.
    subst r. destruct (Js.falsy d).
    + unfold bind at 1. unfold liftW at 1. cbn [fst snd].
      destruct (getAvailablePrinters_returns uh w1) as [ps Hps].
      destruct (Unix.getAvailablePrinters uh w1) as [r w2].
      cbn [fst] in Hps. subst r. destruct ps as [|first rest].
      * intros H. injection H as <- _. right. reflexivity.
      * discriminate.
    + discriminate.
  - unfold bind at 1. unfold liftW at 1. unfold bind at 1. cbn [fst snd].
    destruct (getAvailablePrinters_returns uh w) as [ps Hps].
    destruct (Unix.getAvailablePrinters uh w) as [r w2].
    cbn [fst] in Hps. subst r. cbn.
    destruct (existsb _ ps); cbn; [discriminate|].
    intros H. injection H as <- _. left. reflexivity.
Qed.

End UnixInitializeChoice.

(** X7. How [initialize] settles the printer of an instance that is not
    initialized yet.  A given name that [getAvailablePrinters] lists is
    kept.  With no name, the default destination is taken whenever
    [getDefaultPrinter] returns one, and the list of printers is not
    asked for.  With no name and no default, the first printer listed is
    taken and a warning is written to the console.  In each case the
    instance ends up initialized. *)
Theorem initialize_chooses_printer (uh : Unix.Host) (w : World) :
  (forall name printers w1,
     Js.truthy name = true ->
     Unix.getAvailablePrinters uh w = (Ok printers, w1) ->
     (exists p, In p printers /\ Unix.name p = name) ->
     Unix.initialize uh (Unix.mkUnixPDFPrinter name false, w)
     = (Ok tt, (Unix.mkUnixPDFPrinter name true, w1)))
  /\ (forall d w1,
        Unix.getDefaultPrinter uh w = (Ok (Some d), w1) ->
        Unix.initialize uh (Unix.mkUnixPDFPrinter "" false, w)
        = (Ok tt, (Unix.mkUnixPDFPrinter d true, w1)))
  /\ (forall d w1 first rest w2,
        Unix.getDefaultPrinter uh w = (Ok d, w1) ->
        Js.falsy d = true ->
        Unix.getAvailablePrinters uh w1 = (Ok (first :: rest), w2) ->
        Unix.initialize uh (Unix.mkUnixPDFPrinter "" false, w)
        = (Ok tt,
           (Unix.mkUnixPDFPrinter (Unix.name first) true,
            logged w2
              [EvConsoleWarn
                 ("No default printer found, using first available printer: "
                    +:+ Unix.name first)]))).
Proof.
  repeat apply conj.
  - intros name printers w1. apply initialize_listed.
  - intros d w1. apply initialize_default.
  - intros d w1 first rest w2. apply initialize_first_listed.
Qed.

Example initialize_chooses_printer_runs :
  Unix.initialize (Examples.cupsHost Examples.requestAccepted)
    (Unix.mkUnixPDFPrinter "Office" false, Examples.world0)
  = (Ok tt,
     (Unix.mkUnixPDFPrinter "Office" true,
      logged Examples.world0
        [EvExec "lpstat -p -d 2>/dev/null || lpstat -p";
         EvExec "lpstat -d 2>/dev/null"]))
  /\ Unix.initialize (Examples.cupsHost Examples.requestAccepted)
       (Unix.mkUnixPDFPrinter "" false, Examples.world0)
     = (Ok tt,
        (Unix.mkUnixPDFPrinter "Office" true,
         logged Examples.world0 [EvExec "lpstat -d 2>/dev/null"]))
  /\ Unix.initialize noDefaultHost
       (Unix.mkUnixPDFPrinter "" false, Examples.world0)
     = (Ok tt,
        (Unix.mkUnixPDFPrinter "Lobby" true,
         logged Examples.world0
           [EvExec "lpstat -d 2>/dev/null";
            EvExec "lpstat -p -d 2>/dev/null || lpstat -p";
            EvExec "lpstat -d 2>/dev/null";
            EvConsoleWarn
              "No default printer found, using first available printer: Lobby"])).
Proof. repeat split; vm_compute; reflexivity. Qed.

Lemma startsWith_append p s : Js.startsWith (p +:+ s) p = true.
Proof.
  unfold Js.startsWith. induction p as [|c p IH].
  - destruct s; reflexivity.
  - change (String c p +:+ s) with (String c (p +:+ s)).
    cbn [String.prefix]. destruct (ascii_dec c c); [exact IH | contradiction].
Qed.

(** X8. Every exception that leaves [UnixPDFPrinter.print] is one of five
    kinds: ['PDF file not found: <path>'], ['Path is not a file: <path>'],
    ['Printer not found: <name of the instance>'], ['No printers found on
    this system'], or a message that starts with ['Failed to print: ']. *)
Theorem unix_print_exceptions_are_classified
    (uh : Unix.Host) (pdfPath : string) (options : Unix.UnixPrintOptions)
    (this : Unix.UnixPDFPrinter) (w : World) (e : JsError) :
  fst (Unix.print uh pdfPath options (this, w)) = Throw e ->
  message e = "PDF file not found: " +:+ pdfPath
  \/ message e = "Path is not a file: " +:+ pdfPath
  \/ message e = "Printer not found: " +:+ Unix.printerName this
  \/ message e = "No printers found on this system"
  \/ Js.startsWith (message e) "Failed to print: " = true.
Proof.
  destruct (files w !! pdfPath) as [[content|]|] eqn:Hfile.
  - destruct (Unix.initialize uh (this, w)) as [[[]|e'] [this1 w1]] eqn:Hinit.
    + rewrite (unix_print_run uh _ _ _ options _ _ _ Hfile Hinit). cbv zeta.
      destruct (Unix.execOutcome uh _) as [out|e0].
      * destruct (Js.truthy (Unix.stderr out)
                  && negb (Js.includes (Unix.stderr out) "request id"));
          [|discriminate].
        intros H. injection H as <-. do 4 right.
        apply (startsWith_append "Failed to print: ").
      * intros H. injection H as <-. do 4 right.
        apply (startsWith_append "Failed to print: ").
    + rewrite (print_initialize_throws uh _ _ _ options _ _ _ Hfile Hinit).
      intros H. injection H as <-.
      destruct (initialize_throws uh _ _ _ _ Hinit) as [Hm|Hm];
        [do 2 right; left; exact Hm | do 3 right; left; exact Hm].
  - rewrite (unix_print_not_file uh _ options this w Hfile).
    intros H. injection H as <-. right. left. reflexivity.
  - rewrite (unix_print_missing uh _ options this w Hfile).
    intros H. injection H as <-. left. reflexivity.
Qed.

Lemma unix_print_exceptions_are_classified_witness :
  let e := mkError
    "Failed to print: Print command failed: lp: Error - printer is out of toner"
  in
  message e = "PDF file not found: " +:+ Examples.report
  \/ message e = "Path is not a file: " +:+ Examples.report
  \/ message e = "Printer not found: " +:+ ""
  \/ message e = "No printers found on this system"
  \/ Js.startsWith (message e) "Failed to print: " = true.
Proof.
  exact (unix_print_exceptions_are_classified (Examples.cupsHost tonerLow)
           Examples.report Unix.noOptions (Unix.mkUnixPDFPrinter "" false)
           Examples.world0 _ eq_refl).
Defined.

(** ** The Windows printer: what a job sends to the spooler *)

(** X9. On Windows the only option read by a print job is
    [options.printer]: [print] and [printRaw] make the same spooler calls
    and finish the same way for any two option objects that name the same
    printer, whatever copies, duplex, paper size, paper source,
    orientation, color, quality and collate are.  The [DEVMODE] object
    built by [createDevMode] is not handed to any spooler call. *)
Theorem windows_job_reads_only_the_printer
    (wh : Windows.Host) (this : Windows.PDFPrinter) (pdfPath : string)
    (data : Buffer) (documentName : option string)
    (options1 options2 : Windows.PrintOptions) (w : World) :
  Windows.printer options1 = Windows.printer options2 ->
  Windows.print wh this pdfPath options1 w
  = Windows.print wh this pdfPath options2 w
  /\ Windows.printRaw wh this data documentName options1 w
     = Windows.printRaw wh this data documentName options2 w.
Proof.
  intros H. unfold Windows.print, Windows.printRaw. rewrite H.
  split; reflexivity.
Qed.

Lemma windows_job_reads_only_the_printer_witness :
  Windows.print Examples.healthySpooler Examples.office Examples.report
    Windows.noOptions Examples.world0
  = Windows.print Examples.healthySpooler Examples.office Examples.report
      verticalOnWindows Examples.world0
  /\ Windows.printRaw Examples.healthySpooler Examples.office [] None
       Windows.noOptions Examples.world0
     = Windows.printRaw Examples.healthySpooler Examples.office [] None
         verticalOnWindows Examples.world0.
Proof.
  exact (windows_job_reads_only_the_printer Examples.healthySpooler
           Examples.office Examples.report [] None Windows.noOptions
           verticalOnWindows Examples.world0 eq_refl).
Defined.

Section SpoolerJob.

Context (wh : Windows.Host) (this : Windows.PDFPrinter)
  (options : Windows.PrintOptions) (w : World) (h : Handle).

Let target : string :=
  Js.orElse (Windows.printer options) (Windows.printerName this).

Lemma print_open_failure pdfPath content e :
  files w !! pdfPath = Some (RegularFile content) ->
  Windows.pm_openPrinter wh target = Throw e ->
  Windows.print wh this pdfPath options w
  = (Throw e, logged w [EvOpenPrinter target]).
Proof.
  intros Hfile Hopen. unfold_job. rewrite Hfile. cbn. fold target.
  rewrite Hfile, Hopen. reflexivity.
Qed.

Lemma printRaw_open_failure data documentName e :
  Windows.pm_openPrinter wh target = Throw e ->
  Windows.printRaw wh this data documentName options w
  = (Throw e, logged w [EvOpenPrinter target]).
Proof.
  intros Hopen. unfold_job. fold target. rewrite Hopen. reflexivity.
Qed.

Hypothesis opened : Windows.pm_openPrinter wh target = Ok h.

Lemma print_close_failure pdfPath content e :
  files w !! pdfPath = Some (RegularFile content) ->
  Windows.pm_closePrinter wh h = Throw e ->
  fst (Windows.print wh this pdfPath options w) = Throw e.
Proof.
  intros Hfile Hclose. unfold_job. rewrite Hfile. cbn. fold target.
  rewrite Hfile, opened. cbn. rewrite Hfile. rewrite !Hclose.
  outcomes; reflexivity.
Qed.

Lemma printRaw_close_failure data documentName e :
  Windows.pm_closePrinter wh h = Throw e ->
  fst (Windows.printRaw wh this data documentName options w) = Throw e.
Proof.
  intros Hclose. unfold_job. fold target. rewrite opened. cbn.
  rewrite !Hclose. outcomes; reflexivity.
Qed.

Context (jobId : Z) (pageEnded docEnded : bool).
Hypothesis started : jobId <> 0.
Hypothesis pageStarts : Windows.api_StartPagePrinter wh h = Ok true.
Hypothesis pageEnds : Windows.api_EndPagePrinter wh h = Ok pageEnded.
Hypothesis docEnds : Windows.api_EndDocPrinter wh h = Ok docEnded.
Hypothesis closes : Windows.pm_closePrinter wh h = Ok tt.

Lemma print_success pdfPath content written :
  files w !! pdfPath = Some (RegularFile content) ->
  Windows.api_StartDocPrinterW wh h 1 (docInfoOfPrint wh pdfPath)
  = Ok (Some jobId) ->
  Windows.api_WritePrinter wh h content (Z.of_nat (length content))
  = Ok (true, written) ->
  Windows.print wh this pdfPath options w
  = (Ok tt,
     logged w [EvOpenPrinter target;
               EvStartDocPrinter h 1 (docInfoOfPrint wh pdfPath);
               EvStartPagePrinter h;
               EvWritePrinter h content (Z.of_nat (length content));
               EvConsoleLog ("Successfully sent "
                               +:+ Js.Number_toString written
                               +:+ " bytes to printer");
               EvEndPagePrinter h; EvEndDocPrinter h; EvClosePrinter h]).
Proof.
  unfold docInfoOfPrint, logged. intros Hfile Hstart Hwrite.
  unfold_job. rewrite Hfile. cbn. fold target.
  rewrite Hfile, opened. cbn. rewrite Hfile, Hstart.
  destruct (Z.eqb_spec jobId 0) as [E|_]; [contradiction|]. cbn.
  rewrite pageStarts. cbn. rewrite Hwrite. cbn. rewrite pageEnds. cbn.
  rewrite docEnds. cbn. rewrite closes. finish_log.
Qed.

Lemma printRaw_success data documentName written :
  Windows.api_StartDocPrinterW wh h 1 (docInfoOfPrintRaw documentName)
  = Ok (Some jobId) ->
  Windows.api_WritePrinter wh h data (Z.of_nat (length data))
  = Ok (true, written) ->
  Windows.printRaw wh this data documentName options w
  = (Ok tt,
     logged w [EvOpenPrinter target;
               EvStartDocPrinter h 1 (docInfoOfPrintRaw documentName);
               EvStartPagePrinter h;
               EvWritePrinter h data (Z.of_nat (length data));
               EvConsoleLog ("Successfully sent "
                               +:+ Js.Number_toString written
                               +:+ " bytes to printer");
               EvEndPagePrinter h; EvEndDocPrinter h; EvClosePrinter h]).
Proof.
  unfold docInfoOfPrintRaw, logged. intros Hstart Hwrite.
  unfold_job. fold target. rewrite opened, Hstart.
  destruct (Z.eqb_spec jobId 0) as [E|_]; [contradiction|]. cbn.
  rewrite pageStarts. cbn. rewrite Hwrite. cbn. rewrite pageEnds. cbn.
  rewrite docEnds. cbn. rewrite closes. finish_log.
Qed.

End SpoolerJob.

(** X10. A job in which every spooler call succeeds.  [print] opens the
    printer, starts a document of datatype ['RAW'] at level 1 named after
    the base name of the path, starts one page, hands the whole contents
    of the file to a single [WritePrinter] call whose length argument is
    the length of the data, logs the number of bytes the spooler
    reported, and ends the page, the document and the handle, in that
    order; then it returns.  [printRaw] does the same with the buffer and
    the document name it was given. *)
Theorem windows_job_sends_the_data_in_one_write
    (wh : Windows.Host) (this : Windows.PDFPrinter)
    (options : Windows.PrintOptions) (w : World) (h : Handle)
    (jobId : Z) (pageEnded docEnded : bool) (pdfPath : string)
    (content data : Buffer) (documentName : option string) :
  let target :=
    Js.orElse (Windows.printer options) (Windows.printerName this) in
  let doc := docInfoOfPrint wh pdfPath in
  let rawDoc := docInfoOfPrintRaw documentName in
  Windows.pm_openPrinter wh target = Ok h ->
  jobId <> 0 ->
  Windows.api_StartPagePrinter wh h = Ok true ->
  Windows.api_EndPagePrinter wh h = Ok pageEnded ->
  Windows.api_EndDocPrinter wh h = Ok docEnded ->
  Windows.pm_closePrinter wh h = Ok tt ->
  (forall written,
     files w !! pdfPath = Some (RegularFile content) ->
     Windows.api_StartDocPrinterW wh h 1 doc = Ok (Some jobId) ->
     Windows.api_WritePrinter wh h content (Z.of_nat (length content))
     = Ok (true, written) ->
     Windows.print wh this pdfPath options w
     = (Ok tt,
        logged w [EvOpenPrinter target; EvStartDocPrinter h 1 doc;
                  EvStartPagePrinter h;
                  EvWritePrinter h content (Z.of_nat (length content));
                  EvConsoleLog ("Successfully sent "
                                  +:+ Js.Number_toString written
                                  +:+ " bytes to printer");
                  EvEndPagePrinter h; EvEndDocPrinter h; EvClosePrinter h]))
  /\ (forall written,
        Windows.api_StartDocPrinterW wh h 1 rawDoc = Ok (Some jobId) ->
        Windows.api_WritePrinter wh h data (Z.of_nat (length data))
        = Ok (true, written) ->
        Windows.printRaw wh this data documentName options w
        = (Ok tt,
           logged w [EvOpenPrinter target; EvStartDocPrinter h 1 rawDoc;
                     EvStartPagePrinter h;
                     EvWritePrinter h data (Z.of_nat (length data));
                     EvConsoleLog ("Successfully sent "
                                     +:+ Js.Number_toString written
                                     +:+ " bytes to printer");
                     EvEndPagePrinter h; EvEndDocPrinter h;
                     EvClosePrinter h])).
Proof.
  intros target doc rawDoc Hopen Hjob Hpage HpageEnd HdocEnd Hclose. split.
  - intros written Hfile Hstart Hwrite.
    exact (print_success wh this options w h Hopen jobId pageEnded docEnded
             Hjob Hpage HpageEnd HdocEnd Hclose pdfPath content written
             Hfile Hstart Hwrite).
  - intros written Hstart Hwrite.
    exact (printRaw_success wh this options w h Hopen jobId pageEnded
             docEnded Hjob Hpage HpageEnd HdocEnd Hclose data documentName
             written Hstart Hwrite).
Qed.

Lemma windows_job_sends_the_data_in_one_write_witness :
  Windows.printRaw Examples.healthySpooler Examples.office
    ["%"%byte; "P"%byte; "D"%byte; "F"%byte] (Some "Invoice")
    Windows.noOptions Examples.world0
  = (Ok tt,
     logged Examples.world0
       [EvOpenPrinter "Office";
        EvStartDocPrinter 7 1 (mkDocInfo "Invoice" None "RAW");
        EvStartPagePrinter 7;
        EvWritePrinter 7 ["%"%byte; "P"%byte; "D"%byte; "F"%byte] 4;
        EvConsoleLog "Successfully sent 4 bytes to printer";
        EvEndPagePrinter 7; EvEndDocPrinter 7; EvClosePrinter 7]).
Proof.
  exact (proj2
           (windows_job_sends_the_data_in_one_write Examples.healthySpooler
              Examples.office Windows.noOptions Examples.world0 7 12 true
              true Examples.report []
              ["%"%byte; "P"%byte; "D"%byte; "F"%byte] (Some "Invoice")
              eq_refl ltac:(discriminate) eq_refl eq_refl eq_refl eq_refl)
           4 eq_refl eq_refl).
Defined.

(** X11. Exceptions at the two ends of a job.  When [openPrinter]
    throws, [print] (on a regular file) and [printRaw] throw the same
    exception and make no other spooler call: no document is started and
    [closePrinter] is not called.  When the handle was opened and
    [closePrinter] throws, its exception is what [print] and [printRaw]
    throw, whatever happened before: it replaces the result of a job
    that succeeded as well as an earlier error. *)
Theorem windows_job_open_and_close_failures
    (wh : Windows.Host) (this : Windows.PDFPrinter)
    (options : Windows.PrintOptions) (w : World) (pdfPath : string)
    (content data : Buffer) (documentName : option string) :
  let target :=
    Js.orElse (Windows.printer options) (Windows.printerName this) in
  (forall e,
     Windows.pm_openPrinter wh target = Throw e ->
     (files w !! pdfPath = Some (RegularFile content) ->
      Windows.print wh this pdfPath options w
      = (Throw e, logged w [EvOpenPrinter target]))
     /\ Windows.printRaw wh this data documentName options w
        = (Throw e, logged w [EvOpenPrinter target]))
  /\ (forall h e,
        Windows.pm_openPrinter wh target = Ok h ->
        Windows.pm_closePrinter wh h = Throw e ->
        (files w !! pdfPath = Some (RegularFile content) ->
         fst (Windows.print wh this pdfPath options w) = Throw e)
        /\ fst (Windows.printRaw wh this data documentName options w)
           = Throw e).
Proof.
  intros target. split.
  - intros e Hopen. split.
    + intros Hfile.
      exact (print_open_failure wh this options w pdfPath content e Hfile
               Hopen).
    + exact (printRaw_open_failure wh this options w data documentName e
               Hopen).
  - intros h e Hopen Hclose. split.
    + intros Hfile.
      exact (print_close_failure wh this options w h Hopen pdfPath content e
               Hfile Hclose).
    + exact (printRaw_close_failure wh this options w h Hopen data
               documentName e Hclose).
Qed.

Example windows_job_open_failure_runs :
  Windows.print Examples.healthySpooler Examples.office Examples.report
    (Windows.mkPrintOptions (Some "Ghost") None None None None None None
       None None)
    Examples.world0
  = (Throw (mkError "Failed to open printer: Ghost"),
     logged Examples.world0 [EvOpenPrinter "Ghost"]).
Proof. vm_compute. reflexivity. Qed.

(** ** The [DEVMODE] object *)

(** X12. The fields of the object built by [createDevMode], besides
    duplex: [dmCopies] is the number of copies when it is positive and is
    left out for zero, a negative number or no number; [dmPaperSize] and
    [dmDefaultSource] are the paper size and the paper source unless they
    are zero or absent; [dmOrientation] is [PORTRAIT] or [LANDSCAPE], and
    [dmColor] is [COLOR] for [true] and [MONOCHROME] for [false]. *)
Theorem createDevMode_fields
    (wh : Windows.Host) (options : Windows.PrintOptions) :
  let devMode := Windows.createDevMode wh options in
  Windows.dmCopies devMode
  = match Windows.copies options with
    | Some n => if 0 <? n then Some n else None
    | None => None
    end
  /\ Windows.dmPaperSize devMode
     = match Windows.paperSize options with
       | Some size => if size =? 0 then None else Some size
       | None => None
       end
  /\ Windows.dmDefaultSource devMode
     = match Windows.paperSource options with
       | Some source => if source =? 0 then None else Some source
       | None => None
       end
  /\ Windows.dmOrientation devMode
     = match Windows.orientation options with
       | Some portrait => Some (Windows.PORTRAIT wh)
       | Some landscape => Some (Windows.LANDSCAPE wh)
       | None => None
       end
  /\ Windows.dmColor devMode
     = match Windows.color options with
       | Some true => Some (Windows.COLOR_MODE wh)
       | Some false => Some (Windows.MONOCHROME wh)
       | None => None
       end.
Proof.
  destruct options as [pr cp dp ps src ori col q cl].
  unfold Windows.createDevMode.
  cbn [Windows.copies Windows.duplex Windows.paperSize Windows.paperSource
       Windows.orientation Windows.color].
  assert (Hcp : forall n, negb (n =? 0) && (0 <? n) = (0 <? n)).
  { intros n. destruct (Z.ltb_spec 0 n); [|apply andb_false_r].
    destruct (Z.eqb_spec n 0); [lia | reflexivity]. }
  destruct cp as [n|]; [rewrite Hcp; destruct (0 <? n)|];
  destruct dp as [[| |]|];
  (destruct ps as [s|]; [destruct (s =? 0)|]);
  (destruct src as [t|]; [destruct (t =? 0)|]);
  destruct ori as [[|]|]; destruct col as [[|]|];
  repeat split.
Qed.

Lemma ToInt32_small x : 0 <= x < 2 ^ 31 -> Js.ToInt32 x = x.
Proof.
  intros H. unfold Js.ToInt32. rewrite Z.mod_small; lia.
Qed.

Lemma lor_small a b :
  0 <= a < 2 ^ 31 -> 0 <= b < 2 ^ 31 -> 0 <= Z.lor a b < 2 ^ 31.
Proof.
  intros Ha Hb. split; [apply Z.lor_nonneg; lia|].
  destruct (Z.eq_dec (Z.lor a b) 0) as [->|Hne]; [lia|].
  assert (0 <= Z.lor a b) by (apply Z.lor_nonneg; lia).
  apply Z.log2_lt_pow2; [lia|].
  rewrite Z.log2_lor by lia.
  apply Z.max_lub_lt.
  - destruct (Z.eq_dec a 0) as [->|]; [cbn; lia|].
    apply Z.log2_lt_pow2; lia.
  - destruct (Z.eq_dec b 0) as [->|]; [cbn; lia|].
    apply Z.log2_lt_pow2; lia.
Qed.

Lemma bitor_small a b :
  0 <= a < 2 ^ 31 -> 0 <= b < 2 ^ 31 -> Js.bitor a b = Z.lor a b.
Proof.
  intros Ha Hb. unfold Js.bitor. rewrite !ToInt32_small by assumption.
  reflexivity.
Qed.

(** X13. When the field flags are non-negative numbers below 2^31,
    [dmFields] of the object built by [createDevMode] is the bitwise OR
    of the flags of exactly the fields that were assigned: no flag is set
    for a field that was left out, and none is missing. *)
Theorem createDevMode_flags_match_fields
    (wh : Windows.Host) (options : Windows.PrintOptions) :
  flagsInRange wh ->
  let devMode := Windows.createDevMode wh options in
  Windows.dmFields devMode = fold_left Z.lor (assignedFlags wh devMode) 0.
Proof.
  intros (Hc & Hd & Hp & Hs & Ho & Hcol).
  destruct options as [pr cp dp ps src ori col q cl].
  unfold Windows.createDevMode, assignedFlags, flagIf.
  cbn [Windows.copies Windows.duplex Windows.paperSize Windows.paperSource
       Windows.orientation Windows.color].
  assert (H0 : 0 <= 0 < 2 ^ 31) by lia.
  destruct cp as [n|]; [destruct (negb (n =? 0) && (0 <? n))|];
  destruct dp as [[| |]|];
  (destruct ps as [s|]; [destruct (negb (s =? 0))|]);
  (destruct src as [t|]; [destruct (negb (t =? 0))|]);
  destruct ori as [o|]; destruct col as [c|];
  cbn [Windows.dmDuplex Windows.dmFields Windows.dmCopies
       Windows.dmPaperSize Windows.dmDefaultSource Windows.dmOrientation
       Windows.dmColor Windows.orFields Windows.setCopies
       Windows.setDuplex Windows.setPaperSize Windows.setDefaultSource
       Windows.setOrientation Windows.setColor app fold_left];
  repeat match goal with
         | |- context [Js.bitor ?a ?b] =>
             lazymatch a with
             | context [Js.bitor] => fail
             | _ => rewrite (bitor_small a b)
                      by (repeat apply lor_small; assumption)
             end
         end;
  reflexivity.
Qed.

Lemma sdk_flags_in_range : flagsInRange Examples.healthySpooler.
Proof. unfold flagsInRange. cbn. repeat split; lia. Qed.

Lemma createDevMode_flags_match_fields_witness :
  Windows.dmFields
    (Windows.createDevMode Examples.healthySpooler verticalOnWindows)
  = fold_left Z.lor [256; 4096; 2; 1; 2048] 0.
Proof.
  exact (createDevMode_flags_match_fields Examples.healthySpooler
           verticalOnWindows sdk_flags_in_range).
Defined.

(** ** The Windows constructor *)

(** X14. How the Windows constructor settles the printer.  A given name
    that [printerExists] accepts is kept, and nothing else is asked.
    With no name (or the empty string), the default printer is taken when
    [getDefaultPrinter] returns a name; otherwise the first printer of
    [getAvailablePrinters] is taken and a warning is written to the
    console.  An exception of the printer manager leaves the constructor
    as it is. *)
Theorem windows_constructor_chooses_printer
    (wh : Windows.Host) (w : World) :
  (forall name,
     Js.truthy name = true ->
     Windows.pm_printerExists wh name = Ok true ->
     Windows.constructor wh (Some name) w
     = (Ok (Windows.mkPDFPrinter name), w))
  /\ (forall given d,
        Js.falsy given = true ->
        Windows.pm_getDefaultPrinter wh = Ok (Some d) ->
        Js.truthy d = true ->
        Windows.constructor wh given w = (Ok (Windows.mkPDFPrinter d), w))
  /\ (forall given d first rest,
        Js.falsy given = true ->
        Windows.pm_getDefaultPrinter wh = Ok d ->
        Js.falsy d = true ->
        Windows.pm_getAvailablePrinters wh = Ok (first :: rest) ->
        Windows.constructor wh given w
        = (Ok (Windows.mkPDFPrinter (Windows.infoName wh first)),
           logged w
             [EvConsoleWarn
                ("No default printer found, using first available printer: "
                   +:+ Windows.infoName wh first)]))
  /\ (forall name e,
        Js.truthy name = true ->
        Windows.pm_printerExists wh name = Throw e ->
        Windows.constructor wh (Some name) w = (Throw e, w)).
Proof.
  unfold Windows.constructor, bind, ret, Windows.query, console_warn, emit,
    logged.
  repeat apply conj.
  - intros name Ht Hex. unfold Js.falsy, Js.orElse, Js.truthy in *.
    destruct (Js.isEmpty name); [discriminate|]. cbn. rewrite Hex.
    reflexivity.
  - intros given d Hg Hd Ht. rewrite Hg. cbn. rewrite Hd.
    unfold Js.falsy, Js.orElse, Js.truthy in *.
    destruct (Js.isEmpty d); [discriminate|]. reflexivity.
  - intros given d first rest Hg Hd Hf Hl. rewrite Hg. cbn.
    rewrite Hd, Hf, Hl. reflexivity.
  - intros name e Ht Hex. unfold Js.falsy, Js.orElse, Js.truthy in *.
    destruct (Js.isEmpty name); [discriminate|]. cbn. rewrite Hex.
    reflexivity.
Qed.

Example windows_constructor_runs :
  fst (Windows.constructor Examples.healthySpooler (Some "Office")
         Examples.world0)
  = Ok (Windows.mkPDFPrinter "Office")
  /\ fst (Windows.constructor Examples.healthySpooler (Some "")
            Examples.world0)
     = Ok (Windows.mkPDFPrinter "Office").
Proof. split; vm_compute; reflexivity. Qed.

(** ** The facade *)

Lemma onUnix_kind {A} isUnix1 p (m : M (Unix.UnixPDFPrinter * World) A) s :
  exists p',
    fst (snd (Index.onUnix isUnix1 p m s))
    = Index.mkPDFPrinter (Index.UnixPDFPrinter p') isUnix1.
Proof.
  unfold Index.onUnix. destruct (m (p, snd s)) as [r [p' w']].
  exists p'. reflexivity.
Qed.

(** X15. The facade stays in agreement with the platform.  The
    [PDFPrinter] built by the cross-platform constructor holds the
    implementation of the platform and has [isUnix] set accordingly, and
    [print], [printRaw] and [getCapabilities] keep it so, whether they
    return or throw: a Windows implementation is left untouched, and a
    Unix implementation is replaced only by its own later state. *)
Theorem facade_agrees_with_platform
    (pf : Index.Platform) (given : option string) (w : World)
    (pdfPath : string) (data : Buffer) (documentName : option string)
    (options : Index.AnyOptions) :
  (forall this w',
     Index.constructor pf given w = (Ok this, w') -> facadeAgrees pf this)
  /\ (forall this,
        facadeAgrees pf this ->
        facadeAgrees pf
          (fst (snd (Index.print pf pdfPath options (this, w))))
        /\ facadeAgrees pf
             (fst (snd (Index.printRaw pf data documentName options
                          (this, w))))
        /\ facadeAgrees pf (fst (snd (Index.getCapabilities pf (this, w))))).
Proof.
  split.
  - intros this w'. unfold Index.constructor, bind, ret, Windows.query.
    destruct (Index.isWindows pf) eqn:Hw.
    + destruct (Windows.constructor _ _ _) as [[p|e] w1]; [|discriminate].
      intros H. injection H as <- _.
      split; cbn [Index.isUnix Index.printer]; rewrite ?Hw; reflexivity.
    + destruct (Unix.constructor given) as [p|e]; [|discriminate].
      intros H. injection H as <- _.
      split; cbn [Index.isUnix Index.printer]; rewrite ?Hw; reflexivity.
  - intros [[p|p] u] [Hu Hk]; cbn [Index.isUnix Index.printer] in *.
    + unfold Index.print, Index.printRaw, Index.getCapabilities, bind, gets,
        liftW. cbn [fst snd Index.printer Index.isUnix].
      split; [|split].
      * destruct (Windows.print _ _ _ _ _).
        split; cbn [fst snd Index.isUnix Index.printer]; assumption.
      * destruct (Windows.printRaw _ _ _ _ _ _).
        split; cbn [fst snd Index.isUnix Index.printer]; assumption.
      * destruct (u && true);
          destruct (Windows.getCapabilities _ _ _) as [[c|e] w1];
          split; cbn [fst snd Index.isUnix Index.printer]; assumption.
    + unfold Index.print, Index.printRaw, Index.getCapabilities, bind, gets.
      cbn [fst snd Index.printer Index.isUnix].
      split; [|split].
      * match goal with
        | |- context [Index.onUnix ?a ?b ?m ?s] =>
            destruct (onUnix_kind a b m s) as [p' ->]
        end.
        split; cbn [fst snd Index.isUnix Index.printer]; assumption.
      * match goal with
        | |- context [Index.onUnix ?a ?b ?m ?s] =>
            destruct (onUnix_kind a b m s) as [p' ->]
        end.
        split; cbn [fst snd Index.isUnix Index.printer]; assumption.
      * unfold Index.onUnix, Unix.getCapabilities, ret.
        destruct (u && true);
          split; cbn [fst snd Index.isUnix Index.printer]; assumption.
Qed.

(** ** The adapter of the Unix printer manager *)

Lemma getAvailablePrinters_fst_snd (uh : Unix.Host) w :
  exists printers w1,
    Unix.getAvailablePrinters uh w = (Ok printers, w1).
Proof.
  destruct (getAvailablePrinters_returns uh w) as [printers H].
  destruct (Unix.getAvailablePrinters uh w) as [r w1]. cbn [fst] in H.
  subst r. eauto.
Qed.

Lemma adapter_listing (uh : Unix.Host) w printers w1 :
  Unix.getAvailablePrinters uh w = (Ok printers, w1) ->
  Adapter.getAvailablePrinters uh w
  = (Ok (map Adapter.toPrinterInfo printers), w1).
Proof.
  intros H. unfold Adapter.getAvailablePrinters, bind, ret. rewrite H.
  reflexivity.
Qed.

Lemma adapter_capabilities (uh : Unix.Host) w printerName printers w1 :
  Unix.getAvailablePrinters uh w = (Ok printers, w1) ->
  Adapter.getPrinterCapabilities uh printerName w
  = (Ok (if existsb (fun p => String.eqb (Unix.name p) printerName) printers
         then Some adapterCapabilities else None), w1).
Proof.
  intros H.
  unfold Adapter.getPrinterCapabilities, Adapter.printerExists,
    Unix.printerExists, bind, ret.
  rewrite H. destruct (existsb _ printers); reflexivity.
Qed.

(** X16. The adapter's [getAvailablePrinters] never throws, runs the
    commands of [UnixPrinterManager.getAvailablePrinters] and nothing
    else, and returns one entry per printer of the manager, in order.
    Every entry has status 0, neither location nor comment, a name that
    is not empty and holds no white space, and [isDefault] set to [true]
    exactly when its name is the default destination the host reports. *)
Theorem adapter_printers_are_well_formed (uh : Unix.Host) (w : World) :
  exists printers w1,
    Unix.getAvailablePrinters uh w = (Ok printers, w1)
    /\ Adapter.getAvailablePrinters uh w
       = (Ok (map Adapter.toPrinterInfo printers), w1)
    /\ map Adapter.name (map Adapter.toPrinterInfo printers)
       = map Unix.name printers
    /\ forall info,
         In info (map Adapter.toPrinterInfo printers) ->
         Adapter.status info = 0
         /\ Adapter.location info = None
         /\ Adapter.comment info = None
         /\ Adapter.name info <> ""
         /\ noWhiteSpace (Adapter.name info)
         /\ (Adapter.isDefault info = true
             <-> defaultReadBy uh = Some (Adapter.name info)).
Proof.
  destruct (getAvailablePrinters_fst_snd uh w) as (printers & w1 & H).
  exists printers, w1. split; [exact H|].
  split; [exact (adapter_listing uh w printers w1 H)|].
  split; [rewrite map_map; reflexivity|].
  pose proof (getAvailablePrinters_value uh w) as Hv.
  rewrite H in Hv. cbn [fst] in Hv.
  assert (Hall : Forall
            (fun p =>
               Unix.location p = None /\ Unix.description p = None
               /\ Unix.name p <> "" /\ noWhiteSpace (Unix.name p)
               /\ (Adapter.orFalse (Unix.isDefault p) = true
                   <-> defaultReadBy uh = Some (Unix.name p)))
            printers).
  { destruct (Unix.execOutcome uh _) as [out|e].
    - injection Hv as ->. apply pushPrinter_keeps; [|constructor].
      intros line n st Hs. destruct (search_found _ _ _ Hs) as (suffix & Hat).
      destruct (printerLineAt_captures _ _ _ Hat) as (Hn & Hws & Hst).
      cbn [Unix.name Unix.description Unix.location Unix.isDefault
           Adapter.orFalse].
      split; [reflexivity|]. split; [reflexivity|]. split; [exact Hn|].
      split; [exact Hws|]. split.
      + destruct (Unix.isDefaultName n (defaultReadBy uh)) eqn:E;
          [intros _; apply isDefaultName_true, E | discriminate].
      + intros Hd. apply isDefaultName_true in Hd. rewrite Hd. reflexivity.
    - injection Hv as ->. constructor. }
  intros info Hin. apply in_map_iff in Hin as (p & <- & Hp).
  pose proof (proj1 (Stdlib.Lists.List.Forall_forall _ _) Hall p Hp)
    as (Hl & Hd & Hn & Hws & Hdef).
  cbn [Adapter.toPrinterInfo Adapter.status Adapter.location Adapter.comment
       Adapter.name Adapter.isDefault].
  split; [reflexivity|]. split; [exact Hl|]. split; [exact Hd|].
  split; [exact Hn|]. split; [exact Hws | exact Hdef].
Qed.

Lemma existsb_queue_names d printerName (qs : list (string * string)) :
  existsb (fun p => String.eqb (Unix.name p) printerName)
    (map (printerOfQueue d) qs)
  = existsb (fun n => String.eqb n printerName) (map fst qs).
Proof.
  induction qs as [|q qs IH]; [reflexivity|].
  cbn [map existsb printerOfQueue Unix.name]. rewrite IH. reflexivity.
Qed.

(** X17. The adapter's [getPrinterCapabilities] follows the listing of
    [lpstat -p]: when the command prints one line per queue, the answer
    is the fixed capabilities (duplex and colour supported, paper sizes
    A4, Letter and Legal, A4 by default, no paper source) for the name of
    a queue, and [null] for any other name.  It does not throw. *)
Theorem adapter_capabilities_follow_the_listing
    (uh : Unix.Host) (w : World) (qs : list (string * string))
    (footer : string) (out : Unix.ExecOutput) (printerName : string) :
  Forall queueWellFormed qs ->
  filter (fun line => Js.startsWith line "printer" = true)
    (Js.split "010" footer) = [] ->
  Unix.execOutcome uh "lpstat -p -d 2>/dev/null || lpstat -p" = Ok out ->
  Unix.stdout out = lpstatLines qs +:+ footer ->
  (In printerName (map fst qs) ->
   fst (Adapter.getPrinterCapabilities uh printerName w)
   = Ok (Some adapterCapabilities))
  /\ (~ In printerName (map fst qs) ->
      fst (Adapter.getPrinterCapabilities uh printerName w) = Ok None).
Proof.
  intros Hqs Hfooter Hexec Hout.
  destruct (getAvailablePrinters_fst_snd uh w) as (printers & w1 & H).
  rewrite (adapter_capabilities uh w printerName printers w1 H).
  pose proof (getAvailablePrinters_value uh w) as Hv.
  rewrite H, Hexec, Hout in Hv. cbn [fst] in Hv.
  rewrite (split_lpstatLines qs footer Hqs), filter_app, Hfooter, app_nil_r
    in Hv.
  rewrite filter_lpstatLines, (pushPrinter_lpstatLines _ qs Hqs) in Hv.
  injection Hv as ->. rewrite existsb_queue_names. cbn [fst].
  split.
  - intros Hin.
    assert (E : existsb (fun n => String.eqb n printerName) (map fst qs)
                = true).
    { apply existsb_exists. exists printerName.
      split; [exact Hin | apply String.eqb_refl]. }
    rewrite E. reflexivity.
  - intros Hnot.
    destruct (existsb (fun n => String.eqb n printerName) (map fst qs))
      eqn:E; [|reflexivity].
    apply existsb_exists in E as (n & Hin & Heq).
    apply String.eqb_eq in Heq. subst n. contradiction.
Qed.

Lemma adapter_capabilities_follow_the_listing_witness :
  fst (Adapter.getPrinterCapabilities noDefaultHost "Office" Examples.world0)
  = Ok (Some adapterCapabilities)
  /\ fst (Adapter.getPrinterCapabilities noDefaultHost "Attic"
            Examples.world0)
     = Ok None.
Proof.
  split.
  - apply (adapter_capabilities_follow_the_listing noDefaultHost
             Examples.world0 twoQueues
             ("no system default destination" +:+ Examples.nl)
             (Unix.mkExecOutput
                (lpstatLines twoQueues
                   +:+ "no system default destination" +:+ Examples.nl) "")
             "Office" twoQueues_well_formed eq_refl eq_refl eq_refl).
    right. left. reflexivity.
  - apply (adapter_capabilities_follow_the_listing noDefaultHost
             Examples.world0 twoQueues
             ("no system default destination" +:+ Examples.nl)
             (Unix.mkExecOutput
                (lpstatLines twoQueues
                   +:+ "no system default destination" +:+ Examples.nl) "")
             "Attic" twoQueues_well_formed eq_refl eq_refl eq_refl).
    intros [H|[H|[]]]; discriminate H.
Defined.

(** ** The temporary file of [printRaw] on Unix *)

Lemma tempSegment_plain n timestamp :
  Js.includes n "/" = false ->
  let seg := n +:+ "-" +:+ Js.Number_toString timestamp +:+ ".pdf" in
  Js.includes seg "/" = false /\ (4 < String.length seg)%nat.
Proof.
  intros Hname seg. split.
  - unfold seg. rewrite includes_slash_app, Hname.
    change ("-" +:+ ?x) with (String "-" x).
    rewrite includes_slash_cons, includes_slash_app, decimal_no_slash.
    reflexivity.
  - unfold seg. rewrite !string_length_append. cbn. lia.
Qed.

Lemma path_normalize_absolute rest :
  exists rest', Js.path_normalize (String "/" rest) = String "/" rest'.
Proof.
  unfold Js.path_normalize.
  change (Js.isEmpty (String "/" rest)) with false.
  assert (Habs : Js.startsWith (String "/" rest) "/" = true).
  { unfold Js.startsWith. cbn [String.prefix].
    destruct (ascii_dec "/" "/") as [_|Hne]; [|congruence].
    destruct rest; reflexivity. }
  rewrite Habs. cbv iota.
  destruct (Js.isEmpty _); eexists; reflexivity.
Qed.

(** X18. The temporary file of [printRaw] is always an absolute path, but
    not always a file of [/tmp]: [path.join] resolves the [..] segments of
    the document name, so that for a document name [../<name>] without
    further separator the file written, printed and removed is
    [/<name>-<timestamp>.pdf]. *)
Theorem temp_file_follows_parent_segments
    (documentName : string) (timestamp : Z) :
  (exists rest, Unix.tempFileOf documentName timestamp = String "/" rest)
  /\ (forall n,
        documentName = "../" +:+ n ->
        Js.includes n "/" = false ->
        Unix.tempFileOf documentName timestamp
        = "/" +:+ n +:+ "-" +:+ Js.Number_toString timestamp +:+ ".pdf").
Proof.
  split.
  - unfold Unix.tempFileOf, Js.path_join.
    rewrite filter_cons_True by reflexivity.
    set (seg := documentName +:+ "-" +:+ Js.Number_toString timestamp
                  +:+ ".pdf").
    destruct (filter _ [seg]) as [|x more];
      [exists "tmp"; reflexivity|].
    change (Js.join "/" ("/tmp" :: x :: more))
      with (String "/" ("tmp" +:+ "/" +:+ Js.join "/" (x :: more))).
    apply path_normalize_absolute.
  - intros n -> Hname.
    destruct (tempSegment_plain n timestamp Hname) as [Hseg Hlen].
    unfold Unix.tempFileOf.
    change (("../" +:+ n) +:+ ?x) with ("../" +:+ (n +:+ x)).
    set (seg := n +:+ "-" +:+ Js.Number_toString timestamp +:+ ".pdf") in *.
    assert (Hne : exists c rest, seg = String c rest).
    { destruct seg; [cbn in Hlen; lia | eauto]. }
    destruct Hne as (c & rest & Hc).
    unfold Js.path_join.
    rewrite filter_cons_True by reflexivity.
    rewrite filter_cons_True by reflexivity.
    rewrite filter_nil.
    change (Js.join "/" ["/tmp"; "../" +:+ seg]) with ("/tmp/../" +:+ seg).
    unfold Js.path_normalize.
    change (Js.isEmpty ("/tmp/../" +:+ seg)) with false.
    change (Js.startsWith ("/tmp/../" +:+ seg) "/") with true.
    cbv iota. cbn [negb].
    assert (Hsplit : Js.split "/" ("/tmp/../" +:+ seg)
                     = [""; "tmp"; ".."; seg]).
    { change ("/tmp/../" +:+ seg)
        with (String "/" (String "t" (String "m" (String "p"
                (String "/" (String "." (String "." (String "/" seg)))))))).
      cbn [Js.split Ascii.eqb Bool.eqb]. rewrite (split_plain seg Hseg).
      reflexivity. }
    rewrite Hsplit.
    assert (Htrail : Js.endsWithSlash ("/tmp/../" +:+ seg) = false).
    { rewrite Hc.
      change (Js.endsWithSlash ("/tmp/../" +:+ String c rest))
        with (Js.endsWithSlash (String c rest)).
      rewrite <- Hc. apply endsWithSlash_plain, Hseg. }
    rewrite Htrail.
    cbn [Js.normalizeSegments String.eqb Ascii.eqb Bool.eqb orb].
    rewrite !(eqb_false_by_length seg) by (cbn; lia).
    cbn [orb rev app Js.join String.concat].
    rewrite Hc at 1. cbn [Js.isEmpty]. reflexivity.
Qed.

Example temp_file_follows_parent_segments_runs :
  Unix.tempFileOf "../etc/motd" 1700000000000
  = "/etc/motd-1700000000000.pdf"
  /\ Unix.tempFileOf "../../../x" 5 = "/x-5.pdf".
Proof. split; vm_compute; reflexivity. Qed.

(** ** Capabilities away from Windows *)

(** X19. Away from Windows no capabilities are looked up.  The
    [getCapabilities] of a facade that agrees with the platform answers
    with the fixed record of the Unix printer (duplex and colour
    supported, with a note), and the static
    [PrinterManager.getPrinterCapabilities] answers [null] for every
    name; neither runs a command nor changes the printer. *)
Theorem capabilities_off_windows
    (pf : Index.Platform) (this : Index.PDFPrinter) (w : World)
    (printerName : string) :
  Index.isWindows pf = false ->
  facadeAgrees pf this ->
  Index.getCapabilities pf (this, w) = (Ok (inr unixCapabilities), (this, w))
  /\ Index.getPrinterCapabilities pf printerName w = (Ok None, w).
Proof.
  intros Hw [Hu Hk]. split.
  - destruct this as [[p|p] u]; cbn [Index.printer Index.isUnix] in *;
      [congruence|].
    unfold Index.getCapabilities, bind, gets, Index.onUnix,
      Unix.getCapabilities, ret.
    cbn [fst snd Index.printer Index.isUnix].
    destruct (u && true); reflexivity.
  - unfold Index.getPrinterCapabilities. rewrite Hw. reflexivity.
Qed.

Lemma capabilities_off_windows_witness :
  let this :=
    Index.mkPDFPrinter
      (Index.UnixPDFPrinter (Unix.mkUnixPDFPrinter "Office" false)) true in
  Index.getCapabilities onLinux (this, Examples.world0)
  = (Ok (inr unixCapabilities), (this, Examples.world0))
  /\ Index.getPrinterCapabilities onLinux "Office" Examples.world0
     = (Ok None, Examples.world0).
Proof.
  exact (capabilities_off_windows onLinux
           (Index.mkPDFPrinter
              (Index.UnixPDFPrinter (Unix.mkUnixPDFPrinter "Office" false))
              true)
           Examples.world0 "Office" eq_refl (conj eq_refl eq_refl)).
Defined.
